(** * Python dependency resolver: resolution tool, manifest generator,
      job pipeline and status protocol

    A shallow embedding of the dependency-resolution core of the
    repository:

    - [src/tools.ts]: [pypiLookupTool] (as the result shape its callers
      read), [packageDeprecationAnalysisTool], [dependencyResolutionTool]
      and [requirementsGeneratorTool];
    - [src/shared.ts]: [ResolutionRequestSchema] and [generateReportKey];
    - the resolver agent ([DependencyResolverAgent]):
      [handleResolutionRequest], [processResolution],
      [resolveDependencies], [generateReport], [storeReport],
      [storeError] and [getResolutionStatus];
    - [src/shared.ts]: [parseRequirementString] and [generatePackageKey]
      (module [Requirements]);
    - [src/tools.ts]: [pypiLookupTool] itself, with its cache and its
      fetch (module [Registry]), and [webSearchTool] (module
      [PackageResearch]);
    - [src/services/package-research.ts]: [researchPackage] (module
      [PackageResearch]);
    - [src/app.tsx]: the form's [handleSubmit] (module [Form]).

    Modelling conventions.

    - JavaScript strings are [string]s of code units below 256 (Latin-1);
      [trim] and the regular expression class for white space strip the
      white space of that range (tab to carriage return, space and the
      no-break space) and [toLowerCase] folds [A-Z] and the capital
      letters 192 to 222 but the multiplication sign.
    - [undefined] is [None]; truthiness of a string is non-emptiness.
    - For the resolution tool the network (registry, cache) is a function
      from the looked-up name to the result the lookup returns, fixed for
      the duration of one tool call. In [Registry] the network is a function
      from the URL to what [fetch] gives, and the package cache a [gmap]
      from keys to entries that carry their expiration time; the time at
      which the cache serves a call is an argument.
    - The clock is an argument wherever the code reads it.
    - The report bucket is a [gmap] from keys to stored records; a [put]
      that rejects is an outcome supplied with the event that triggers it.
    - A thrown value is an [Exn]: an [Error], [null] or [undefined], or
      another value; [try]/[catch] is a match on a sum, and a [catch]
      that reads the message of what it caught throws on [null] and
      [undefined]. *)

From Stdlib Require Import Ascii String ZArith Lia Permutation Sorted.
From stdpp Require Import base strings list gmap pretty.

Local Open Scope string_scope.
Local Open Scope list_scope.

(** ** JavaScript primitives used by the code *)

Module Js.

(** White space and line terminators, which [String.prototype.trim]
    removes and the class for white space of a regular expression
    matches: among the code units below 256 these are 9 to 13, 32 and
    160 (the no-break space). *)
Definition is_ws (a : ascii) : bool :=
  let n := nat_of_ascii a in
  (n =? 32)%nat || ((9 <=? n)%nat && (n <=? 13)%nat) || (n =? 160)%nat.

Fixpoint trimStart (s : string) : string :=
  match s with
  | EmptyString => EmptyString
  | String a s' => if is_ws a then trimStart s' else s
  end.

Fixpoint rev_append (s acc : string) : string :=
  match s with
  | EmptyString => acc
  | String a s' => rev_append s' (String a acc)
  end.

Definition reverse (s : string) : string := rev_append s EmptyString.

Definition trimEnd (s : string) : string := reverse (trimStart (reverse s)).

Definition trim (s : string) : string := trimEnd (trimStart s).

(** [toLowerCase] on one code unit below 256: the capital letters are
    [A-Z] (65 to 90) and 192 to 222 but 215, the multiplication sign;
    each has its small letter 32 places up. *)
Definition lower_ascii (a : ascii) : ascii :=
  let n := nat_of_ascii a in
  if ((65 <=? n)%nat && (n <=? 90)%nat)
     || ((192 <=? n)%nat && (n <=? 222)%nat && negb (n =? 215)%nat)
  then ascii_of_nat (n + 32) else a.

Fixpoint toLowerCase (s : string) : string :=
  match s with
  | EmptyString => EmptyString
  | String a s' => String (lower_ascii a) (toLowerCase s')
  end.

(** Truthiness of a string value. *)
Definition truthy (s : string) : bool :=
  match s with EmptyString => false | _ => true end.

(** Truthiness of a possibly [undefined] string. *)
Definition truthy_opt (o : option string) : bool :=
  match o with Some s => truthy s | None => false end.

(** [a || b] where [a] is a possibly [undefined] string. *)
Definition or_else (a : option string) (b : string) : string :=
  match a with
  | Some s => if truthy s then s else b
  | None => b
  end.

(** [a || b] where both sides may be [undefined]. *)
Definition or_opt (a b : option string) : option string :=
  if truthy_opt a then a else b.

(** A value interpolated in a template literal. *)
Definition interp (o : option string) : string := default "undefined" o.

(** Member names every object literal inherits from [Object.prototype];
    [obj[key]] is defined (and truthy) for them even when [obj] has no
    such entry of its own. *)
Definition object_prototype_keys : list string :=
  [ "constructor"; "__proto__"; "hasOwnProperty"; "isPrototypeOf";
    "propertyIsEnumerable"; "toString"; "toLocaleString"; "valueOf";
    "__defineGetter__"; "__defineSetter__";
    "__lookupGetter__"; "__lookupSetter__" ].

(** Result of [obj[key]] on an object literal used as a table. *)
Inductive Member (A : Type) : Type :=
| Own (a : A)
| Inherited
| Missing.
Arguments Own {A} a.
Arguments Inherited {A}.
Arguments Missing {A}.

Fixpoint own_entry {A} (table : list (string * A)) (key : string) : option A :=
  match table with
  | [] => None
  | (k, v) :: rest => if String.eqb k key then Some v else own_entry rest key
  end.

Definition member {A} (table : list (string * A)) (key : string) : Member A :=
  match own_entry table key with
  | Some v => Own v
  | None =>
      if bool_decide (key ∈ object_prototype_keys) then Inherited else Missing
  end.

(** A thrown value: an [Error] with its message; a value that is
    neither an [Error] nor [null] nor [undefined], with its [message]
    member as a template literal shows it, when it has one; or [null]
    ([is_null]) or [undefined]. *)
Inductive Exn : Type :=
| JsError (message : string)
| Thrown (message : option string)
| ThrownNullish (is_null : bool).

(** [error instanceof Error ? error.message : "Unknown error"] *)
Definition message_of (e : Exn) : string :=
  match e with
  | JsError m => m
  | Thrown _ | ThrownNullish _ => "Unknown error"
  end.

Definition is_nullish (e : Exn) : bool :=
  match e with
  | ThrownNullish _ => true
  | JsError _ | Thrown _ => false
  end.

(** [error.message] read off a caught value: reading a member of
    [null] or [undefined] throws a [TypeError]. *)
Definition read_message (e : Exn) : Exn + option string :=
  match e with
  | JsError m => inr (Some m)
  | Thrown m => inr m
  | ThrownNullish is_null =>
      inl (JsError ("Cannot read properties of "
                    +:+ (if is_null then "null" else "undefined")
                    +:+ " (reading 'message')"))
  end.

End Js.

(** ** [src/tools.ts] *)

Module Tools.
Import Js.

(** *** The shapes [pypiLookupTool] hands to its callers *)

Record PackageInfo : Type := mkPackageInfo {
  latest_version : option string
}.

Record LookupResult : Type := mkLookup {
  lookup_success : bool;
  lookup_error : option string;
  lookup_package : option PackageInfo
}.

(** [packageLookup.package?.latest_version] *)
Definition latest_of (lk : LookupResult) : option string :=
  match lookup_package lk with
  | Some p => latest_version p
  | None => None
  end.

Definition lookup_found (v : string) : LookupResult :=
  mkLookup true None (Some (mkPackageInfo (Some v))).

Definition lookup_not_found (package_name : string) : LookupResult :=
  mkLookup false
    (Some ("Package '" +:+ package_name +:+
           "' not found on PyPI. Check the spelling or try a different package name."))
    None.

(** *** [packageDeprecationAnalysisTool] *)

Record KnownInfo : Type := mkKnown {
  known_deprecated : bool;
  known_reason : string;
  known_alternatives : list string
}.

Definition deprecatedPackages : list (string * KnownInfo) :=
  [ ("nose", mkKnown true
       "Nose has been in maintenance mode for several years and is not compatible with Python 3.10+"
       ["pytest"; "unittest"]);
    ("nose2", mkKnown true
       "Nose2 development has slowed significantly, pytest is the recommended modern testing framework"
       ["pytest"]);
    ("imp", mkKnown true
       "The imp module is deprecated since Python 3.4 and removed in Python 3.12"
       ["importlib"]);
    ("distutils", mkKnown true
       "distutils is deprecated since Python 3.10 and removed in Python 3.12"
       ["setuptools"; "build"; "hatchling"]);
    ("optparse", mkKnown true
       "optparse is deprecated since Python 2.7 in favor of argparse"
       ["argparse"; "click"; "typer"]);
    ("setuptools", mkKnown false
       "setuptools < 65.0 has various compatibility issues with modern Python"
       ["setuptools>=65.0"; "build"; "poetry"; "hatchling"]);
    ("pkg_resources", mkKnown true
       "pkg_resources is deprecated, use importlib.metadata instead"
       ["importlib.metadata"; "packaging"]);
    ("2to3", mkKnown true
       "2to3 tool is deprecated as Python 2 end-of-life was reached"
       ["modern Python 3 code"]) ].

Record DeprecationCheck : Type := mkCheck {
  check_success : bool;
  check_is_deprecated : bool;
  check_reason : option string;
  check_alternatives : option (list string)
}.

Definition packageDeprecationAnalysis (package_name : string) (check_detailed : bool)
  : DeprecationCheck :=
  let cleanPackageName := toLowerCase (trim package_name) in
  match member deprecatedPackages cleanPackageName with
  | Own knownInfo =>
      mkCheck true (known_deprecated knownInfo)
        (Some (known_reason knownInfo)) (Some (known_alternatives knownInfo))
  | Inherited =>
      (* every field read off the inherited member is [undefined] *)
      mkCheck true false None None
  | Missing =>
      if check_detailed
      then mkCheck true false (Some "No deprecation information found") (Some [])
      else mkCheck true false (Some "Package not in known deprecated packages list") (Some [])
  end.

(** *** [dependencyResolutionTool] *)

Record Requirement : Type := mkReq {
  req_name : string;
  req_operator : string;
  req_version : option string;
  req_fixed : bool;
  req_original_spec : string
}.

(** [version] is [None] when the pushed object carries [undefined]. *)
Record ResolvedPackage : Type := mkResolved {
  pkg_name : string;
  pkg_version : option string
}.

Record DeprecatedPackage : Type := mkDeprecated {
  dep_name : string;
  dep_version : option string;
  dep_reason : string;
  dep_suggested_alternative : option string
}.

Record Conflict : Type := mkConflict {
  conflict_packages : list string;
  conflict_reason : string;
  conflict_suggested_resolution : option string
}.

(** The object the tool returns ([processing_time_ms] left out). *)
Record ResolutionResult : Type := mkResult {
  success : bool;
  resolved_packages : option (list ResolvedPackage);
  deprecated_packages : option (list DeprecatedPackage);
  conflicts : option (list Conflict);
  error : option string;
  warnings : option (list string)
}.

Record BuiltInInfo : Type := mkBuiltIn {
  builtin_deprecated : bool;
  builtin_reason : string;
  builtin_alternatives : list string;
  builtin_version : string
}.

Definition builtInDeprecated : list (string * BuiltInInfo) :=
  [ ("imp", mkBuiltIn true
       "The imp module is deprecated since Python 3.4 and removed in Python 3.12"
       ["importlib"] "built-in");
    ("optparse", mkBuiltIn true
       "optparse is deprecated since Python 2.7 in favor of argparse"
       ["argparse"; "click"; "typer"] "built-in");
    ("distutils", mkBuiltIn true
       "distutils is deprecated since Python 3.10 and removed in Python 3.12"
       ["setuptools"; "build"; "hatchling"] "built-in") ].

(** The arrays the loop pushes to. *)
Record Acc : Type := mkAcc {
  acc_resolved : list ResolvedPackage;
  acc_deprecated : list DeprecatedPackage;
  acc_warnings : list string
}.

Definition push_resolved (p : ResolvedPackage) (a : Acc) : Acc :=
  mkAcc (acc_resolved a ++ [p]) (acc_deprecated a) (acc_warnings a).
Definition push_deprecated (d : DeprecatedPackage) (a : Acc) : Acc :=
  mkAcc (acc_resolved a) (acc_deprecated a ++ [d]) (acc_warnings a).
Definition push_warning (w : string) (a : Acc) : Acc :=
  mkAcc (acc_resolved a) (acc_deprecated a) (acc_warnings a ++ [w]).

(** The version chosen for a requirement whose lookup succeeded. *)
Definition resolveVersion (req : Requirement) (packageLookup : LookupResult) : string :=
  if truthy_opt (req_version req) && truthy (req_operator req) then
    if String.eqb (req_operator req) "==" || req_fixed req then
      default "" (req_version req)
    else if String.eqb (req_operator req) ">=" || String.eqb (req_operator req) ">" then
      or_else (latest_of packageLookup) (default "" (req_version req))
    else
      or_else (or_opt (req_version req) (latest_of packageLookup)) "unknown"
  else
    or_else (latest_of packageLookup) "unknown".

(** [new Set()] with [has] and [add], and the duplicate list. *)
Definition scanStep (st : gset string * list string) (pkg : ResolvedPackage)
  : gset string * list string :=
  let '(packageNames, duplicatePackages) := st in
  if bool_decide (pkg_name pkg ∈ packageNames)
  then (packageNames, duplicatePackages ++ [pkg_name pkg])
  else ({[ pkg_name pkg ]} ∪ packageNames, duplicatePackages).

Definition duplicatePackages (resolved : list ResolvedPackage) : list string :=
  snd (fold_left scanStep resolved (∅, [])).

(** How often a name occurs in a list of names. *)
Definition count (l : list string) (n : string) : nat := count_occ string_dec l n.

Definition duplicate_reason : string :=
  "Multiple requirements for the same package found".
Definition duplicate_resolution : string :=
  "Review and consolidate duplicate package requirements".

Definition detectConflicts (resolved : list ResolvedPackage) : list Conflict :=
  let dups := duplicatePackages resolved in
  if (0 <? length dups)%nat
  then [ mkConflict dups duplicate_reason (Some duplicate_resolution) ]
  else [].

(** [xs.length > 0 ? xs : undefined] *)
Definition nonempty_or_undefined {A} (xs : list A) : option (list A) :=
  if (0 <? length xs)%nat then Some xs else None.

(** An optional array field read as a list. *)
Definition field_list {A} (o : option (list A)) : list A := default [] o.

(** Componentwise concatenation of what two runs of the loop pushed. *)
Definition acc_app (a b : Acc) : Acc :=
  mkAcc (acc_resolved a ++ acc_resolved b)
        (acc_deprecated a ++ acc_deprecated b)
        (acc_warnings a ++ acc_warnings b).

Definition acc_empty : Acc := mkAcc [] [] [].

Section Resolution.

(** The registry (and its cache) as seen during one call: what the
    lookup of a name returns. *)
Variable pypi_lookup : string -> LookupResult.

(** One iteration of [for (const req of requirements)]. With lookups
    that return, nothing in the body throws and the per-requirement
    [catch] is not entered. *)
Definition processRequirement (a : Acc) (req : Requirement) : Acc :=
  let cleanName := trim (req_name req) in
  if negb (truthy cleanName) then
    push_warning ("Empty package name provided: '" +:+ req_name req +:+ "'") a
  else
    match member builtInDeprecated (toLowerCase cleanName) with
    | Own builtInInfo =>
        let a1 := push_resolved
                    (mkResolved cleanName (Some (builtin_version builtInInfo))) a in
        if builtin_deprecated builtInInfo then
          push_deprecated
            (mkDeprecated cleanName (Some (builtin_version builtInInfo))
               (builtin_reason builtInInfo)
               (head (builtin_alternatives builtInInfo))) a1
        else a1
    | Inherited =>
        (* a member of [Object.prototype]: truthy, with neither
           [version] nor [deprecated] *)
        push_resolved (mkResolved cleanName None) a
    | Missing =>
        let packageLookup := pypi_lookup cleanName in
        if negb (lookup_success packageLookup) then
          push_warning
            ("Could not find package '" +:+ cleanName +:+ "': " +:+
             interp (lookup_error packageLookup)) a
        else
          let resolvedVersion := resolveVersion req packageLookup in
          let a1 := push_resolved (mkResolved cleanName (Some resolvedVersion)) a in
          let deprecationCheck := packageDeprecationAnalysis cleanName false in
          if check_success deprecationCheck && check_is_deprecated deprecationCheck then
            push_deprecated
              (mkDeprecated cleanName (Some resolvedVersion)
                 (or_else (check_reason deprecationCheck) "Package is deprecated")
                 (match check_alternatives deprecationCheck with
                  | Some alts => head alts
                  | None => None
                  end)) a1
          else a1
    end.

Definition processAll (requirements : list Requirement) : Acc :=
  fold_left processRequirement requirements acc_empty.

(** [dependencyResolutionTool.execute]; [python_version] and
    [allow_prereleases] are only logged. *)
Definition dependencyResolution (requirements : list Requirement) : ResolutionResult :=
  if (length requirements =? 0)%nat then
    mkResult false None None None (Some "No requirements provided") None
  else
    let a := processAll requirements in
    let conflicts := detectConflicts (acc_resolved a) in
    let hasSignificantIssues := (0 <? length conflicts)%nat in
    let hasUsefulResults :=
      (0 <? length (acc_resolved a))%nat || (0 <? length (acc_deprecated a))%nat in
    let success := negb hasSignificantIssues && hasUsefulResults in
    mkResult success
      (Some (acc_resolved a))
      (nonempty_or_undefined (acc_deprecated a))
      (nonempty_or_undefined conflicts)
      (if negb success && hasSignificantIssues then
         Some ("Found " +:+ pretty (length conflicts) +:+ " conflicts")
       else if negb success && negb hasUsefulResults then
         Some "No packages could be resolved"
       else None)
      (nonempty_or_undefined (acc_warnings a)).

(** What one requirement pushes, on its own. *)
Definition contribution (req : Requirement) : Acc :=
  processRequirement acc_empty req.

End Resolution.

(** *** [requirementsGeneratorTool] *)

Record SourcedPackage : Type := mkSourced {
  sp_name : string;
  sp_version : option string;
  sp_source : string
}.

Definition nl : string := String (ascii_of_nat 10) EmptyString.

Section Generator.

(** [String.prototype.localeCompare]: negative, zero or positive. *)
Variable localeCompare : string -> string -> Z.

Definition name_le (a b : SourcedPackage) : Prop :=
  (localeCompare (sp_name a) (sp_name b) <= 0)%Z.

(** [Array.prototype.sort] is stable; on a consistent comparator its
    result is the stable insertion sort below. *)
Fixpoint insert_by_name (x : SourcedPackage) (l : list SourcedPackage)
  : list SourcedPackage :=
  match l with
  | [] => [x]
  | y :: l' =>
      if (localeCompare (sp_name x) (sp_name y) <=? 0)%Z
      then x :: y :: l'
      else y :: insert_by_name x l'
  end.

Definition sort_by_name (l : list SourcedPackage) : list SourcedPackage :=
  foldr insert_by_name [] l.

(** The package's name compares equal to [name]. *)
Definition tied_with (name : string) (p : SourcedPackage) : bool :=
  (localeCompare (sp_name p) name <=? 0)%Z && (localeCompare name (sp_name p) <=? 0)%Z.

(** The text one loop iteration appends to [content]. *)
Definition package_line (include_comments pin_versions : bool) (pkg : SourcedPackage)
  : string :=
  let operator := if pin_versions then "==" else ">=" in
  (sp_name pkg +:+ operator +:+ interp (sp_version pkg))
  +:+ (if include_comments && truthy (sp_source pkg)
          && negb (String.eqb (sp_source pkg) "pypi")
       then "  # " +:+ sp_source pkg else "")
  +:+ nl.

Definition header (now : string) (total : nat) : string :=
  "# Python Requirements File" +:+ nl +:+
  "# Generated on: " +:+ now +:+ nl +:+
  "# Total packages: " +:+ pretty total +:+ nl +:+
  "#" +:+ nl +:+
  "# Install with: pip install -r requirements.txt" +:+ nl +:+
  "#" +:+ nl +:+ nl.

Definition footer : string := nl +:+ "# End of requirements" +:+ nl.

(** [requirementsGeneratorTool.execute]; [now] is
    [new Date().toISOString()]. *)
Definition requirementsGenerator (now : string)
    (resolved_packages : list SourcedPackage)
    (include_comments pin_versions : bool) : string :=
  let content0 :=
    if include_comments then header now (length resolved_packages) else "" in
  let sortedPackages := sort_by_name resolved_packages in
  let content1 :=
    fold_left (fun content pkg =>
                 content +:+ package_line include_comments pin_versions pkg)
              sortedPackages content0 in
  if include_comments && (0 <? length resolved_packages)%nat
  then content1 +:+ footer
  else content1.

End Generator.

End Tools.

(** ** [src/shared.ts] *)

Module Shared.
Import Js Tools.

(** A parsed JSON body. *)
#[local] Unset Elimination Schemes.
Inductive Json : Type :=
| JNull
| JBool (b : bool)
| JNumber (z : Z)
| JString (s : string)
| JArray (items : list Json)
| JObject (fields : list (string * Json)).
#[local] Set Elimination Schemes.

(** [obj[key]] after [JSON.parse]: the last binding of a repeated key
    wins; an absent key reads [undefined]. *)
Definition get_field (fields : list (string * Json)) (key : string) : option Json :=
  own_entry (rev fields) key.

(** What a schema makes of a value: the parsed value, or the verdict
    that the value is not accepted. The issues [zod] lists for such a
    value are not modelled: the message of the [ZodError] that [parse]
    throws is what the environment of the agent says it is. *)
Inductive Invalid : Type := invalid.

Definition Parsed (A : Type) : Type := Invalid + A.

Definition parse_bind {A B} (p : Parsed A) (k : A -> Parsed B) : Parsed B :=
  match p with
  | inl e => inl e
  | inr a => k a
  end.

Notation "'let?' x ':=' p 'in' k" := (parse_bind p (fun x => k))
  (at level 10, x name, p at level 100, k at level 200).

(** [z.string()] *)
Definition z_string (v : option Json) : Parsed string :=
  match v with
  | Some (JString s) => inr s
  | _ => inl invalid
  end.

(** [z.string().optional()] *)
Definition z_string_optional (v : option Json) : Parsed (option string) :=
  match v with
  | None => inr None
  | Some (JString s) => inr (Some s)
  | Some _ => inl invalid
  end.

(** [z.string().default(d)] *)
Definition z_string_default (d : string) (v : option Json) : Parsed string :=
  match v with
  | None => inr d
  | Some (JString s) => inr s
  | Some _ => inl invalid
  end.

(** [z.boolean().default(d)] *)
Definition z_boolean_default (d : bool) (v : option Json) : Parsed bool :=
  match v with
  | None => inr d
  | Some (JBool b) => inr b
  | Some _ => inl invalid
  end.

Definition operators : list string :=
  [ "=="; ">="; ">"; "<="; "<"; "!="; "~="; "==="; "" ].

(** [z.enum([...]).default("")] *)
Definition z_operator (v : option Json) : Parsed string :=
  match v with
  | None => inr ""
  | Some (JString s) => if bool_decide (s ∈ operators) then inr s else inl invalid
  | Some _ => inl invalid
  end.

(** [DependencyConstraintSchema] *)
Definition DependencyConstraintSchema_parse (v : Json) : Parsed Requirement :=
  match v with
  | JObject fields =>
      let? name := z_string (get_field fields "name") in
      let? operator := z_operator (get_field fields "operator") in
      let? version := z_string_optional (get_field fields "version") in
      let? fixed := z_boolean_default false (get_field fields "fixed") in
      let? original_spec := z_string (get_field fields "original_spec") in
      inr (mkReq name operator version fixed original_spec)
  | _ => inl invalid
  end.

(** [z.array(schema)]: any length, every item parsed. *)
Fixpoint z_array {A} (item : Json -> Parsed A) (items : list Json) : Parsed (list A) :=
  match items with
  | [] => inr []
  | j :: rest =>
      let? a := item j in
      let? tl := z_array item rest in
      inr (a :: tl)
  end.

Record ResolutionRequest : Type := mkRequest {
  requirements : list Requirement;
  python_version : string;
  allow_prereleases : bool;
  prefer_stable : bool;
  exclude_deprecated : bool;
  suggest_alternatives : bool
}.

(** [ResolutionRequestSchema.parse]: the request, or [invalid] when it
    throws. *)
Definition ResolutionRequestSchema_parse (body : Json) : Parsed ResolutionRequest :=
  match body with
  | JObject fields =>
      let? reqs := match get_field fields "requirements" with
               | Some (JArray items) => z_array DependencyConstraintSchema_parse items
               | _ => inl invalid
               end in
      let? pv := z_string_default "3.9" (get_field fields "python_version") in
      let? ap := z_boolean_default false (get_field fields "allow_prereleases") in
      let? ps := z_boolean_default true (get_field fields "prefer_stable") in
      let? ed := z_boolean_default true (get_field fields "exclude_deprecated") in
      let? sa := z_boolean_default true (get_field fields "suggest_alternatives") in
      inr (mkRequest reqs pv ap ps ed sa)
  | _ => inl invalid
  end.

Definition generateReportKey (id : string) : string := "report:" +:+ id.

End Shared.

(** ** The resolver agent ([DependencyResolverAgent]) *)

Module Agent.
Import Js Tools Shared.

(** *** Research results ([services/package-research.ts]) *)

Record DeprecationAnalysisResult : Type := mkAnalysis {
  is_deprecated : bool;
  evidence : list string;
  alternatives : list string
}.

(** [PackageResearchResult | { error }], as far as the agent reads it. *)
Inductive Research : Type :=
| ResearchFailed (error : string)
| Researched (deprecation_analysis : option DeprecationAnalysisResult).

(** *** Reports and stored records *)

Record Metadata : Type := mkMetadata {
  meta_python_version : string;
  total_packages : nat;
  deprecated_count : nat;
  conflict_count : nat
}.

(** [DependencyReport]; the narrative text, the per-package analysis
    and the elapsed time play no part in job state or manifest and are
    left out. *)
Record DependencyReport : Type := mkReport {
  report_id : string;
  report_created_at : string;
  report_request : ResolutionRequest;
  report_result : ResolutionResult;
  requirements_txt : string;
  metadata : Metadata
}.

(** What [JSON.stringify] wrote under a report key. *)
Inductive Stored : Type :=
| ProcessingStatus (id status created_at : string) (request : ResolutionRequest)
| ErrorReport (id status error created_at : string)
| StoredReport (report : DependencyReport).

(** [data.status], [data.error], [data.result], [data.created_at] and
    [data.request] of the parsed record. *)
Definition data_status (data : Stored) : option string :=
  match data with
  | ProcessingStatus _ status _ _ => Some status
  | ErrorReport _ status _ _ => Some status
  | StoredReport _ => None
  end.

Definition data_error (data : Stored) : option string :=
  match data with
  | ErrorReport _ _ error _ => Some error
  | _ => None
  end.

Definition data_result (data : Stored) : option ResolutionResult :=
  match data with
  | StoredReport report => Some (report_result report)
  | _ => None
  end.

Definition data_created_at (data : Stored) : string :=
  match data with
  | ProcessingStatus _ _ created_at _ => created_at
  | ErrorReport _ _ _ created_at => created_at
  | StoredReport report => report_created_at report
  end.

Definition data_request (data : Stored) : option ResolutionRequest :=
  match data with
  | ProcessingStatus _ _ _ request => Some request
  | ErrorReport _ _ _ _ => None
  | StoredReport report => Some (report_request report)
  end.

(** *** Responses *)

Inductive Response : Type :=
| Started (id status message : string)
| NotFound (status_code : nat)
| StillProcessing (id status created_at : string)
    (request : option ResolutionRequest) (message : string)
| Failed (id status error created_at : string)
| Completed (data : Stored) (status : string)
| ErrorText (status_code : nat) (text : string)
| RetrieveFailed (status_code : nat).

(** The [status] member of a response body, if it has one. *)
Definition response_status (r : Response) : option string :=
  match r with
  | Started _ status _ => Some status
  | StillProcessing _ status _ _ _ => Some status
  | Failed _ status _ _ => Some status
  | Completed _ status => Some status
  | NotFound _ | ErrorText _ _ | RetrieveFailed _ => None
  end.

(** *** The agent's world: bucket, launched background work, log *)

Record Job : Type := mkJob {
  job_id : string;
  job_request : ResolutionRequest
}.

Record World : Type := mkWorld {
  REPORTS_STORAGE : gmap string Stored;
  launched : list Job;
  log : list string
}.

Definition initial : World := mkWorld ∅ [] [].

(** A computation of the agent: reads and writes the world, and either
    throws or returns. *)
Definition M (A : Type) : Type := World -> (Exn + A) * World.

Definition ret {A} (a : A) : M A := fun w => (inr a, w).
Definition throw {A} (e : Exn) : M A := fun w => (inl e, w).
Definition bind {A B} (m : M A) (k : A -> M B) : M B :=
  fun w =>
    match m w with
    | (inl e, w') => (inl e, w')
    | (inr a, w') => k a w'
    end.
(** [try { m } catch (e) { h e }] *)
Definition try_catch {A} (m : M A) (h : Exn -> M A) : M A :=
  fun w =>
    match m w with
    | (inl e, w') => h e w'
    | (inr a, w') => (inr a, w')
    end.

Notation "'do' x '<-' m ';' k" := (bind m (fun x => k))
  (at level 10, x name, m at level 100, k at level 200).
Notation "m ';;' k" := (bind m (fun _ => k))
  (at level 100, k at level 200, right associativity).

(** A logger call. *)
Definition say (message : string) : M unit :=
  fun w => (inr tt, mkWorld (REPORTS_STORAGE w) (launched w) (log w ++ [message])).

(** [REPORTS_STORAGE.put(key, JSON.stringify(value))]; [rejects] is the
    outcome the bucket gives this call. *)
Definition put (rejects : option Exn) (key : string) (value : Stored) : M unit :=
  fun w =>
    match rejects with
    | Some e => (inl e, w)
    | None =>
        (inr tt, mkWorld (<[ key := value ]> (REPORTS_STORAGE w)) (launched w) (log w))
    end.

(** [REPORTS_STORAGE.get(key)] *)
Definition get (rejects : option Exn) (key : string) : M (option Stored) :=
  fun w =>
    match rejects with
    | Some e => (inl e, w)
    | None => (inr (REPORTS_STORAGE w !! key), w)
    end.

(** [this.ctx.waitUntil(this.processResolution(...))] *)
Definition waitUntil (j : Job) : M unit :=
  fun w => (inr tt, mkWorld (REPORTS_STORAGE w) (launched w ++ [j]) (log w)).

(** A step that throws when the environment makes it. *)
Definition may_throw (e : option Exn) : M unit :=
  match e with
  | Some x => throw x
  | None => ret tt
  end.

(** [enrichErrorContext(error, context)] builds a new [Error] from
    [error.message]; what it returns is only logged. *)
Definition enrichErrorContext (e : Exn) : M unit :=
  match read_message e with
  | inl typeError => throw typeError
  | inr _ => ret tt
  end.

(** What the environment does to one run of the pipeline: an exception
    raised in a phase, or a rejected bucket write. *)
Record Faults : Type := mkFaults {
  research_throws : option Exn;
  resolve_throws : option Exn;
  report_throws : option Exn;
  put_report_rejects : option Exn;
  put_error_rejects : option Exn
}.

Definition no_faults : Faults := mkFaults None None None None None.

Section WithEnvironment.

Variable pypi_lookup : string -> LookupResult.
Variable localeCompare : string -> string -> Z.
(** The body of [researchPackage]'s [try]: its result, or the message
    of the [Error] it throws. What the body throws is raised by the
    engine (a [TypeError] from reading a member of [null] or
    [undefined] or from [in] on a primitive, a [URIError] from
    [encodeURIComponent]), since the tools it calls catch what is thrown
    to them: it is an [Error], as [ResearchExtras.research_throws_error]
    shows for the body in [PackageResearch]. *)
Variable research_body : string -> string + Research.
(** The message of the [ZodError] that [ResolutionRequestSchema.parse]
    throws for a body it does not accept. *)
Variable ZodError_message : Json -> string.

(** [PackageResearchService.researchPackage]; in the [catch],
    [enrichErrorContext] reads the message of the [Error] without
    throwing. *)
Definition researchPackage (packageName : string) : Research :=
  match research_body packageName with
  | inr result => result
  | inl message => ResearchFailed message
  end.

(** [PackageResearchService.researchMultiplePackages] *)
Definition researchMultiplePackages (packageNames : list string) : gmap string Research :=
  fold_left (fun results packageName =>
               <[ packageName := researchPackage packageName ]> results)
            packageNames ∅.

(** The deprecation pass over [resolved_packages] in
    [resolveDependencies]. *)
Definition researchDeprecated (researchResults : gmap string Research)
    (pkgs : list ResolvedPackage) : list DeprecatedPackage :=
  fold_left
    (fun deprecatedPackages pkg =>
       match researchResults !! pkg_name pkg with
       | Some (Researched (Some analysis)) =>
           if is_deprecated analysis then
             deprecatedPackages ++
               [ mkDeprecated (pkg_name pkg) (pkg_version pkg)
                   (String.concat "; " (evidence analysis))
                   (head (alternatives analysis)) ]
           else deprecatedPackages
       | _ => deprecatedPackages
       end)
    pkgs [].

Definition enhance (researchResults : gmap string Research)
    (resolutionResult : ResolutionResult) : ResolutionResult :=
  match resolved_packages resolutionResult with
  | Some pkgs =>
      let deprecatedPackages := researchDeprecated researchResults pkgs in
      if (0 <? length deprecatedPackages)%nat then
        mkResult (success resolutionResult) (resolved_packages resolutionResult)
          (Some deprecatedPackages) (conflicts resolutionResult)
          (error resolutionResult) (warnings resolutionResult)
      else resolutionResult
  | None => resolutionResult
  end.

(** [resolveDependencies]: whatever is thrown inside is turned into a
    result with [success: false]. *)
Definition resolveDependencies (throws : option Exn) (request : ResolutionRequest)
    (researchResults : gmap string Research) : M ResolutionResult :=
  try_catch
    (say "Starting dependency resolution" ;;
     may_throw throws ;;
     let resolutionResult :=
       enhance researchResults (dependencyResolution pypi_lookup (requirements request)) in
     say "Dependency resolution completed" ;;
     ret resolutionResult)
    (fun e =>
       say "Dependency resolution failed" ;;
       ret (mkResult false None None None (Some (message_of e)) None)).

(** [generateReport] *)
Definition generateReport (throws : option Exn) (reportId now : string)
    (request : ResolutionRequest) (resolutionResult : ResolutionResult)
  : M DependencyReport :=
  say "Generating report" ;;
  may_throw throws ;;
  let requirementsTxt :=
    match resolved_packages resolutionResult with
    | Some pkgs =>
        let packagesWithSource :=
          map (fun pkg => mkSourced (pkg_name pkg) (pkg_version pkg) "pypi") pkgs in
        requirementsGenerator localeCompare now packagesWithSource true true
    | None => ""
    end in
  let report :=
    mkReport reportId now request resolutionResult requirementsTxt
      (mkMetadata (python_version request) (length (requirements request))
         (length (field_list (deprecated_packages resolutionResult)))
         (length (field_list (conflicts resolutionResult)))) in
  say "Report generated successfully" ;;
  ret report.

(** [storeReport]: a rejected write is logged and rethrown. *)
Definition storeReport (rejects : option Exn) (reportId : string)
    (report : DependencyReport) : M unit :=
  try_catch
    (put rejects (generateReportKey reportId) (StoredReport report) ;;
     say "Report stored successfully")
    (fun e => say "Failed to store report" ;; throw e).

(** [storeError]: a rejected write is logged and swallowed. *)
Definition storeError (rejects : option Exn) (reportId error now : string) : M unit :=
  try_catch
    (put rejects (generateReportKey reportId) (ErrorReport reportId "failed" error now) ;;
     say "Error report stored")
    (fun _ => say "Failed to store error report").

(** [processResolution]: the three phases in sequence, and the
    [catch] that records a failure; [enrichErrorContext] comes first in
    it, so what it throws leaves the [catch] before anything is
    recorded. *)
Definition processResolution (faults : Faults) (reportId now : string)
    (request : ResolutionRequest) : M unit :=
  try_catch
    (say "Starting resolution process" ;;
     say "Starting package research phase" ;;
     may_throw (research_throws faults) ;;
     let packageResearchResults :=
       researchMultiplePackages (map req_name (requirements request)) in
     say "Starting dependency resolution phase" ;;
     do resolutionResult <-
       resolveDependencies (resolve_throws faults) request packageResearchResults ;
     say "Starting report generation phase" ;;
     do report <-
       generateReport (report_throws faults) reportId now request resolutionResult ;
     storeReport (put_report_rejects faults) reportId report ;;
     say "Resolution completed successfully")
    (fun e =>
       enrichErrorContext e ;;
       say "Resolution failed" ;;
       storeError (put_error_rejects faults) reportId (message_of e) now).

(** [handleResolutionRequest]; [reportId] is what [generateId()]
    returned. *)
Definition handleResolutionRequest (put_rejects : option Exn) (body : Json)
    (reportId now : string) : M Response :=
  match ResolutionRequestSchema_parse body with
  | inl invalid => throw (JsError (ZodError_message body))
  | inr resolutionRequest =>
      say "Resolution request parsed" ;;
      try_catch
        (put put_rejects (generateReportKey reportId)
           (ProcessingStatus reportId "processing" now resolutionRequest) ;;
         say "Initial processing status stored")
        (fun _ => say "Failed to store initial processing status") ;;
      waitUntil (mkJob reportId resolutionRequest) ;;
      say "Resolution process started" ;;
      ret (Started reportId "processing"
             "Dependency resolution started. Use the /status endpoint to check progress.")
  end.

(** [getResolutionStatus] *)
Definition getResolutionStatus (get_rejects : option Exn) (reportId : string)
  : M Response :=
  try_catch
    (say "Retrieving resolution status" ;;
     do stored <- get get_rejects (generateReportKey reportId) ;
     match stored with
     | None =>
         say "Report not found" ;;
         ret (NotFound 404)
     | Some data =>
         if bool_decide (data_status data = Some "processing") then
           say "Resolution still processing" ;;
           ret (StillProcessing reportId "processing" (data_created_at data)
                  (data_request data)
                  "Dependency resolution is still in progress. Please check again in a few seconds.")
         else if truthy_opt (data_error data)
                 && negb (bool_decide (is_Some (data_result data))) then
           say "Resolution failed" ;;
           ret (Failed reportId "failed" (interp (data_error data))
                  (data_created_at data))
         else
           say "Status retrieved successfully" ;;
           ret (Completed data "completed")
     end)
    (fun _ =>
       say "Failed to retrieve report status" ;;
       ret (RetrieveFailed 500)).

(** [onRequest] for [POST /resolve]: what is thrown becomes a 500,
    unless [enrichErrorContext] throws in the [catch]. *)
Definition onResolve (put_rejects : option Exn) (body : Json)
    (reportId now : string) : M Response :=
  try_catch
    (handleResolutionRequest put_rejects body reportId now)
    (fun e =>
       enrichErrorContext e ;;
       say "DependencyResolverAgent error" ;;
       ret (ErrorText 500 ("Error: " +:+ message_of e))).

(** *** What can happen, one event at a time *)

Inductive Event : Type :=
| Submit (body : Json) (reportId now : string) (put_rejects : option Exn)
| Background (reportId now : string) (faults : Faults)
| Poll (reportId : string) (get_rejects : option Exn).

(** The first launched job with this id, and the launches left. *)
Fixpoint take_job (reportId : string) (jobs : list Job) : option (Job * list Job) :=
  match jobs with
  | [] => None
  | j :: rest =>
      if String.eqb (job_id j) reportId then Some (j, rest)
      else match take_job reportId rest with
           | Some (found, rest') => Some (found, j :: rest')
           | None => None
           end
  end.

Definition step (w : World) (ev : Event) : option Response * World :=
  match ev with
  | Submit body reportId now put_rejects =>
      match onResolve put_rejects body reportId now w with
      | (inr r, w') => (Some r, w')
      | (inl _, w') => (None, w')
      end
  | Background reportId now faults =>
      match take_job reportId (launched w) with
      | Some (j, rest) =>
          let w0 := mkWorld (REPORTS_STORAGE w) rest (log w) in
          (None, snd (processResolution faults (job_id j) now (job_request j) w0))
      | None => (None, w)
      end
  | Poll reportId get_rejects =>
      match getResolutionStatus get_rejects reportId w with
      | (inr r, w') => (Some r, w')
      | (inl _, w') => (None, w')
      end
  end.

(** Run a sequence of events, collecting the responses. *)
Fixpoint run (w : World) (evs : list Event) : list (option Response) * World :=
  match evs with
  | [] => ([], w)
  | ev :: rest =>
      let '(r, w1) := step w ev in
      let '(rs, w2) := run w1 rest in
      (r :: rs, w2)
  end.

(** Some launched job carries this id. *)
Definition is_launched (reportId : string) (jobs : list Job) : bool :=
  existsb (fun j => String.eqb (job_id j) reportId) jobs.

Definition world_after (w : World) (evs : list Event) : World := snd (run w evs).

(** *** Notions used to state the properties of the pipeline *)

(** [generateId()] returned an id that no stored record and no launched
    job carries. *)
Definition unused (w : World) (reportId : string) : bool :=
  match REPORTS_STORAGE w !! generateReportKey reportId with
  | None => negb (is_launched reportId (launched w))
  | Some _ => false
  end.

(** The condition a run puts on one event: a submission gets an unused
    id. *)
Definition admissible (w : World) (ev : Event) : bool :=
  match ev with
  | Submit _ reportId _ _ => unused w reportId
  | _ => true
  end.

(** Every submission of a run gets an unused id. *)
Fixpoint fresh_ids (w : World) (evs : list Event) : bool :=
  match evs with
  | [] => true
  | ev :: rest => admissible w ev && fresh_ids (snd (step w ev)) rest
  end.

(** What [getResolutionStatus] answers, as a function of the record
    under the key. *)
Definition answer (reportId : string) (stored : option Stored) : Response :=
  match stored with
  | None => NotFound 404
  | Some data =>
      if bool_decide (data_status data = Some "processing") then
        StillProcessing reportId "processing" (data_created_at data) (data_request data)
          "Dependency resolution is still in progress. Please check again in a few seconds."
      else if truthy_opt (data_error data)
              && negb (bool_decide (is_Some (data_result data))) then
        Failed reportId "failed" (interp (data_error data)) (data_created_at data)
      else Completed data "completed"
  end.


(** The exception that reaches the [catch] of [processResolution], if
    any: resolution never contributes one. *)
Definition escapes (faults : Faults) : option Exn :=
  match research_throws faults with
  | Some e => Some e
  | None =>
      match report_throws faults with
      | Some e => Some e
      | None => put_report_rejects faults
      end
  end.

(** What [resolveDependencies] returns. *)
Definition resolutionOutcome (throws : option Exn) (request : ResolutionRequest)
  : ResolutionResult :=
  match throws with
  | Some e => mkResult false None None None (Some (message_of e)) None
  | None =>
      enhance
        (researchMultiplePackages (map req_name (requirements request)))
        (dependencyResolution pypi_lookup (requirements request))
  end.

(** What [generateReport] returns for a resolution result. *)
Definition compiledReport (reportId now : string) (request : ResolutionRequest)
    (resolutionResult : ResolutionResult) : DependencyReport :=
  mkReport reportId now request resolutionResult
    match resolved_packages resolutionResult with
    | Some pkgs =>
        requirementsGenerator localeCompare now
          (map (fun pkg => mkSourced (pkg_name pkg) (pkg_version pkg) "pypi") pkgs)
          true true
    | None => ""
    end
    (mkMetadata (python_version request) (length (requirements request))
       (length (field_list (deprecated_packages resolutionResult)))
       (length (field_list (conflicts resolutionResult)))).

(** The bucket after one run of the pipeline. *)
Definition bucket_after_pipeline (faults : Faults) (reportId now : string)
    (request : ResolutionRequest) (bucket : gmap string Stored) : gmap string Stored :=
  match escapes faults with
  | None =>
      <[ generateReportKey reportId :=
           StoredReport
             (compiledReport reportId now request
                (resolutionOutcome (resolve_throws faults) request)) ]> bucket
  | Some e =>
      if is_nullish e then bucket
      else
        match put_error_rejects faults with
        | None =>
            <[ generateReportKey reportId :=
                 ErrorReport reportId "failed" (message_of e) now ]> bucket
        | Some _ => bucket
        end
  end.

(** The record under an id no longer reads as in progress. *)
Definition settled (w : World) (reportId : string) : Prop :=
  match REPORTS_STORAGE w !! generateReportKey reportId with
  | Some data => data_status data <> Some "processing"
  | None => False
  end.

End WithEnvironment.

End Agent.

(** ** Concrete environments and inputs *)

Module Scenarios.
Import Js Tools Shared Agent.

Definition registry_table : list (string * string) :=
  [ ("numpy", "1.24.3"); ("pandas", "2.0.1"); ("django", "5.0.4");
    ("requests", "2.31.0"); ("nose", "1.3.7") ].

(** A registry answering like [pypiLookupTool]: the name is trimmed and
    lower-cased before it is looked up, a missing package is reported
    with the name as it was passed. *)
Definition registry (package_name : string) : LookupResult :=
  if negb (truthy (trim package_name)) then
    mkLookup false (Some "Package name is required") None
  else
    match own_entry registry_table (toLowerCase (trim package_name)) with
    | Some v => lookup_found v
    | None => lookup_not_found package_name
    end.

(** A registry that knows no package at all. *)
Definition empty_registry (package_name : string) : LookupResult :=
  lookup_not_found package_name.

(** Comparison by code units. *)
Definition codeUnitCompare (a b : string) : Z :=
  if String.leb a b then (if String.leb b a then 0 else -1) else 1.

(** A [zod] whose errors all read the same. *)
Definition terse_zod (body : Json) : string := "Invalid input".

(** Research that finds nothing to report. *)
Definition quiet_research (packageName : string) : string + Research :=
  inr (Researched None).

(** Request bodies. *)
Definition json_requirement (name operator version original_spec : string) : Json :=
  JObject [ ("name", JString name); ("operator", JString operator);
            ("version", JString version); ("original_spec", JString original_spec) ].

Definition empty_body : Json := JObject [ ("requirements", JArray []) ].

Definition numpy_body : Json :=
  JObject [ ("requirements", JArray [ json_requirement "numpy" ">=" "1.21" "numpy>=1.21" ]) ].

Definition numpy_request : ResolutionRequest :=
  mkRequest [ mkReq "numpy" ">=" (Some "1.21") false "numpy>=1.21" ]
    "3.9" false true true true.

(** Environment behaviours of one pipeline run. *)
Definition resolver_crashes : Faults :=
  mkFaults None (Some (JsError "resolver crashed")) None None None.

Definition bucket_down : Faults :=
  mkFaults None None None
    (Some (JsError "bucket unavailable")) (Some (JsError "bucket unavailable")).

Definition report_write_rejected : Faults :=
  mkFaults None None None (Some (JsError "bucket unavailable")) None.

Definition compile_throws_blank : Faults :=
  mkFaults None None (Some (JsError "")) None None.

(** Compiling the report rejects with [null]. *)
Definition compile_throws_null : Faults :=
  mkFaults None None (Some (ThrownNullish true)) None None.

Definition numpy_any : Requirement := mkReq "numpy" "" None false "numpy".
Definition pandas_min : Requirement :=
  mkReq "pandas" ">=" (Some "1.3.0") false "pandas>=1.3.0".
Definition django_min : Requirement :=
  mkReq "django" ">=" (Some "4.0") false "django>=4.0".
Definition django_exact : Requirement :=
  mkReq "django" "==" (Some "3.2") true "django==3.2".
Definition Django_exact : Requirement :=
  mkReq "Django" "==" (Some "3.2") true "Django==3.2".
Definition imp_exact : Requirement :=
  mkReq "imp" "==" (Some "1.0") true "imp==1.0".
Definition requests_fixed_bare : Requirement :=
  mkReq "requests" "" (Some "2.0.0") true "requests".
Definition requests_max : Requirement :=
  mkReq "requests" "<=" (Some "2.0.0") false "requests<=2.0.0".
Definition missing_exact : Requirement :=
  mkReq "nonexistent-package-xyz" "==" (Some "1.0") true "nonexistent-package-xyz==1.0".
Definition missing_any : Requirement :=
  mkReq "nonexistent-package-xyz" "" None false "nonexistent-package-xyz".

End Scenarios.

(** ** Requirement strings ([parseRequirementString] in [src/shared.ts]) *)

Module Requirements.
Import Js Tools.

(** *** Regular expressions as backtracking searches

    A pattern maps the text still to be read to the list of ways it can
    match a prefix of it, in the order a backtracking matcher tries them:
    a greedy quantifier lists the longest match first, an alternation
    lists its branches from left to right. Each way is the matched text
    and the text left. The match of a whole expression is the first way
    that reaches its end. *)

Definition in_range (lo hi : nat) (a : ascii) : bool :=
  (lo <=? nat_of_ascii a)%nat && (nat_of_ascii a <=? hi)%nat.

(** [[a-zA-Z0-9\-_.]] *)
Definition name_char (a : ascii) : bool :=
  in_range 97 122 a || in_range 65 90 a || in_range 48 57 a
  || Ascii.eqb a "-" || Ascii.eqb a "_" || Ascii.eqb a ".".

(** [\s] *)
Definition space_char (a : ascii) : bool := is_ws a.

(** [[^,\s]] *)
Definition version_char (a : ascii) : bool := negb (Ascii.eqb a "," || is_ws a).

(** [.] matches anything but a line terminator. *)
Definition any_char (a : ascii) : bool :=
  negb ((nat_of_ascii a =? 10)%nat || (nat_of_ascii a =? 13)%nat).

(** [c*] for a character class [c]. *)
Fixpoint star (c : ascii -> bool) (s : string) : list (string * string) :=
  match s with
  | String a s' =>
      if c a
      then map (fun '(m, r) => (String a m, r)) (star c s') ++ [ ("", s) ]
      else [ ("", s) ]
  | EmptyString => [ ("", "") ]
  end.

(** [c+] *)
Definition plus (c : ascii -> bool) (s : string) : list (string * string) :=
  match s with
  | String a s' => if c a then map (fun '(m, r) => (String a m, r)) (star c s') else []
  | EmptyString => []
  end.

(** The text left after a literal, when the text starts with it. *)
Fixpoint strip (lit s : string) : option string :=
  match lit with
  | EmptyString => Some s
  | String a lit' =>
      match s with
      | String b s' => if Ascii.eqb a b then strip lit' s' else None
      | EmptyString => None
      end
  end.

(** [(lit1|lit2|...)] *)
Definition alternatives (lits : list string) (s : string) : list (string * string) :=
  flat_map (fun lit => match strip lit s with Some r => [ (lit, r) ] | None => [] end) lits.

(** [$] *)
Definition at_end (s : string) : bool := negb (truthy s).

(** Every character of a string is in a class. *)
Fixpoint all_chars (c : ascii -> bool) (s : string) : bool :=
  match s with
  | String a s' => c a && all_chars c s'
  | EmptyString => true
  end.

(** A string is empty or starts with a character outside a class. *)
Definition stops (c : ascii -> bool) (s : string) : bool :=
  match s with
  | String a _ => negb (c a)
  | EmptyString => true
  end.

(** The characters an operator can start with. *)
Definition operator_start (a : ascii) : bool :=
  Ascii.eqb a "=" || Ascii.eqb a ">" || Ascii.eqb a "<" || Ascii.eqb a "!"
  || Ascii.eqb a "~".

(** The operators of the first pattern, in the order it lists them. *)
Definition pattern_operators : list string :=
  [ "=="; ">="; ">"; "<="; "<"; "!="; "~="; "===" ].

(** The first pattern: from the start of the text, a name (one or more
    name characters, group 1), optional blanks, an operator (group 2),
    optional blanks, a version (one or more characters that are neither
    commas nor blanks, group 3) and the rest up to the end of the text
    (any characters but line terminators, group 4). The result lists the
    groups of every way to match. *)
Definition versioned_pattern (input : string) : list (string * string * string * string) :=
  flat_map (fun '(name, r1) =>
  flat_map (fun '(_, r2) =>
  flat_map (fun '(operator, r3) =>
  flat_map (fun '(_, r4) =>
  flat_map (fun '(version, r5) =>
  flat_map (fun '(rest, r6) =>
    if at_end r6 then [ (name, operator, version, rest) ] else [])
  (star any_char r5))
  (plus version_char r4))
  (star space_char r3))
  (alternatives pattern_operators r2))
  (star space_char r1))
  (plus name_char input).

(** The second pattern: a name (group 1) and the rest up to the end of
    the text (group 2). *)
Definition bare_pattern (input : string) : list (string * string) :=
  flat_map (fun '(name, r1) =>
  flat_map (fun '(rest, r2) =>
    if at_end r2 then [ (name, rest) ] else [])
  (star any_char r1))
  (plus name_char input).

(** The object built from the groups: [operator] and [version] default
    to the empty string when their group is absent, an empty version is
    reported as [undefined]. *)
Definition constraint_of (name : string) (operator version : option string)
    (original_spec : string) : Requirement :=
  let operator := default "" operator in
  let version := default "" version in
  mkReq (toLowerCase name)
        operator
        (if truthy version then Some version else None)
        (String.eqb operator "==")
        original_spec.

(** [parseRequirementString] *)
Definition parseRequirementString (requirement : string) : Exn + Requirement :=
  let input := trim requirement in
  match head (versioned_pattern input) with
  | Some (name, operator, version, _) =>
      inr (constraint_of name (Some operator) (Some version) input)
  | None =>
      match head (bare_pattern input) with
      | Some (name, rest) => inr (constraint_of name (Some rest) None input)
      | None => inl (JsError ("Invalid requirement format: " +:+ requirement))
      end
  end.

(** [generatePackageKey] *)
Definition generatePackageKey (name : string) : string := "package:" +:+ toLowerCase name.

End Requirements.

(** ** The registry lookup ([pypiLookupTool] in [src/tools.ts])

    - The tool's results and the cache's contents are JSON values; the
      PyPI document is read through the type the code casts it to.
    - A text stored in the cache is kept by what [JSON.parse] makes of
      it; [JSON.stringify] of a result is stored as that result.
    - Expiry of cache entries is not part of a call.
    - [fetch], [encodeURIComponent], the date parser and the array sort
      (whose comparator here is not a consistent order) belong to the
      environment. *)

Module Registry.
Import Js Tools Shared Requirements.

(** Truthiness of a JSON value. *)
Definition js_truthy (v : Json) : bool :=
  match v with
  | JNull => false
  | JBool b => b
  | JNumber z => negb (z =? 0)%Z
  | JString s => truthy s
  | JArray _ | JObject _ => true
  end.

Definition truthy_field (o : option Json) : bool :=
  match o with Some v => js_truthy v | None => false end.

(** [value.key] for [key] among [success], [error], [package] and
    [latest_version], which no prototype defines. *)
Definition prop (value : Json) (key : string) : option Json :=
  match value with
  | JObject fields => get_field fields key
  | _ => None
  end.

(** [info] of the PyPI document. *)
Record PypiInfo : Type := mkInfo {
  info_name : option string;
  info_summary : option string;
  info_description : option string;
  info_home_page : option string;
  info_project_url : option string;
  info_author : option string;
  info_license : option string;
  info_version : option string;
  info_requires_python : option string;
  info_keywords : option string;
  info_classifiers : option (list string);
  info_maintainer : option string
}.

Record ReleaseFile : Type := mkFile {
  file_upload_time : option string;
  file_yanked : option bool;
  file_yanked_reason : option string
}.

(** [releases] lists the keys in the order of [Object.keys]. *)
Record PypiData : Type := mkData {
  document_info : option PypiInfo;
  document_releases : option (list (string * list ReleaseFile))
}.

Record HttpResponse : Type := mkResponse {
  http_ok : bool;
  http_status : Z;
  http_statusText : string;
  http_json : Exn + PypiData
}.

(** The text under a cache key. *)
Inductive CachedText : Type :=
| EmptyText
| NotJson
| JsonText (data : Json).

(** An entry of the cache: its text and, when it was written with a
    time to live, the time at which it expires, in seconds. *)
Record KvEntry : Type := mkEntry {
  entry_text : CachedText;
  entry_expiration : option Z
}.

(** The cache, read and written as one consistent store. *)
Abbreviation Kv := (gmap string KvEntry).

(** An entry can be read until its expiration time. *)
Definition live (clock : Z) (entry : KvEntry) : bool :=
  match entry_expiration entry with
  | Some expiration => (clock <? expiration)%Z
  | None => true
  end.

(** [PACKAGE_CACHE.get(key)] at the time [clock]: an entry that has
    expired reads as [null]. *)
Definition kv_get (clock : Z) (kv : Kv) (key : string) : option CachedText :=
  match kv !! key with
  | Some entry => if live clock entry then Some (entry_text entry) else None
  | None => None
  end.

(** [PACKAGE_CACHE.put(key, text, { expirationTtl })] at the time
    [clock]. *)
Definition kv_put (clock expirationTtl : Z) (key : string) (text : CachedText) (kv : Kv)
  : Kv :=
  <[ key := mkEntry text (Some (clock + expirationTtl)%Z) ]> kv.

(** Rejections of the cache's operations during one call. *)
Record KvFaults : Type := mkKvFaults {
  kv_get_rejects : option Exn;
  kv_delete_rejects : option Exn;
  kv_put_rejects : option Exn
}.

Definition kv_works : KvFaults := mkKvFaults None None None.

(** The times, in seconds, at which the cache serves the [get] and the
    [put] of one call. *)
Record KvClock : Type := mkClock {
  read_time : Z;
  write_time : Z
}.

Record VersionEntry : Type := mkVersion {
  ve_version : string;
  ve_upload_time : option string;
  ve_yanked : bool;
  ve_yanked_reason : option string
}.

Definition string_or_null (o : option string) : Json :=
  match o with Some s => JString s | None => JNull end.

(** [a || null] *)
Definition or_null (a : option string) : option string := or_opt a None.

Definition version_json (v : VersionEntry) : Json :=
  JObject [ ("version", JString (ve_version v));
            ("upload_time", string_or_null (ve_upload_time v));
            ("yanked", JBool (ve_yanked v));
            ("yanked_reason", string_or_null (ve_yanked_reason v)) ].

(** [{ success: false, error }] *)
Definition failure (error : string) : Json :=
  JObject [ ("success", JBool false); ("error", JString error) ].

(** What [encodeURIComponent] throws on a text that is not well-formed
    UTF-16. *)
Definition URIError : Exn := JsError "URI malformed".

(** The test a cached value has to pass to be returned. *)
Definition cache_entry_valid (cachedData : Json) : bool :=
  truthy_field (prop cachedData "success")
  && match prop cachedData "package" with
     | Some package => js_truthy package && truthy_field (prop package "latest_version")
     | None => false
     end.

(** The cache part of [execute]: the value to return at once, if any,
    and the cache afterwards. Whatever is thrown here is logged and
    the call goes on to fetch. *)
Definition consult (faults : KvFaults) (clock : Z) (cacheKey : string) (kv : Kv)
  : option Json * Kv :=
  match kv_get_rejects faults with
  | Some _ => (None, kv)
  | None =>
      match kv_get clock kv cacheKey with
      | None | Some EmptyText => (None, kv)
      | Some NotJson => (None, kv)
      | Some (JsonText JNull) => (None, kv)
      | Some (JsonText cachedData) =>
          if cache_entry_valid cachedData then (Some cachedData, kv)
          else
            match kv_delete_rejects faults with
            | Some _ => (None, kv)
            | None => (None, delete cacheKey kv)
            end
      end
  end.

(** What the tool sees of where it runs. *)
Section Lookup.

(** [encodeURIComponent(text)], [None] when it throws a [URIError]. *)
Variable encodeURIComponent : string -> option string.
(** [new Date(text).getTime()], [None] for [NaN]. *)
Variable getTime : string -> option Z.
Variable array_sort :
  (VersionEntry -> VersionEntry -> Z) -> list VersionEntry -> list VersionEntry.
Variable fetch : string -> Exn + HttpResponse.

(** The comparator given to [sort]; a [NaN] difference counts as 0. *)
Definition latest_first (a b : VersionEntry) : Z :=
  if truthy_opt (ve_upload_time a) && truthy_opt (ve_upload_time b) then
    match getTime (default "" (ve_upload_time b)), getTime (default "" (ve_upload_time a)) with
    | Some tb, Some ta => (tb - ta)%Z
    | _, _ => 0%Z
    end
  else 0%Z.

Definition versions_of (releases : list (string * list ReleaseFile)) : list VersionEntry :=
  let kept :=
    List.filter (fun version =>
              match own_entry releases version with
              | Some files => (0 <? length files)%nat
              | None => false
              end)
           (map fst releases) in
  let entries :=
    map (fun version =>
           let release := head (default [] (own_entry releases version)) in
           mkVersion version
             (or_null (release ≫= file_upload_time))
             (default false (release ≫= file_yanked))
             (or_null (release ≫= file_yanked_reason)))
        kept in
  take 20 (array_sort latest_first entries).

Definition packageInfo_of (package_name : string) (include_versions : bool)
    (pypiData : PypiData) : Json :=
  let info {A} (f : PypiInfo -> option A) : option A := document_info pypiData ≫= f in
  let latest_version := or_else (info info_version) "Unknown" in
  let versions :=
    if include_versions then
      match document_releases pypiData with
      | Some releases => Some (versions_of releases)
      | None => None
      end
    else None in
  let last_updated :=
    match versions with
    | Some versions =>
        match List.find (fun v => String.eqb (ve_version v) latest_version) versions with
        | Some latestVersionData => or_null (ve_upload_time latestVersionData)
        | None => None
        end
    | None => None
    end in
  JObject
    ([ ("name", JString (or_else (info info_name) package_name));
       ("summary", JString (or_else (info info_summary) "No summary available"));
       ("description",
        JString
          (match info info_description with
           | Some description =>
               if truthy description then
                 if (500 <? String.length description)%nat
                 then substring 0 500 description +:+ "..."
                 else description
               else "No description available"
           | None => "No description available"
           end));
       ("home_page",
        string_or_null (or_null (or_opt (info info_home_page) (info info_project_url))));
       ("author", JString (or_else (info info_author) "Unknown"));
       ("license", JString (or_else (info info_license) "Not specified"));
       ("latest_version", JString latest_version);
       ("requires_python", string_or_null (or_null (info info_requires_python)));
       ("keywords", JString (or_else (info info_keywords) ""));
       ("classifiers",
        JArray (map JString (take 10 (default [] (info info_classifiers)))));
       ("maintainer",
        JString (or_else (or_opt (info info_maintainer) (info info_author)) "Unknown"));
       ("package_url",
        JString ("https://pypi.org/project/" +:+ or_else (info info_name) package_name
                 +:+ "/"));
       ("last_updated", string_or_null last_updated);
       ("total_downloads", JNull) ]
     ++ match versions with
        | Some versions => [ ("versions", JArray (map version_json versions)) ]
        | None => []
        end).

(** The object built from a document that was fetched at [now]. *)
Definition fresh_result (now package_name : string) (include_versions : bool)
    (pypiData : PypiData) : Json :=
  JObject [ ("success", JBool true);
            ("package", packageInfo_of package_name include_versions pypiData);
            ("fetched_at", JString now);
            ("cache_used", JBool false) ].

(** The [catch] of [execute]: reading [message] off a caught [null] or
    [undefined] throws, and that [TypeError] leaves [execute]. *)
Definition lookup_caught (e : Exn) : Exn + Json :=
  match read_message e with
  | inl typeError => inl typeError
  | inr message =>
      inr (failure ("Failed to fetch package information: " +:+ interp message))
  end.

(** [execute] of the tool: what it returns or throws, and the cache it
    leaves; [cache] is [None] when the context has no [PACKAGE_CACHE]. *)
Definition pypiLookup (faults : KvFaults) (clock : KvClock) (now package_name : string)
    (include_versions : bool) (cache : option Kv) : (Exn + Json) * option Kv :=
  if negb (truthy package_name) || (String.length (trim package_name) =? 0)%nat then
    (inr (failure "Package name is required"), cache)
  else
    let cleanPackageName := toLowerCase (trim package_name) in
    let cacheKey := generatePackageKey cleanPackageName in
    let '(cached, cache) :=
      match cache with
      | Some kv =>
          let '(cached, kv) := consult faults (read_time clock) cacheKey kv in
          (cached, Some kv)
      | None => (None, None)
      end in
    match cached with
    | Some cachedData => (inr cachedData, cache)
    | None =>
        match encodeURIComponent cleanPackageName with
        | None => (lookup_caught URIError, cache)
        | Some encoded =>
            match fetch ("https://pypi.org/pypi/" +:+ encoded +:+ "/json") with
            | inl e => (lookup_caught e, cache)
            | inr response =>
                if negb (http_ok response) then
                  if (http_status response =? 404)%Z then
                    (inr (failure ("Package '" +:+ package_name +:+
                                   "' not found on PyPI. Check the spelling or try a different package name.")),
                     cache)
                  else
                    (inr (failure ("PyPI API error (" +:+ pretty (http_status response)
                                   +:+ "): " +:+ http_statusText response)),
                     cache)
                else
                  match http_json response with
                  | inl e => (lookup_caught e, cache)
                  | inr pypiData =>
                      let result :=
                        fresh_result now package_name include_versions pypiData in
                      (inr result,
                       match cache with
                       | Some kv =>
                           match kv_put_rejects faults with
                           | Some _ => Some kv
                           | None =>
                               Some (kv_put (write_time clock) 3600 cacheKey
                                       (JsonText result) kv)
                           end
                       | None => None
                       end)
                  end
            end
        end
    end.

(** What [dependencyResolutionTool] reads of a result; in the results
    the tool builds itself the members read are strings. *)
Definition as_lookup (result : Json) : LookupResult :=
  mkLookup (truthy_field (prop result "success"))
    (match prop result "error" with Some (JString error) => Some error | _ => None end)
    (match prop result "package" with
     | Some package =>
         if js_truthy package then
           Some (mkPackageInfo
                   (match prop package "latest_version" with
                    | Some (JString v) => Some v
                    | _ => None
                    end))
         else None
     | None => None
     end).

End Lookup.

(** A stable insertion sort, one of the orders [sort] may give. *)
Fixpoint insert_before {A} (compare : A -> A -> Z) (x : A) (l : list A) : list A :=
  match l with
  | [] => [x]
  | y :: rest =>
      if (compare x y <=? 0)%Z then x :: l else y :: insert_before compare x rest
  end.

Definition insertion_sort {A} (compare : A -> A -> Z) (l : list A) : list A :=
  foldr (insert_before compare) [] l.

(** Dates nobody parses. *)
Definition no_dates (text : string) : option Z := None.

(** Names made of unreserved characters are encoded as themselves. *)
Definition unreserved (name : string) : option string := Some name.

(** A call served at second 1000, and one served within the hour. *)
Definition first_call : KvClock := mkClock 1000 1001.
Definition within_the_hour : KvClock := mkClock 4600 4601.

Definition numpy_document : PypiData :=
  mkData (Some (mkInfo (Some "numpy") (Some "Array computing") None None None
                  (Some "Travis E. Oliphant et al.") (Some "BSD-3-Clause") (Some "1.24.3")
                  (Some ">=3.8") None None None))
         (Some [ ("1.24.2", [ mkFile (Some "2023-02-05T20:10:11") None None ]);
                 ("1.24.3", [ mkFile (Some "2023-04-22T19:15:01") None None ]) ]).

(** A document without [info]. *)
Definition bare_document : PypiData := mkData None None.

Definition pypi_server (url : string) : Exn + HttpResponse :=
  if String.eqb url "https://pypi.org/pypi/numpy/json" then
    inr (mkResponse true 200 "OK" (inr numpy_document))
  else if String.eqb url "https://pypi.org/pypi/bare/json" then
    inr (mkResponse true 200 "OK" (inr bare_document))
  else if String.eqb url "https://pypi.org/pypi/flaky/json" then
    inr (mkResponse false 503 "Service Unavailable" (inl (JsError "no body")))
  else
    inr (mkResponse false 404 "Not Found" (inl (JsError "no body"))).

Definition offline (url : string) : Exn + HttpResponse :=
  inl (JsError "network unreachable").

End Registry.

(** ** Research outcomes used in examples *)

Module ResearchScenarios.
Import Js Tools Shared Agent.

(** Research that finds [nose] deprecated and nothing else. *)
Definition nose_research (packageName : string) : string + Research :=
  if String.eqb packageName "nose" then
    inr (Researched
           (Some (mkAnalysis true [ "Known deprecated package in database" ]
                    [ "pytest"; "unittest" ])))
  else inr (Researched None).

Definition nose_any : Requirement := mkReq "nose" "" None false "nose".
Definition nose_padded : Requirement := mkReq " nose " "" None false "nose".

End ResearchScenarios.

(** ** The submission form ([DependencyInput.handleSubmit] in [src/app.tsx]) *)

Module Form.
Import Js Tools Shared Requirements.

(** [text.split("\n")] *)
Fixpoint split_lines (text : string) : list string :=
  match text with
  | EmptyString => [ "" ]
  | String a rest =>
      if Ascii.eqb a "010" then "" :: split_lines rest
      else
        match split_lines rest with
        | line :: more => String a line :: more
        | [] => [ String a "" ]
        end
  end.

(** [lines.map(parseRequirementString)]: the first line that does not
    parse throws. *)
Fixpoint parse_each (lines : list string) : Exn + list Requirement :=
  match lines with
  | [] => inr []
  | line :: rest =>
      match parseRequirementString line with
      | inl e => inl e
      | inr constraint =>
          match parse_each rest with
          | inl e => inl e
          | inr constraints => inr (constraint :: constraints)
          end
      end
  end.

(** The lines kept: not empty, not a comment. *)
Definition kept (line : string) : bool := truthy line && negb (String.prefix "#" line).

Definition parsedRequirements (requirements : string) : Exn + list Requirement :=
  parse_each (List.filter kept (map trim (split_lines requirements))).

(** The request handed to [onSubmit], or what the [catch] shows. *)
Definition handleSubmit (requirements pythonVersion : string)
    (allowPrereleases excludeDeprecated : bool) : Exn + ResolutionRequest :=
  match parsedRequirements requirements with
  | inr parsed => inr (mkRequest parsed pythonVersion allowPrereleases true excludeDeprecated true)
  | inl e => inl e
  end.

(** What the agent reads back from [JSON.stringify(request)]; a member
    that is [undefined] is not written. *)
Definition constraint_json (c : Requirement) : Json :=
  JObject ([ ("name", JString (req_name c)); ("operator", JString (req_operator c)) ]
           ++ match req_version c with
              | Some version => [ ("version", JString version) ]
              | None => []
              end
           ++ [ ("fixed", JBool (req_fixed c));
                ("original_spec", JString (req_original_spec c)) ]).

Definition request_json (request : ResolutionRequest) : Json :=
  JObject [ ("requirements", JArray (map constraint_json (requirements request)));
            ("python_version", JString (python_version request));
            ("allow_prereleases", JBool (allow_prereleases request));
            ("prefer_stable", JBool (prefer_stable request));
            ("exclude_deprecated", JBool (exclude_deprecated request));
            ("suggest_alternatives", JBool (suggest_alternatives request)) ].

(** The text the form starts with. *)
Definition initial_text : string :=
  "numpy>=1.19.0" +:+ nl +:+ "pandas>=1.3.0" +:+ nl +:+ "django==3.2.5".

(** The request that text gives with the form's other settings left as
    they are. *)
Definition initial_request : ResolutionRequest :=
  mkRequest
    [ mkReq "numpy" ">=" (Some "1.19.0") false "numpy>=1.19.0";
      mkReq "pandas" ">=" (Some "1.3.0") false "pandas>=1.3.0";
      mkReq "django" "==" (Some "3.2.5") true "django==3.2.5" ]
    "3.9" false true true true.

End Form.

(** ** Package research ([webSearchTool] in [src/tools.ts] and
    [PackageResearchService.researchPackage] in
    [src/services/package-research.ts])

    The tools are called through [execute], so a parameter left out is
    [undefined]: no schema default is applied. *)

Module PackageResearch.
Import Js Tools Shared Requirements Registry Agent.

(** [String(value)] of a primitive, as an error message shows it. *)
Definition primitive_text (value : Json) : string :=
  match value with
  | JNull => "null"
  | JBool true => "true"
  | JBool false => "false"
  | JNumber z => pretty z
  | JString s => s
  | JArray _ | JObject _ => "[object Object]"
  end.

(** [key in value], for a key that no prototype defines. *)
Definition has_member (key : string) (value : Json) : Exn + bool :=
  match value with
  | JObject fields => inr (bool_decide (is_Some (get_field fields key)))
  | JArray _ => inr false
  | _ =>
      inl (JsError ("Cannot use 'in' operator to search for '" +:+ key +:+ "' in "
                    +:+ primitive_text value))
  end.

Record SearchEnv : Type := mkSearchEnv {
  GOOGLE_SEARCH_API_KEY : option string;
  GOOGLE_SEARCH_ENGINE_ID : option string
}.

Record SearchItem : Type := mkItem {
  item_title : string;
  item_link : string;
  item_snippet : string;
  item_displayLink : string
}.

(** The search answer, as the code types it; [search_time] is
    [searchInformation?.searchTime]. *)
Record SearchData : Type := mkSearchData {
  search_items : option (list SearchItem);
  search_time : option string
}.

Record SearchResponse : Type := mkSearchResponse {
  search_ok : bool;
  search_status : Z;
  search_statusText : string;
  search_json : Exn + SearchData
}.

(** [Math.min(max_results, 10).toString()] *)
Definition num_of (max_results : option Z) : string :=
  match max_results with
  | Some n => pretty (Z.min n 10)
  | None => "NaN"
  end.

Definition result_json (item : SearchItem) : Json :=
  JObject [ ("title", JString (item_title item));
            ("url", JString (item_link item));
            ("snippet", JString (item_snippet item));
            ("displayLink", JString (item_displayLink item)) ].

(** The analysis [packageDeprecationAnalysisTool] returns, as
    [researchPackage] types it; [check_detailed] is not passed. For a
    name the table only inherits, the members read off it are
    [undefined]. *)
Definition packageDeprecationReport (package_name : string) : DeprecationAnalysisResult :=
  match member deprecatedPackages (toLowerCase (trim package_name)) with
  | Own knownInfo =>
      mkAnalysis (known_deprecated knownInfo)
        [ "Known " +:+ (if known_deprecated knownInfo then "deprecated" else "problematic")
          +:+ " package in database" ]
        (known_alternatives knownInfo)
  | Inherited => mkAnalysis false [ "Known problematic package in database" ] []
  | Missing => mkAnalysis false [] []
  end.

(** [PackageResearchResult] *)
Record PackageResearchResult : Type := mkResearch {
  pypi_info : Json;
  deprecation_search : Json;
  alternatives_search : Json;
  deprecation_analysis : option DeprecationAnalysisResult
}.

Section Service.

Variable encodeURIComponent : string -> option string.
Variable getTime : string -> option Z.
Variable array_sort :
  (VersionEntry -> VersionEntry -> Z) -> list VersionEntry -> list VersionEntry.
Variable fetch : string -> Exn + HttpResponse.
(** The URL built from the key, the engine id, the query and [num]. *)
Variable search_url : string -> string -> string -> string -> string.
Variable fetch_search : string -> Exn + SearchResponse.

Definition search_manually (encoded : string) : string :=
  "Search manually: https://www.google.com/search?q=" +:+ encoded.

(** The [catch] of [webSearchTool.execute]: the message is read off
    the caught value and the query is encoded again; what either throws
    leaves [execute]. *)
Definition search_caught (query : string) (e : Exn) : Exn + Json :=
  match read_message e with
  | inl typeError => inl typeError
  | inr message =>
      match encodeURIComponent query with
      | None => inl URIError
      | Some encoded =>
          inr (JObject [ ("success", JBool false);
                         ("error", JString ("Search failed: " +:+ interp message));
                         ("fallback_suggestions",
                          JArray [ JString (search_manually encoded) ]) ])
      end
  end.

(** The answer without search settings, given the encoded query and
    the suggestions made for the package. *)
Definition not_configured (encoded : string) (for_package : list string) : Json :=
  JObject
    [ ("success", JBool false);
      ("error",
       JString "Web search not configured. Please set GOOGLE_SEARCH_API_KEY and GOOGLE_SEARCH_ENGINE_ID environment variables.");
      ("fallback_suggestions",
       JArray (map JString (search_manually encoded :: for_package))) ].

(** [webSearchTool.execute]: what it returns or throws. The branch
    without search settings encodes the query and the package name
    outside any [try]. *)
Definition webSearch (env : option SearchEnv) (query : string)
    (package_name : option string) (max_results : option Z) : Exn + Json :=
  if negb (truthy_opt (env ≫= GOOGLE_SEARCH_API_KEY))
     || negb (truthy_opt (env ≫= GOOGLE_SEARCH_ENGINE_ID)) then
    match encodeURIComponent query with
    | None => inl URIError
    | Some encoded =>
        if truthy_opt package_name then
          match encodeURIComponent (default "" package_name) with
          | None => inl URIError
          | Some name =>
              inr (not_configured encoded
                     [ "Check PyPI directly: https://pypi.org/project/" +:+ name +:+ "/";
                       "Check GitHub: https://github.com/search?q=" +:+ name
                       +:+ "&type=repositories" ])
          end
        else inr (not_configured encoded [])
    end
  else
    match fetch_search
            (search_url (default "" (env ≫= GOOGLE_SEARCH_API_KEY))
               (default "" (env ≫= GOOGLE_SEARCH_ENGINE_ID)) query (num_of max_results)) with
    | inl e => search_caught query e
    | inr response =>
        if negb (search_ok response) then
          search_caught query
            (JsError ("Search API error: " +:+ pretty (search_status response)
                      +:+ " - " +:+ search_statusText response))
        else
          match search_json response with
          | inl e => search_caught query e
          | inr searchData =>
              let results := map result_json (default [] (search_items searchData)) in
              inr (JObject
                     [ ("success", JBool true);
                       ("results", JArray results);
                       ("query", JString query);
                       ("total_results", JNumber (Z.of_nat (length results)));
                       ("search_time",
                        string_or_null (or_null (search_time searchData))) ])
          end
    end.

(** Whether the analysis is asked for:
    [!("error" in pypiInfo) && !("error" in deprecationSearch)]. *)
Definition both_without_error (pypiInfo deprecationSearch : Json) : Exn + bool :=
  match has_member "error" pypiInfo with
  | inl e => inl e
  | inr true => inr false
  | inr false =>
      match has_member "error" deprecationSearch with
      | inl e => inl e
      | inr inSearch => inr (negb inSearch)
      end
  end.

(** The calls of the [try] block of [researchPackage] after the
    lookup. *)
Definition research_after_lookup (env : option SearchEnv) (packageName : string)
    (pypiInfo : Json) : Exn + PackageResearchResult :=
  match webSearch env (packageName +:+ " python package deprecated unmaintained")
          (Some packageName) None with
  | inl e => inl e
  | inr deprecationSearch =>
      match webSearch env (packageName +:+ " python package alternatives replacement")
              (Some packageName) None with
      | inl e => inl e
      | inr alternativesSearch =>
          match both_without_error pypiInfo deprecationSearch with
          | inl e => inl e
          | inr analysed =>
              inr (mkResearch pypiInfo deprecationSearch alternativesSearch
                     (if analysed then Some (packageDeprecationReport packageName)
                      else None))
          end
      end
  end.

(** The [try] block of [researchPackage]: what it returns or throws,
    and the cache it leaves. *)
Definition researchPackage_try (env : option SearchEnv) (faults : KvFaults)
    (clock : KvClock) (now packageName : string) (cache : option Kv)
  : (Exn + PackageResearchResult) * option Kv :=
  let '(pypiInfo, cache) :=
    pypiLookup encodeURIComponent getTime array_sort fetch faults clock now packageName
      true cache in
  (match pypiInfo with
   | inl e => inl e
   | inr pypiInfo => research_after_lookup env packageName pypiInfo
   end,
   cache).

(** The body of [researchPackage] as the agent reads its result: the
    analysis of what the [try] block returns, or the message the
    [catch] takes from what it throws. *)
Definition research_body_of (env : option SearchEnv) (faults : KvFaults)
    (clock : KvClock) (now packageName : string) (cache : option Kv) : string + Research :=
  match fst (researchPackage_try env faults clock now packageName cache) with
  | inl e => inl (message_of e)
  | inr result => inr (Researched (deprecation_analysis result))
  end.

End Service.

(** A search service that answers every query with one hit. *)
Definition plain_url (key cx q num : string) : string :=
  "https://www.googleapis.com/customsearch/v1?key=" +:+ key +:+ "&cx=" +:+ cx
  +:+ "&q=" +:+ q +:+ "&num=" +:+ num.

Definition search_server (url : string) : Exn + SearchResponse :=
  inr (mkSearchResponse true 200 "OK"
         (inr (mkSearchData
                 (Some [ mkItem "nose is unmaintained" "https://example.org/nose"
                           "use pytest instead" "example.org" ])
                 (Some "0.2")))).

(** A registry that serves [nose]. *)
Definition nose_server (url : string) : Exn + HttpResponse :=
  if String.eqb url "https://pypi.org/pypi/nose/json" then
    inr (mkResponse true 200 "OK"
           (inr (mkData (Some (mkInfo (Some "nose") None None None None None None
                                 (Some "1.3.7") None None None None))
                        None)))
  else pypi_server url.

Definition search_configured : option SearchEnv :=
  Some (mkSearchEnv (Some "key") (Some "engine")).

Definition search_unconfigured : option SearchEnv :=
  Some (mkSearchEnv None None).

End PackageResearch.

(** * Facts about strings *)

Module StringFacts.

Lemma prefix_app (s t : string) : String.prefix s (s +:+ t) = true.
Proof.
  induction s as [ | a s IH ]; [ by destruct t | ].
  change (String a s +:+ t) with (String a (s +:+ t)). simpl.
  by destruct (ascii_dec a a).
Qed.

Lemma app_assoc_string (a b c : string) : (a +:+ b) +:+ c = a +:+ (b +:+ c).
Proof.
  induction a as [ | x a IH ]; [ done | ].
  change (String x ((a +:+ b) +:+ c) = String x (a +:+ (b +:+ c))). by f_equal.
Qed.

Lemma app_empty_r (s : string) : s +:+ "" = s.
Proof.
  induction s as [ | a s IH ]; [ done | ].
  change (String a (s +:+ "") = String a s). by f_equal.
Qed.

End StringFacts.

(** * Properties of the resolution tool *)

Module ResolutionFacts.
Import Js Tools.

Lemma acc_app_empty_l a : acc_app acc_empty a = a.
Proof. by destruct a. Qed.

Lemma acc_app_empty_r a : acc_app a acc_empty = a.
Proof. destruct a; unfold acc_app; simpl. by rewrite !app_nil_r. Qed.

Lemma acc_app_assoc a b c : acc_app (acc_app a b) c = acc_app a (acc_app b c).
Proof. unfold acc_app; simpl. by rewrite !app_assoc. Qed.

Lemma push_resolved_app p a : push_resolved p a = acc_app a (push_resolved p acc_empty).
Proof. unfold push_resolved, acc_app; simpl. by rewrite !app_nil_r. Qed.

Lemma push_deprecated_app d a b :
  push_deprecated d (acc_app a b) = acc_app a (push_deprecated d b).
Proof. unfold push_deprecated, acc_app; simpl. by rewrite app_assoc. Qed.

Lemma push_warning_app s a : push_warning s a = acc_app a (push_warning s acc_empty).
Proof. unfold push_warning, acc_app; simpl. by rewrite !app_nil_r. Qed.

Section WithRegistry.

Variable pypi_lookup : string -> LookupResult.

(** An iteration only appends, and what it appends does not depend on
    what earlier iterations pushed. *)
Lemma processRequirement_app a req :
  processRequirement pypi_lookup a req = acc_app a (contribution pypi_lookup req).
Proof.
  unfold contribution, processRequirement.
  destruct (negb (truthy (trim (req_name req)))).
  { apply push_warning_app. }
  destruct (member builtInDeprecated _) as [info | | ].
  - destruct (builtin_deprecated info).
    + rewrite (push_resolved_app _ a). by rewrite push_deprecated_app.
    + apply push_resolved_app.
  - apply push_resolved_app.
  - destruct (negb (lookup_success _)).
    { apply push_warning_app. }
    destruct (check_success _ && check_is_deprecated _).
    + rewrite (push_resolved_app _ a). by rewrite push_deprecated_app.
    + apply push_resolved_app.
Qed.

Lemma fold_processRequirement reqs a :
  fold_left (processRequirement pypi_lookup) reqs a
  = acc_app a (processAll pypi_lookup reqs).
Proof.
  unfold processAll. revert a.
  induction reqs as [ | req reqs IH ]; intros a; simpl.
  - by rewrite acc_app_empty_r.
  - rewrite IH. rewrite (IH (processRequirement _ _ req)).
    rewrite (processRequirement_app a). fold acc_empty.
    rewrite (processRequirement_app acc_empty), acc_app_empty_l.
    by rewrite acc_app_assoc.
Qed.

Lemma processAll_nil : processAll pypi_lookup [] = acc_empty.
Proof. reflexivity. Qed.

Lemma processAll_cons req reqs :
  processAll pypi_lookup (req :: reqs)
  = acc_app (contribution pypi_lookup req) (processAll pypi_lookup reqs).
Proof.
  unfold processAll at 1. simpl. fold acc_empty.
  by rewrite fold_processRequirement.
Qed.

Lemma processAll_app reqs1 reqs2 :
  processAll pypi_lookup (reqs1 ++ reqs2)
  = acc_app (processAll pypi_lookup reqs1) (processAll pypi_lookup reqs2).
Proof.
  unfold processAll at 1. rewrite fold_left_app.
  fold (processAll pypi_lookup reqs1). by rewrite fold_processRequirement.
Qed.

(** Every deprecated entry comes with a resolved one. *)
Lemma contribution_deprecated_le req :
  length (acc_deprecated (contribution pypi_lookup req)) <= length (acc_resolved (contribution pypi_lookup req)).
Proof.
  unfold contribution, processRequirement.
  destruct (negb (truthy _)); [ simpl; lia | ].
  destruct (member builtInDeprecated _) as [info | | ].
  - destruct (builtin_deprecated info); simpl; lia.
  - simpl; lia.
  - destruct (negb (lookup_success _)); [ simpl; lia | ].
    destruct (check_success _ && check_is_deprecated _); simpl; lia.
Qed.

Lemma processAll_deprecated_le reqs :
  length (acc_deprecated (processAll pypi_lookup reqs))
  <= length (acc_resolved (processAll pypi_lookup reqs)).
Proof.
  induction reqs as [ | req reqs IH ]; [ simpl; lia | ].
  rewrite processAll_cons. simpl. rewrite !length_app.
  pose proof (contribution_deprecated_le req). lia.
Qed.

End WithRegistry.

(** *** The duplicate scan *)

Lemma count_snoc l x n :
  count (l ++ [x]) n = count l n + (if string_dec x n then 1 else 0).
Proof.
  unfold count. rewrite count_occ_app. simpl. by destruct (string_dec x n).
Qed.

Lemma count_cons l x n :
  count (x :: l) n = (if string_dec x n then 1 else 0) + count l n.
Proof.
  unfold count. simpl. by destruct (string_dec x n).
Qed.

(** After the scan, a name is listed as a duplicate once for every
    occurrence beyond the first one the set had not yet seen. *)
Lemma scan_count (l : list ResolvedPackage) :
  forall (seen : gset string) (dups : list string) (n : string),
    count (snd (fold_left scanStep l (seen, dups))) n
    = count dups n
      + (if bool_decide (n ∈ seen) then count (map pkg_name l) n
         else pred (count (map pkg_name l) n)).
Proof.
  induction l as [ | x l IH ]; intros seen dups n; cbn [fold_left map].
  - destruct (bool_decide _); unfold count; simpl; lia.
  - rewrite count_cons. unfold scanStep at 2.
    destruct (bool_decide_reflect (pkg_name x ∈ seen)) as [Hin | Hnin].
    + rewrite IH, count_snoc.
      destruct (string_dec (pkg_name x) n) as [Heq | Hne]; [ subst n | ].
      * rewrite bool_decide_eq_true_2 by done. lia.
      * destruct (bool_decide _); lia.
    + rewrite IH.
      destruct (string_dec (pkg_name x) n) as [Heq | Hne]; [ subst n | ].
      * rewrite bool_decide_eq_true_2 by set_solver.
        rewrite bool_decide_eq_false_2 by done.
        simpl. lia.
      * destruct (bool_decide_reflect (n ∈ seen)) as [H1 | H1].
        -- rewrite bool_decide_eq_true_2 by set_solver. lia.
        -- rewrite bool_decide_eq_false_2
             by (rewrite elem_of_union, elem_of_singleton; intros [? | ?];
                 [ congruence | done ]).
           lia.
Qed.

Lemma duplicatePackages_count (l : list ResolvedPackage) (n : string) :
  count (duplicatePackages l) n = pred (count (map pkg_name l) n).
Proof.
  unfold duplicatePackages. rewrite scan_count.
  rewrite bool_decide_eq_false_2 by set_solver. unfold count at 1. simpl. lia.
Qed.

Lemma duplicatePackages_nil_iff (l : list ResolvedPackage) :
  duplicatePackages l = [] <-> NoDup (map pkg_name l).
Proof.
  rewrite NoDup_ListNoDup, (List.NoDup_count_occ string_dec). split.
  - intros Hnil n. pose proof (duplicatePackages_count l n) as Hc.
    rewrite Hnil in Hc. unfold count in Hc. simpl in Hc. lia.
  - intros Hle. apply (count_occ_inv_nil string_dec). intros n.
    pose proof (duplicatePackages_count l n) as Hc. unfold count in Hc.
    specialize (Hle n). lia.
Qed.

Lemma positive_length {A} (l : list A) : (0 <? length l)%nat = true <-> l <> [].
Proof. destruct l; simpl; split; intros; try done. Qed.

Lemma positive_length_false {A} (l : list A) : (0 <? length l)%nat = false <-> l = [].
Proof. destruct l; simpl; split; intros; try done. Qed.

Lemma field_list_nonempty_or_undefined {A} (l : list A) :
  field_list (nonempty_or_undefined l) = l.
Proof. by destruct l. Qed.

Lemma detectConflicts_packages (l : list ResolvedPackage) :
  flat_map conflict_packages (detectConflicts l) = duplicatePackages l.
Proof.
  unfold detectConflicts.
  destruct (duplicatePackages l) as [ | d ds ]; simpl; [ done | by rewrite app_nil_r ].
Qed.

Lemma detectConflicts_nil_iff (l : list ResolvedPackage) :
  detectConflicts l = [] <-> NoDup (map pkg_name l).
Proof.
  rewrite <- duplicatePackages_nil_iff. unfold detectConflicts.
  destruct (duplicatePackages l); simpl; split; intros; done.
Qed.

Lemma detectConflicts_length (l : list ResolvedPackage) : length (detectConflicts l) <= 1.
Proof. unfold detectConflicts. destruct (0 <? _)%nat; simpl; lia. Qed.

Section ResultShape.

Variable pypi_lookup : string -> LookupResult.

Lemma resolved_flat_map reqs :
  acc_resolved (processAll pypi_lookup reqs)
  = flat_map (fun req => acc_resolved (contribution pypi_lookup req)) reqs.
Proof.
  induction reqs as [ | req reqs IH ]; [ done | ].
  rewrite processAll_cons. simpl. by rewrite IH.
Qed.

(** The fields of the result, read as lists, in terms of the loop. *)
Lemma result_resolved reqs :
  field_list (resolved_packages (dependencyResolution pypi_lookup reqs))
  = acc_resolved (processAll pypi_lookup reqs).
Proof. unfold dependencyResolution. by destruct reqs. Qed.

Lemma result_deprecated reqs :
  field_list (deprecated_packages (dependencyResolution pypi_lookup reqs))
  = acc_deprecated (processAll pypi_lookup reqs).
Proof.
  unfold dependencyResolution. destruct reqs; [ done | ].
  cbn [Nat.eqb length deprecated_packages]. apply field_list_nonempty_or_undefined.
Qed.

Lemma result_warnings reqs :
  field_list (warnings (dependencyResolution pypi_lookup reqs))
  = acc_warnings (processAll pypi_lookup reqs).
Proof.
  unfold dependencyResolution. destruct reqs; [ done | ].
  cbn [Nat.eqb length warnings]. apply field_list_nonempty_or_undefined.
Qed.

Lemma result_conflicts reqs :
  field_list (conflicts (dependencyResolution pypi_lookup reqs))
  = detectConflicts (acc_resolved (processAll pypi_lookup reqs)).
Proof.
  unfold dependencyResolution. destruct reqs; [ done | ].
  cbn [Nat.eqb length conflicts]. apply field_list_nonempty_or_undefined.
Qed.

Lemma result_conflicts_undefined reqs :
  conflicts (dependencyResolution pypi_lookup reqs) = None
  <-> detectConflicts (acc_resolved (processAll pypi_lookup reqs)) = [].
Proof.
  unfold dependencyResolution. destruct reqs; [ done | ].
  cbn [Nat.eqb length conflicts]. unfold nonempty_or_undefined.
  destruct (detectConflicts _); simpl; split; intros; done.
Qed.

Lemma result_deprecated_eq reqs :
  deprecated_packages (dependencyResolution pypi_lookup reqs)
  = nonempty_or_undefined (acc_deprecated (processAll pypi_lookup reqs)).
Proof. unfold dependencyResolution. by destruct reqs. Qed.

Lemma result_conflicts_eq reqs :
  conflicts (dependencyResolution pypi_lookup reqs)
  = nonempty_or_undefined (detectConflicts (acc_resolved (processAll pypi_lookup reqs))).
Proof. unfold dependencyResolution. by destruct reqs. Qed.

Lemma result_success reqs :
  success (dependencyResolution pypi_lookup reqs)
  = negb (0 <? length (detectConflicts (acc_resolved (processAll pypi_lookup reqs))))%nat
    && ((0 <? length (acc_resolved (processAll pypi_lookup reqs)))%nat
        || (0 <? length (acc_deprecated (processAll pypi_lookup reqs)))%nat).
Proof. unfold dependencyResolution. by destruct reqs. Qed.

End ResultShape.

End ResolutionFacts.

(** * The resolution tool on sample inputs *)

Module ResolutionExamples.
Import Js Tools Scenarios.

(** An unconstrained and a lower-bounded requirement both get the
    registry's latest version. *)
Example latest_for_unconstrained_and_minimum :
  dependencyResolution registry [numpy_any; pandas_min]
  = mkResult true
      (Some [ mkResolved "numpy" (Some "1.24.3"); mkResolved "pandas" (Some "2.0.1") ])
      None None None None.
Proof. by vm_compute. Qed.

(** The same name requested twice: one Conflict entry, no success. *)
Example same_name_twice :
  let r := dependencyResolution registry [django_min; django_exact] in
  conflicts r
  = Some [ mkConflict ["django"] duplicate_reason (Some duplicate_resolution) ]
  /\ success r = false
  /\ error r = Some "Found 1 conflicts".
Proof. repeat split; by vm_compute. Qed.

(** A built-in deprecated module never reaches the registry. *)
Example builtin_module :
  dependencyResolution empty_registry [ mkReq "imp" "" None false "imp" ]
  = mkResult true
      (Some [ mkResolved "imp" (Some "built-in") ])
      (Some [ mkDeprecated "imp" (Some "built-in")
                "The imp module is deprecated since Python 3.4 and removed in Python 3.12"
                (Some "importlib") ])
      None None None.
Proof. by vm_compute. Qed.

(** A package the registry does not know: a warning, nothing resolved. *)
Example unknown_package :
  let r := dependencyResolution registry [missing_any] in
  resolved_packages r = Some []
  /\ success r = false
  /\ error r = Some "No packages could be resolved"
  /\ length (field_list (warnings r)) = 1.
Proof. repeat split; by vm_compute. Qed.

(** A name that is a member of [Object.prototype] is taken for a table
    entry and pushed without a version. *)
Example inherited_member_name :
  resolved_packages
    (dependencyResolution registry [ mkReq "constructor" "==" (Some "1.0") true "constructor==1.0" ])
  = Some [ mkResolved "constructor" None ].
Proof. by vm_compute. Qed.

End ResolutionExamples.

(** * The claims about the resolution tool *)

Module ResolutionClaims.
Import Js Tools Scenarios StringFacts ResolutionFacts.

Section Policy.

Variable pypi_lookup : string -> LookupResult.

(** A requirement that reaches the registry and is found there pushes
    exactly one resolved package, with the version [resolveVersion]
    chooses. *)
Lemma contribution_found req :
  truthy (trim (req_name req)) = true ->
  member builtInDeprecated (toLowerCase (trim (req_name req))) = Missing ->
  lookup_success (pypi_lookup (trim (req_name req))) = true ->
  acc_resolved (contribution pypi_lookup req)
  = [ mkResolved (trim (req_name req))
        (Some (resolveVersion req (pypi_lookup (trim (req_name req))))) ].
Proof.
  intros Hname Hmiss Hok. unfold contribution, processRequirement.
  rewrite Hname, Hmiss, Hok. simpl.
  by destruct (check_success _ && check_is_deprecated _).
Qed.

(** A requirement whose lookup fails pushes one warning and nothing
    else. *)
Lemma contribution_not_found req :
  truthy (trim (req_name req)) = true ->
  member builtInDeprecated (toLowerCase (trim (req_name req))) = Missing ->
  lookup_success (pypi_lookup (trim (req_name req))) = false ->
  contribution pypi_lookup req
  = mkAcc [] []
      [ "Could not find package '" +:+ trim (req_name req) +:+ "': " +:+
        interp (lookup_error (pypi_lookup (trim (req_name req)))) ].
Proof.
  intros Hname Hmiss Hfail. unfold contribution, processRequirement.
  by rewrite Hname, Hmiss, Hfail.
Qed.

(** The resolved packages of a call, around one requirement. *)
Lemma resolved_around before req after :
  field_list (resolved_packages (dependencyResolution pypi_lookup (before ++ req :: after)))
  = field_list (resolved_packages (dependencyResolution pypi_lookup before))
    ++ acc_resolved (contribution pypi_lookup req)
    ++ field_list (resolved_packages (dependencyResolution pypi_lookup after)).
Proof.
  rewrite !result_resolved, processAll_app, processAll_cons. reflexivity.
Qed.

End Policy.

(** C1, as the code has it: every resolving requirement pushes its own
    entry, so a name requested twice is kept twice in
    [resolved_packages]; the scan then reports at most one Conflict
    entry, which lists a name once for each occurrence after its first
    (names compared exactly, after trimming), and there is no Conflict
    entry exactly when the resolved names are pairwise distinct. *)
Theorem duplicates_kept_and_reported_once
    (pypi_lookup : string -> LookupResult) (reqs : list Requirement) :
  let r := dependencyResolution pypi_lookup reqs in
  let names := map pkg_name (field_list (resolved_packages r)) in
  field_list (resolved_packages r)
    = flat_map (fun req => acc_resolved (contribution pypi_lookup req)) reqs
  /\ length (field_list (conflicts r)) <= 1
  /\ (forall n, count (flat_map conflict_packages (field_list (conflicts r))) n
                = pred (count names n))
  /\ (conflicts r = None <-> NoDup names).
Proof.
  cbv zeta. rewrite result_resolved, result_conflicts, result_conflicts_undefined.
  split; [ apply resolved_flat_map | ].
  split; [ apply detectConflicts_length | ].
  split.
  - intros n. rewrite detectConflicts_packages. apply duplicatePackages_count.
  - apply detectConflicts_nil_iff.
Qed.

(** C1 fails as stated: the two [django] requirements of Scenario B are
    both kept in [resolved_packages]; and two requirements whose names
    differ only in case produce no Conflict entry at all. *)
Lemma duplicates_kept_counterexample :
  resolved_packages (dependencyResolution registry [django_min; django_exact])
    = Some [ mkResolved "django" (Some "5.0.4"); mkResolved "django" (Some "3.2") ]
  /\ ~ NoDup (map pkg_name
               (field_list (resolved_packages
                  (dependencyResolution registry [django_min; django_exact]))))
  /\ toLowerCase (req_name Django_exact) = toLowerCase (req_name django_min)
  /\ conflicts (dependencyResolution registry [django_min; Django_exact]) = None.
Proof.
  split; [ by vm_compute | ].
  split; [ | split; by vm_compute ].
  assert (map pkg_name
            (field_list (resolved_packages
               (dependencyResolution registry [django_min; django_exact])))
          = ["django"; "django"]) as -> by (by vm_compute).
  intros Hnd. apply NoDup_cons in Hnd as [Hnin _]. apply Hnin. by left.
Qed.

(** C2: [success] holds exactly when there is no conflict and something
    was resolved or flagged deprecated. The tool is a total function: it
    returns a result on every input. A result with conflicts has
    [success = false] and carries them; a result with no resolved package
    has [success = false]; every unsuccessful result carries an error
    text. *)
Theorem success_iff_no_conflicts_and_useful
    (pypi_lookup : string -> LookupResult) (reqs : list Requirement) :
  let r := dependencyResolution pypi_lookup reqs in
  (success r = true <->
     field_list (conflicts r) = []
     /\ (field_list (resolved_packages r) <> []
         \/ field_list (deprecated_packages r) <> []))
  /\ (field_list (conflicts r) <> [] ->
        success r = false /\ conflicts r = Some (field_list (conflicts r)))
  /\ (field_list (resolved_packages r) = [] -> success r = false)
  /\ (success r = false -> is_Some (error r)).
Proof.
  cbv zeta.
  rewrite result_conflicts, result_resolved, result_deprecated, result_success.
  pose proof (processAll_deprecated_le pypi_lookup reqs) as Hle.
  split; [ | split; [ | split ] ].
  - rewrite andb_true_iff, negb_true_iff, orb_true_iff.
    rewrite positive_length_false, !positive_length. tauto.
  - intros Hc. split.
    + apply positive_length in Hc. by rewrite Hc.
    + unfold dependencyResolution. destruct reqs as [ | req reqs ]; [ done | ].
      cbn [Nat.eqb length conflicts]. unfold nonempty_or_undefined.
      apply positive_length in Hc. by rewrite Hc.
  - intros Hr. rewrite Hr in *. destruct (acc_deprecated _); simpl in *; [ | lia ].
    done.
  - unfold dependencyResolution. destruct reqs as [ | req reqs ]; [ by eexists | ].
    cbn [Nat.eqb length error].
    destruct (0 <? length (detectConflicts _))%nat; simpl.
    + by eexists.
    + destruct (_ || _); simpl; [ done | by eexists ].
Qed.


Lemma resolveVersion_requested req lk v :
  req_version req = Some v -> truthy v = true ->
  req_operator req = "==" \/ (req_fixed req = true /\ truthy (req_operator req) = true) ->
  resolveVersion req lk = v.
Proof.
  intros Hv Htv Hop. unfold resolveVersion. rewrite Hv. simpl. rewrite Htv.
  destruct Hop as [-> | [-> Hto]]; [ done | ].
  rewrite Hto. simpl. by rewrite orb_true_r.
Qed.

Lemma resolveVersion_other req lk :
  req_operator req <> "==" -> req_operator req <> ">=" -> req_operator req <> ">" ->
  resolveVersion req lk
  = if truthy_opt (req_version req) && truthy (req_operator req)
    then default "" (req_version req)
    else or_else (latest_of lk) "unknown".
Proof.
  intros H1 H2 H3. unfold resolveVersion.
  destruct (truthy_opt (req_version req) && truthy (req_operator req)) eqn:Hboth;
    [ | done ].
  apply andb_true_iff in Hboth as [Hv _].
  apply String.eqb_neq in H1, H2, H3. rewrite H1, H2, H3. simpl.
  destruct (req_fixed req); [ done | ].
  unfold or_opt. rewrite Hv. unfold or_else.
  destruct (req_version req) as [v | ]; [ | done ]. simpl in *. by rewrite Hv.
Qed.

(** C3, as the code has it: a requirement with a name that is not a
    built-in module, found by the registry, carrying a non-empty version
    and the operator [==] (or [fixed] together with any non-empty
    operator) is resolved to the requested version, whatever the registry
    reports as latest. *)
Theorem exact_requirement_uses_requested_version
    (pypi_lookup : string -> LookupResult)
    (before : list Requirement) (req : Requirement) (after : list Requirement)
    (v : string) :
  truthy (trim (req_name req)) = true ->
  member builtInDeprecated (toLowerCase (trim (req_name req))) = Missing ->
  lookup_success (pypi_lookup (trim (req_name req))) = true ->
  req_version req = Some v ->
  truthy v = true ->
  req_operator req = "==" \/ (req_fixed req = true /\ truthy (req_operator req) = true) ->
  field_list (resolved_packages (dependencyResolution pypi_lookup (before ++ req :: after)))
  = field_list (resolved_packages (dependencyResolution pypi_lookup before))
    ++ mkResolved (trim (req_name req)) (Some v)
    :: field_list (resolved_packages (dependencyResolution pypi_lookup after)).
Proof.
  intros Hname Hmiss Hok Hv Htv Hop.
  rewrite resolved_around, contribution_found by done.
  by rewrite (resolveVersion_requested _ _ v).
Qed.

Lemma exact_requirement_witness :
  field_list (resolved_packages
                (dependencyResolution registry [numpy_any; django_exact; pandas_min]))
  = [ mkResolved "numpy" (Some "1.24.3"); mkResolved "django" (Some "3.2");
      mkResolved "pandas" (Some "2.0.1") ].
Proof.
  apply (exact_requirement_uses_requested_version
           registry [numpy_any] django_exact [pandas_min] "3.2");
    solve [ reflexivity | left; reflexivity ].
Defined.

(** C3 fails as stated in three ways: a built-in module name is given
    the version "built-in" whatever was requested; a requirement marked
    [fixed] but carrying no operator is given the registry's latest
    version; and a requirement the registry does not know is not resolved
    at all. *)
Lemma exact_requirement_counterexample :
  (req_operator imp_exact = "==" /\
   req_version imp_exact = Some "1.0" /\
   resolved_packages (dependencyResolution registry [imp_exact])
   = Some [ mkResolved "imp" (Some "built-in") ])
  /\ (req_fixed requests_fixed_bare = true /\
      req_version requests_fixed_bare = Some "2.0.0" /\
      resolved_packages (dependencyResolution registry [requests_fixed_bare])
      = Some [ mkResolved "requests" (Some "2.31.0") ])
  /\ (req_operator missing_exact = "==" /\
      resolved_packages (dependencyResolution registry [missing_exact]) = Some []).
Proof. repeat split; by vm_compute. Qed.

(** C4, as the code has it: a requirement whose operator is none of
    [==], [>=], [>], with a name that is not a built-in module and found
    by the registry, is resolved to the registry's latest version
    ("unknown" when the registry reports none) only when it has no
    operator or no version; when it has both, it is resolved to the
    requested version. *)
Theorem other_operator_uses_version_else_latest
    (pypi_lookup : string -> LookupResult)
    (before : list Requirement) (req : Requirement) (after : list Requirement) :
  truthy (trim (req_name req)) = true ->
  member builtInDeprecated (toLowerCase (trim (req_name req))) = Missing ->
  lookup_success (pypi_lookup (trim (req_name req))) = true ->
  req_operator req <> "==" -> req_operator req <> ">=" -> req_operator req <> ">" ->
  exists chosen : string,
    field_list (resolved_packages
                  (dependencyResolution pypi_lookup (before ++ req :: after)))
    = field_list (resolved_packages (dependencyResolution pypi_lookup before))
      ++ mkResolved (trim (req_name req)) (Some chosen)
      :: field_list (resolved_packages (dependencyResolution pypi_lookup after))
    /\ (truthy (req_operator req) = false \/ truthy_opt (req_version req) = false ->
        chosen = or_else (latest_of (pypi_lookup (trim (req_name req)))) "unknown")
    /\ (forall v, truthy (req_operator req) = true ->
                  req_version req = Some v -> truthy v = true -> chosen = v).
Proof.
  intros Hname Hmiss Hok H1 H2 H3.
  exists (resolveVersion req (pypi_lookup (trim (req_name req)))).
  split; [ by rewrite resolved_around, contribution_found | ].
  rewrite resolveVersion_other by done. split.
  - intros [Hop | Hv]; [ by rewrite Hop, andb_false_r | by rewrite Hv ].
  - intros v Hop Hv Htv. rewrite Hv, Hop. simpl. by rewrite Htv.
Qed.

Lemma other_operator_witness :
  (exists chosen : string,
     field_list (resolved_packages
                   (dependencyResolution registry [django_min; numpy_any; pandas_min]))
     = [ mkResolved "django" (Some "5.0.4"); mkResolved "numpy" (Some chosen);
         mkResolved "pandas" (Some "2.0.1") ]
     /\ (truthy "" = false \/ truthy_opt None = false -> chosen = "1.24.3")
     /\ (forall v, truthy "" = true -> None = Some v -> truthy v = true -> chosen = v))
  /\ (exists chosen : string,
        field_list (resolved_packages
                      (dependencyResolution registry [django_min; requests_max; pandas_min]))
        = [ mkResolved "django" (Some "5.0.4"); mkResolved "requests" (Some chosen);
            mkResolved "pandas" (Some "2.0.1") ]
        /\ (truthy "<=" = false \/ truthy_opt (Some "2.0.0") = false ->
            chosen = "2.31.0")
        /\ (forall v, truthy "<=" = true -> Some "2.0.0" = Some v -> truthy v = true ->
                      chosen = v)).
Proof.
  split.
  - apply (other_operator_uses_version_else_latest
             registry [django_min] numpy_any [pandas_min]);
      solve [ reflexivity | discriminate ].
  - apply (other_operator_uses_version_else_latest
             registry [django_min] requests_max [pandas_min]);
      solve [ reflexivity | discriminate ].
Defined.

(** C4 fails as stated: [requests<=2.0.0] is resolved to 2.0.0 although
    the registry is reached and reports 2.31.0 as latest. *)
Lemma other_operator_counterexample :
  req_operator requests_max = "<="
  /\ lookup_success (registry (trim (req_name requests_max))) = true
  /\ latest_of (registry (trim (req_name requests_max))) = Some "2.31.0"
  /\ resolved_packages (dependencyResolution registry [requests_max])
     = Some [ mkResolved "requests" (Some "2.0.0") ].
Proof. repeat split; by vm_compute. Qed.



End ResolutionClaims.

(** * Properties of the manifest generator *)

Module ManifestFacts.
Import Js Tools Scenarios StringFacts.

(** The loop appends one line per package to [content]. *)
Lemma fold_append_lines (line : SourcedPackage -> string) (l : list SourcedPackage) :
  forall content : string,
    fold_left (fun content pkg => content +:+ line pkg) l content
    = content +:+ String.concat "" (map line l).
Proof.
  induction l as [ | p l IH ]; intros content; cbn [fold_left map].
  - simpl. by rewrite app_empty_r.
  - rewrite IH. rewrite app_assoc_string. f_equal.
    destruct l as [ | q l ]; simpl; [ by rewrite app_empty_r | reflexivity ].
Qed.

Section Sorting.

Variable localeCompare : string -> string -> Z.

Abbreviation le := (name_le localeCompare).
Abbreviation insert := (insert_by_name localeCompare).
Abbreviation sort := (sort_by_name localeCompare).

Lemma insert_permutation x l : Permutation (insert x l) (x :: l).
Proof.
  induction l as [ | y l IH ]; simpl; [ done | ].
  destruct (localeCompare (sp_name x) (sp_name y) <=? 0)%Z; [ done | ].
  rewrite IH. apply perm_swap.
Qed.

(** Sorting rearranges the packages and loses none. *)
Lemma sort_permutation l : Permutation (sort l) l.
Proof.
  induction l as [ | x l IH ]; simpl; [ done | ].
  rewrite insert_permutation. by constructor.
Qed.

(** The comparator orders any two names, consistently. *)
Hypothesis compare_total :
  forall a b : string, (localeCompare a b <= 0)%Z \/ (localeCompare b a <= 0)%Z.
Hypothesis compare_trans :
  forall a b c : string,
    (localeCompare a b <= 0)%Z -> (localeCompare b c <= 0)%Z -> (localeCompare a c <= 0)%Z.

Lemma le_refl x : le x x.
Proof. unfold name_le. by destruct (compare_total (sp_name x) (sp_name x)). Qed.

Lemma le_trans x y z : le x y -> le y z -> le x z.
Proof. unfold name_le. apply compare_trans. Qed.

Lemma insert_sorted x l :
  StronglySorted le l -> StronglySorted le (insert x l).
Proof.
  induction 1 as [ | y l Hs IH Hall ]; simpl.
  - repeat constructor.
  - destruct (Z.leb_spec (localeCompare (sp_name x) (sp_name y)) 0) as [Hle | Hgt].
    + constructor; [ by constructor | ].
      constructor; [ done | ].
      eapply Forall_impl; [ exact Hall | ]. intros z Hz. by eapply le_trans.
    + constructor; [ done | ].
      rewrite insert_permutation. constructor; [ | done ].
      unfold name_le. destruct (compare_total (sp_name x) (sp_name y)); [ lia | done ].
Qed.

(** The sorted list is ordered by name. *)
Lemma sort_sorted l : StronglySorted le (sort l).
Proof.
  induction l as [ | x l IH ]; simpl; [ constructor | by apply insert_sorted ].
Qed.

(** An ordered arrangement is unique when packages whose names compare
    equal are the same package. *)
Lemma sorted_unique l1 :
  forall l2,
    StronglySorted le l1 -> StronglySorted le l2 -> Permutation l1 l2 ->
    (forall a b, In a l1 -> In b l1 -> le a b -> le b a -> a = b) ->
    l1 = l2.
Proof.
  induction l1 as [ | a t1 IH ]; intros l2 Hs1 Hs2 Hp Hties.
  - by apply Permutation_nil in Hp.
  - destruct l2 as [ | b t2 ].
    { symmetry in Hp. by apply Permutation_nil in Hp. }
    apply StronglySorted_inv in Hs1 as [Hs1 Ha].
    apply StronglySorted_inv in Hs2 as [Hs2 Hb].
    assert (In b (a :: t1)) as Hb1.
    { eapply Permutation_in; [ symmetry; exact Hp | by left ]. }
    assert (In a (b :: t2)) as Ha2.
    { eapply Permutation_in; [ exact Hp | by left ]. }
    assert (le a b) as Hab.
    { destruct Hb1 as [<- | Hin]; [ apply le_refl | ].
      rewrite List.Forall_forall in Ha. by apply Ha. }
    assert (le b a) as Hba.
    { destruct Ha2 as [<- | Hin]; [ apply le_refl | ].
      rewrite List.Forall_forall in Hb. by apply Hb. }
    assert (a = b) as <- by (apply Hties; [ by left | done | done | done ]).
    f_equal. apply IH; [ done | done | by eapply Permutation_cons_inv | ].
    intros x y Hx Hy. apply Hties; by right.
Qed.

(** Inserting a package moves it past no package kept by a test whose
    kept packages all compare equal. *)
Lemma insert_filter (keep : SourcedPackage -> bool) x l :
  (forall a b, keep a = true -> keep b = true -> le a b) ->
  List.filter keep (insert x l) = List.filter keep (x :: l).
Proof.
  intros Htie. induction l as [ | y l IH ]; [ done | ].
  cbn [insert_by_name].
  destruct (Z.leb_spec (localeCompare (sp_name x) (sp_name y)) 0) as [Hle | Hgt];
    [ done | ].
  cbn [List.filter] in IH |- *. rewrite IH.
  destruct (keep x) eqn:Hx, (keep y) eqn:Hy; try done.
  specialize (Htie x y Hx Hy). unfold name_le in Htie. lia.
Qed.

(** The sort is stable: packages that compare equal keep their input
    order. *)
Lemma sort_filter (keep : SourcedPackage -> bool) l :
  (forall a b, keep a = true -> keep b = true -> le a b) ->
  List.filter keep (sort l) = List.filter keep l.
Proof.
  intros Htie. induction l as [ | x l IH ]; [ done | ].
  cbn [sort_by_name foldr]. rewrite insert_filter by done.
  cbn [List.filter]. fold (sort l). by rewrite IH.
Qed.

Lemma sort_keeps_same_name (name : string) l :
  List.filter (fun p => String.eqb (sp_name p) name) (sort l)
  = List.filter (fun p => String.eqb (sp_name p) name) l.
Proof.
  apply sort_filter. intros a b Ha%String.eqb_eq Hb%String.eqb_eq.
  unfold name_le. rewrite Ha, Hb. by destruct (compare_total name name).
Qed.

Lemma sort_keeps_ties (name : string) l :
  List.filter (tied_with localeCompare name) (sort l)
  = List.filter (tied_with localeCompare name) l.
Proof.
  apply sort_filter. intros a b Ha Hb. unfold tied_with in Ha, Hb.
  apply andb_true_iff in Ha as [Ha _]. apply andb_true_iff in Hb as [_ Hb].
  apply Z.leb_le in Ha, Hb. unfold name_le. by eapply compare_trans.
Qed.

Lemma sort_permutation_invariant l1 l2 :
  Permutation l1 l2 ->
  (forall a b, In a l1 -> In b l1 -> le a b -> le b a -> a = b) ->
  sort l1 = sort l2.
Proof.
  intros Hp Hties. apply sorted_unique.
  - apply sort_sorted.
  - apply sort_sorted.
  - by rewrite !sort_permutation.
  - intros a b Ha Hb. apply Hties.
    + eapply Permutation_in; [ apply sort_permutation | done ].
    + eapply Permutation_in; [ apply sort_permutation | done ].
Qed.

End Sorting.

(** The text of the manifest: header, one line per package in sorted
    order, footer. *)
Lemma requirementsGenerator_text localeCompare now l include_comments pin_versions :
  requirementsGenerator localeCompare now l include_comments pin_versions
  = ((if include_comments then header now (length l) else "")
     +:+ String.concat ""
           (map (package_line include_comments pin_versions)
                (sort_by_name localeCompare l)))
    +:+ (if include_comments && (0 <? length l)%nat then footer else "").
Proof.
  unfold requirementsGenerator. rewrite fold_append_lines.
  destruct (include_comments && (0 <? length l)%nat); [ done | ].
  by rewrite app_empty_r.
Qed.

Lemma codeUnitCompare_le a b : (codeUnitCompare a b <= 0)%Z <-> String.le a b.
Proof.
  unfold codeUnitCompare, String.le.
  destruct (String.leb a b), (String.leb b a); simpl; split; intros; try done; lia.
Qed.

Lemma codeUnitCompare_total a b :
  (codeUnitCompare a b <= 0)%Z \/ (codeUnitCompare b a <= 0)%Z.
Proof. rewrite !codeUnitCompare_le. apply (total String.le). Qed.

Lemma codeUnitCompare_trans a b c :
  (codeUnitCompare a b <= 0)%Z -> (codeUnitCompare b c <= 0)%Z ->
  (codeUnitCompare a c <= 0)%Z.
Proof. rewrite !codeUnitCompare_le. apply (transitivity (R := String.le)). Qed.




End ManifestFacts.

(** * Properties of the resolver agent *)

Module AgentFacts.
Import Js Tools Shared Agent Scenarios StringFacts.

Lemma generateReportKey_inj a b : generateReportKey a = generateReportKey b -> a = b.
Proof. unfold generateReportKey. apply (inj (String.app "report:")). Qed.

Lemma generateReportKey_ne a b : a <> b -> generateReportKey a <> generateReportKey b.
Proof. intros Hne Heq. by apply Hne, generateReportKey_inj. Qed.

(** *** Launched jobs *)

Lemma take_job_id reportId jobs j rest :
  take_job reportId jobs = Some (j, rest) -> job_id j = reportId.
Proof.
  revert j rest. induction jobs as [ | x jobs IH ]; intros j rest; simpl; [ done | ].
  destruct (String.eqb_spec (job_id x) reportId) as [Heq | Hne].
  - intros [= <- <-]. done.
  - destruct (take_job reportId jobs) as [[found rest'] | ]; [ | done ].
    intros [= <- <-]. by eapply IH.
Qed.

Lemma take_job_launched reportId jobs j rest :
  take_job reportId jobs = Some (j, rest) -> is_launched reportId jobs = true.
Proof.
  revert j rest. induction jobs as [ | x jobs IH ]; intros j rest; simpl; [ done | ].
  destruct (String.eqb_spec (job_id x) reportId) as [Heq | Hne]; [ done | ].
  destruct (take_job reportId jobs) as [[found rest'] | ]; [ | done ].
  intros _. simpl. by eapply IH.
Qed.

Lemma take_job_rest reportId jobs j rest other :
  take_job reportId jobs = Some (j, rest) ->
  is_launched other jobs = false -> is_launched other rest = false.
Proof.
  revert j rest. induction jobs as [ | x jobs IH ]; intros j rest; simpl; [ done | ].
  destruct (String.eqb_spec (job_id x) reportId) as [Heq | Hne].
  - intros [= <- <-] Hno. apply orb_false_iff in Hno as [_ Hno]. done.
  - destruct (take_job reportId jobs) as [[found rest'] | ]; [ | done ].
    intros [= <- <-] Hno. apply orb_false_iff in Hno as [Hx Hno].
    simpl. rewrite Hx. simpl. by eapply IH.
Qed.

Lemma is_launched_snoc reportId jobs j :
  is_launched reportId (jobs ++ [j])
  = is_launched reportId jobs || String.eqb (job_id j) reportId.
Proof.
  unfold is_launched. rewrite existsb_app. simpl. by rewrite orb_false_r.
Qed.

(** Every shape of what the environment throws in one run. *)
Ltac split_faults faults :=
  let r1 := fresh "r" in
  let r2 := fresh "r" in
  let r3 := fresh "r" in
  let r4 := fresh "r" in
  let r5 := fresh "r" in
  destruct faults as [r1 r2 r3 r4 r5];
  destruct r2 as [? | ], r5 as [? | ];
  (destruct r1 as [[? | ? | ?] | ];
   [ | | | destruct r3 as [[? | ? | ?] | ];
           [ | | | destruct r4 as [[? | ? | ?] | ] ] ]).

(** Unfold a poll down to the bucket lookup it depends on. *)
Ltac unfold_poll :=
  unfold Agent.step, getResolutionStatus, try_catch, bind, say, get;
  cbn [fst snd REPORTS_STORAGE launched log].

Section WithEnvironment.

Variable pypi_lookup : string -> LookupResult.
Variable localeCompare : string -> string -> Z.
Variable research_body : string -> string + Research.
Variable ZodError_message : Json -> string.

Abbreviation step := (Agent.step pypi_lookup localeCompare research_body ZodError_message).
Abbreviation run := (Agent.run pypi_lookup localeCompare research_body ZodError_message).
Abbreviation world_after :=
  (Agent.world_after pypi_lookup localeCompare research_body ZodError_message).
Abbreviation fresh_ids :=
  (Agent.fresh_ids pypi_lookup localeCompare research_body ZodError_message).
Abbreviation processResolution :=
  (Agent.processResolution pypi_lookup localeCompare research_body).
Abbreviation bucket_after_pipeline :=
  (Agent.bucket_after_pipeline pypi_lookup localeCompare research_body).
Abbreviation resolutionOutcome :=
  (Agent.resolutionOutcome pypi_lookup research_body).
Abbreviation compiledReport := (Agent.compiledReport localeCompare).

(** *** What one run of the pipeline does to the world *)

(** A run of the pipeline returns, unless what reaches its [catch] is
    [null] or [undefined]: then the [catch] itself throws. *)
Lemma processResolution_returns faults reportId now request w :
  fst (processResolution faults reportId now request w)
  = match escapes faults with
    | Some e =>
        match read_message e with
        | inl typeError => inl typeError
        | inr _ => inr tt
        end
    | None => inr tt
    end.
Proof. split_faults faults; reflexivity. Qed.

Lemma processResolution_bucket faults reportId now request w :
  REPORTS_STORAGE (snd (processResolution faults reportId now request w))
  = bucket_after_pipeline faults reportId now request (REPORTS_STORAGE w).
Proof. split_faults faults; reflexivity. Qed.

Lemma processResolution_launched faults reportId now request w :
  launched (snd (processResolution faults reportId now request w)) = launched w.
Proof. split_faults faults; reflexivity. Qed.

(** Once research is over, report generation is started whatever
    resolution did. *)
Lemma processResolution_compiles faults reportId now request w :
  research_throws faults = None ->
  In "Starting report generation phase"
     (log (snd (processResolution faults reportId now request w))).
Proof.
  split_faults faults; simpl; intros Hresearch; try discriminate Hresearch;
    cbn; rewrite ?in_app_iff; simpl; tauto.
Qed.

(** A pipeline run writes under its own key only, and never a record in
    progress. *)
Lemma bucket_after_pipeline_other faults reportId now request bucket key :
  key <> generateReportKey reportId ->
  bucket_after_pipeline faults reportId now request bucket !! key = bucket !! key.
Proof.
  intros Hne. unfold Agent.bucket_after_pipeline.
  destruct (escapes faults) as [e | ];
    [ destruct (is_nullish e); [ | destruct (put_error_rejects faults) ] | ];
    by rewrite ?lookup_insert_ne.
Qed.

Lemma bucket_after_pipeline_same faults reportId now request bucket :
  bucket_after_pipeline faults reportId now request bucket !! generateReportKey reportId
  = bucket !! generateReportKey reportId
  \/ exists data,
       bucket_after_pipeline faults reportId now request bucket
         !! generateReportKey reportId = Some data
       /\ data_status data <> Some "processing".
Proof.
  unfold Agent.bucket_after_pipeline.
  destruct (escapes faults) as [e | ];
    [ destruct (is_nullish e); [ | destruct (put_error_rejects faults) ] | ].
  - by left.
  - by left.
  - right. eexists. rewrite lookup_insert_eq. split; [ done | ]. simpl. congruence.
  - right. eexists. rewrite lookup_insert_eq. split; [ done | ]. simpl. congruence.
Qed.

(** *** What each event does to the bucket and to the launched jobs *)

Lemma step_submit_bucket w body reportId now put_rejects :
  REPORTS_STORAGE (snd (step w (Submit body reportId now put_rejects)))
  = match ResolutionRequestSchema_parse body, put_rejects with
    | inr request, None =>
        <[ generateReportKey reportId :=
             ProcessingStatus reportId "processing" now request ]> (REPORTS_STORAGE w)
    | _, _ => REPORTS_STORAGE w
    end.
Proof.
  unfold Agent.step, onResolve, handleResolutionRequest.
  destruct (ResolutionRequestSchema_parse body) as [[] | request]; [ reflexivity | ].
  destruct put_rejects; reflexivity.
Qed.

Lemma step_submit_launched w body reportId now put_rejects :
  launched (snd (step w (Submit body reportId now put_rejects)))
  = match ResolutionRequestSchema_parse body with
    | inr request => launched w ++ [ mkJob reportId request ]
    | inl _ => launched w
    end.
Proof.
  unfold Agent.step, onResolve, handleResolutionRequest.
  destruct (ResolutionRequestSchema_parse body) as [[] | request]; [ reflexivity | ].
  destruct put_rejects; reflexivity.
Qed.

Lemma step_submit_response w body reportId now put_rejects :
  fst (step w (Submit body reportId now put_rejects))
  = match ResolutionRequestSchema_parse body with
    | inr request =>
        Some (Started reportId "processing"
                "Dependency resolution started. Use the /status endpoint to check progress.")
    | inl _ => Some (ErrorText 500 ("Error: " +:+ ZodError_message body))
    end.
Proof.
  unfold Agent.step, onResolve, handleResolutionRequest.
  destruct (ResolutionRequestSchema_parse body) as [[] | request]; [ reflexivity | ].
  destruct put_rejects; reflexivity.
Qed.

Lemma step_background_bucket w reportId now faults :
  REPORTS_STORAGE (snd (step w (Background reportId now faults)))
  = match take_job reportId (launched w) with
    | Some (j, _) =>
        bucket_after_pipeline faults (job_id j) now (job_request j) (REPORTS_STORAGE w)
    | None => REPORTS_STORAGE w
    end.
Proof.
  unfold Agent.step. destruct (take_job reportId (launched w)) as [[j rest] | ]; [ | done ].
  simpl. by rewrite processResolution_bucket.
Qed.

Lemma step_background_launched w reportId now faults :
  launched (snd (step w (Background reportId now faults)))
  = match take_job reportId (launched w) with
    | Some (_, rest) => rest
    | None => launched w
    end.
Proof.
  unfold Agent.step. destruct (take_job reportId (launched w)) as [[j rest] | ]; [ | done ].
  simpl. by rewrite processResolution_launched.
Qed.

Lemma step_poll_response w reportId get_rejects :
  fst (step w (Poll reportId get_rejects))
  = match get_rejects with
    | Some _ => Some (RetrieveFailed 500)
    | None => Some (answer reportId (REPORTS_STORAGE w !! generateReportKey reportId))
    end.
Proof.
  unfold answer. destruct get_rejects; [ reflexivity | ]. unfold_poll.
  destruct (REPORTS_STORAGE w !! generateReportKey reportId) as [data | ];
    [ | reflexivity ].
  destruct (bool_decide (data_status data = Some "processing")); [ reflexivity | ].
  destruct (truthy_opt (data_error data) && _); reflexivity.
Qed.

Lemma step_poll_bucket w reportId get_rejects :
  REPORTS_STORAGE (snd (step w (Poll reportId get_rejects))) = REPORTS_STORAGE w.
Proof.
  destruct get_rejects; [ reflexivity | ]. unfold_poll.
  destruct (REPORTS_STORAGE w !! generateReportKey reportId) as [data | ];
    [ | reflexivity ].
  destruct (bool_decide (data_status data = Some "processing")); [ reflexivity | ].
  destruct (truthy_opt (data_error data) && _); reflexivity.
Qed.

Lemma step_poll_launched w reportId get_rejects :
  launched (snd (step w (Poll reportId get_rejects))) = launched w.
Proof.
  destruct get_rejects; [ reflexivity | ]. unfold_poll.
  destruct (REPORTS_STORAGE w !! generateReportKey reportId) as [data | ];
    [ | reflexivity ].
  destruct (bool_decide (data_status data = Some "processing")); [ reflexivity | ].
  destruct (truthy_opt (data_error data) && _); reflexivity.
Qed.

(** *** Runs *)

Lemma world_after_nil w : world_after w [] = w.
Proof. reflexivity. Qed.

Lemma world_after_cons w ev evs :
  world_after w (ev :: evs) = world_after (snd (step w ev)) evs.
Proof.
  unfold Agent.world_after. simpl. destruct (Agent.step _ _ _ _ w ev) as [r w1]. simpl.
  by destruct (Agent.run _ _ _ _ w1 evs).
Qed.

Lemma world_after_app w evs1 evs2 :
  world_after w (evs1 ++ evs2) = world_after (world_after w evs1) evs2.
Proof.
  revert w. induction evs1 as [ | ev evs1 IH ]; intros w; [ done | ].
  simpl. by rewrite !world_after_cons, IH.
Qed.

Lemma fresh_ids_app w evs1 evs2 :
  fresh_ids w (evs1 ++ evs2)
  = fresh_ids w evs1 && fresh_ids (world_after w evs1) evs2.
Proof.
  revert w. induction evs1 as [ | ev evs1 IH ]; intros w; [ done | ].
  simpl. by rewrite IH, world_after_cons, andb_assoc.
Qed.

Lemma unused_not_stored w reportId :
  unused w reportId = true -> REPORTS_STORAGE w !! generateReportKey reportId = None.
Proof. unfold unused. by destruct (REPORTS_STORAGE w !! _). Qed.

Lemma unused_not_launched w reportId :
  unused w reportId = true -> is_launched reportId (launched w) = false.
Proof.
  unfold unused. destruct (REPORTS_STORAGE w !! _); [ done | ].
  by intros ?%negb_true_iff.
Qed.

(** A settled record stays settled. *)
Lemma step_keeps_settled w ev reportId :
  admissible w ev = true -> settled w reportId -> settled (snd (step w ev)) reportId.
Proof.
  unfold settled. destruct ev as [body id' now pr | id' now faults | id' g];
    intros Hadm Hset; simpl in Hadm.
  - rewrite step_submit_bucket.
    destruct (ResolutionRequestSchema_parse body) as [e | request]; [ done | ].
    destruct pr; [ done | ].
    destruct (decide (id' = reportId)) as [-> | Hne].
    + apply unused_not_stored in Hadm. by rewrite Hadm in Hset.
    + by rewrite lookup_insert_ne by by apply generateReportKey_ne.
  - rewrite step_background_bucket.
    destruct (take_job id' (launched w)) as [[j rest] | ]; [ | done ].
    destruct (decide (job_id j = reportId)) as [<- | Hne].
    + destruct (bucket_after_pipeline_same faults (job_id j) now (job_request j)
                  (REPORTS_STORAGE w)) as [-> | (data & -> & Hdata)]; done.
    + rewrite bucket_after_pipeline_other; [ done | ].
      apply generateReportKey_ne. congruence.
  - by rewrite step_poll_bucket.
Qed.

Lemma run_keeps_settled evs :
  forall w reportId,
    fresh_ids w evs = true -> settled w reportId -> settled (world_after w evs) reportId.
Proof.
  induction evs as [ | ev evs IH ]; intros w reportId Hfresh Hset; [ done | ].
  rewrite world_after_cons. simpl in Hfresh. apply andb_true_iff in Hfresh as [H1 H2].
  apply IH; [ done | ]. by apply step_keeps_settled.
Qed.

(** A record stored under an id that no launched job carries is never
    overwritten. *)
Lemma step_keeps_record w ev reportId data :
  admissible w ev = true ->
  REPORTS_STORAGE w !! generateReportKey reportId = Some data ->
  is_launched reportId (launched w) = false ->
  REPORTS_STORAGE (snd (step w ev)) !! generateReportKey reportId = Some data
  /\ is_launched reportId (launched (snd (step w ev))) = false.
Proof.
  destruct ev as [body id' now pr | id' now faults | id' g]; intros Hadm Hrec Hno;
    simpl in Hadm.
  - rewrite step_submit_bucket, step_submit_launched.
    assert (id' <> reportId) as Hne.
    { intros ->. apply unused_not_stored in Hadm. congruence. }
    destruct (ResolutionRequestSchema_parse body) as [e | request]; [ done | ].
    split.
    + destruct pr; [ done | ].
      by rewrite lookup_insert_ne by by apply generateReportKey_ne.
    + rewrite is_launched_snoc, Hno. simpl. by apply String.eqb_neq.
  - rewrite step_background_bucket, step_background_launched.
    destruct (take_job id' (launched w)) as [[j rest] | ] eqn:Htake; [ | done ].
    assert (job_id j <> reportId) as Hne.
    { rewrite (take_job_id _ _ _ _ Htake). intros ->.
      apply take_job_launched in Htake. congruence. }
    split.
    + rewrite bucket_after_pipeline_other; [ done | ].
      apply generateReportKey_ne. congruence.
    + by eapply take_job_rest.
  - by rewrite step_poll_bucket, step_poll_launched.
Qed.

Lemma run_keeps_record evs :
  forall w reportId data,
    fresh_ids w evs = true ->
    REPORTS_STORAGE w !! generateReportKey reportId = Some data ->
    is_launched reportId (launched w) = false ->
    REPORTS_STORAGE (world_after w evs) !! generateReportKey reportId = Some data.
Proof.
  induction evs as [ | ev evs IH ]; intros w reportId data Hfresh Hrec Hno; [ done | ].
  rewrite world_after_cons. simpl in Hfresh. apply andb_true_iff in Hfresh as [H1 H2].
  destruct (step_keeps_record w ev reportId data H1 Hrec Hno) as [Hrec' Hno'].
  by apply IH.
Qed.

(** What a poll can answer, by the state of the record. *)
Lemma answer_settled reportId stored :
  (response_status (answer reportId stored) = Some "completed"
   \/ response_status (answer reportId stored) = Some "failed") ->
  match stored with
  | Some data => data_status data <> Some "processing"
  | None => False
  end.
Proof.
  unfold answer. destruct stored as [data | ]; simpl; [ | by intros [? | ?] ].
  destruct (bool_decide_reflect (data_status data = Some "processing")) as [Hp | Hp];
    [ | done ].
  simpl. by intros [? | ?].
Qed.

Lemma settled_answer reportId data :
  data_status data <> Some "processing" ->
  response_status (answer reportId (Some data)) <> Some "processing".
Proof.
  intros Hd. unfold answer. rewrite bool_decide_eq_false_2 by done.
  by destruct (truthy_opt _ && _).
Qed.

End WithEnvironment.

End AgentFacts.

(** * The claims about the resolver agent *)

Module AgentClaims.
Import Js Tools Shared Agent Scenarios StringFacts ManifestFacts AgentFacts.

Section WithEnvironment.

Variable pypi_lookup : string -> LookupResult.
Variable localeCompare : string -> string -> Z.
Variable research_body : string -> string + Research.
Variable ZodError_message : Json -> string.

Abbreviation step := (Agent.step pypi_lookup localeCompare research_body ZodError_message).
Abbreviation world_after :=
  (Agent.world_after pypi_lookup localeCompare research_body ZodError_message).
Abbreviation fresh_ids :=
  (Agent.fresh_ids pypi_lookup localeCompare research_body ZodError_message).
Abbreviation processResolution :=
  (Agent.processResolution pypi_lookup localeCompare research_body).
Abbreviation resolutionOutcome :=
  (Agent.resolutionOutcome pypi_lookup research_body).
Abbreviation compiledReport := (Agent.compiledReport localeCompare).

(** C5, evaluated on the code: a body whose requirements list is empty
    passes [ResolutionRequestSchema.parse]; the submission is answered
    with [status: "processing"], the job record is written and the
    pipeline is launched. *)
Theorem empty_submission_is_accepted (w : World) (reportId now : string) :
  let request := mkRequest [] "3.9" false true true true in
  let outcome := step w (Submit empty_body reportId now None) in
  ResolutionRequestSchema_parse empty_body = inr request
  /\ fst outcome
     = Some (Started reportId "processing"
               "Dependency resolution started. Use the /status endpoint to check progress.")
  /\ REPORTS_STORAGE (snd outcome) !! generateReportKey reportId
     = Some (ProcessingStatus reportId "processing" now request)
  /\ launched (snd outcome) = launched w ++ [ mkJob reportId request ].
Proof.
  cbv zeta. split; [ reflexivity | ].
  rewrite step_submit_response, step_submit_bucket, step_submit_launched.
  change (ResolutionRequestSchema_parse empty_body)
    with (@inr Invalid _ (mkRequest [] "3.9" false true true true)).
  cbn iota. by rewrite lookup_insert_eq.
Qed.


(** C7, first part: in a run whose submissions get unused ids, once a
    poll for an id has answered completed or failed, no later poll for
    that id answers processing. *)
Lemma polls_never_revert
    (w : World) (evs1 : list Event) (reportId : string) (g1 : option Exn)
    (evs2 : list Event) (g2 : option Exn) (r1 r2 : Response) :
  fresh_ids w (evs1 ++ Poll reportId g1 :: evs2) = true ->
  fst (step (world_after w evs1) (Poll reportId g1)) = Some r1 ->
  response_status r1 = Some "completed" \/ response_status r1 = Some "failed" ->
  fst (step (world_after w (evs1 ++ Poll reportId g1 :: evs2)) (Poll reportId g2)) = Some r2 ->
  response_status r2 <> Some "processing".
Proof.
  intros Hfresh Hr1 Hstatus Hr2.
  rewrite fresh_ids_app in Hfresh. apply andb_true_iff in Hfresh as [_ Hfresh].
  rewrite world_after_app in Hr2.
  rewrite step_poll_response in Hr1, Hr2.
  destruct g1; [ simplify_eq; by destruct Hstatus | ].
  injection Hr1 as <-. apply answer_settled in Hstatus.
  assert (settled (world_after (world_after w evs1) (Poll reportId None :: evs2)) reportId)
    as Hset.
  { apply run_keeps_settled; [ done | ]. unfold settled.
    by destruct (REPORTS_STORAGE (world_after w evs1) !! generateReportKey reportId). }
  unfold settled in Hset.
  destruct g2; [ by simplify_eq | ]. injection Hr2 as <-.
  destruct (REPORTS_STORAGE _ !! generateReportKey reportId) as [data | ] in Hset |- *;
    [ | done ].
  by apply settled_answer.
Qed.

(** C7, second part: when an exception other than [null] or
    [undefined] escapes the pipeline of the only job launched under an
    id, the error record is written and its message is not empty, every
    later poll answers failed with that message. *)
Lemma failed_job_stays_failed
    (w : World) (reportId now : string) (faults : Faults) (j : Job) (rest : list Job)
    (e : Exn) (evs : list Event) :
  take_job reportId (launched w) = Some (j, rest) ->
  is_launched reportId rest = false ->
  escapes faults = Some e ->
  is_nullish e = false ->
  put_error_rejects faults = None ->
  truthy (message_of e) = true ->
  fresh_ids (snd (step w (Background reportId now faults))) evs = true ->
  fst (step (world_after (snd (step w (Background reportId now faults))) evs)
            (Poll reportId None))
  = Some (Failed reportId "failed" (message_of e) now).
Proof.
  intros Htake Hrest Hesc Herror Hput Hmsg Hfresh.
  rewrite step_poll_response.
  rewrite (run_keeps_record pypi_lookup localeCompare research_body ZodError_message evs _ reportId
             (ErrorReport reportId "failed" (message_of e) now)).
  - unfold answer. simpl. by rewrite Hmsg.
  - done.
  - rewrite step_background_bucket, Htake. rewrite (take_job_id _ _ _ _ Htake).
    unfold Agent.bucket_after_pipeline. by rewrite Hesc, Herror, Hput, lookup_insert_eq.
  - by rewrite step_background_launched, Htake.
Qed.

End WithEnvironment.

(** C7, as the code has it: (1) in a run whose submissions get unused
    ids, once a poll for an id has answered completed or failed, no
    later poll for that id answers processing; (2) when an exception
    other than [null] or [undefined] escapes the pipeline of the only
    job launched under an id, the write of the error record is accepted
    and the message is not empty, every later poll for that id answers
    failed with that message. *)
Theorem job_status_never_reverts
    (pypi_lookup : string -> LookupResult) (localeCompare : string -> string -> Z)
    (research_body : string -> string + Research)
    (ZodError_message : Json -> string) :
  let step := Agent.step pypi_lookup localeCompare research_body ZodError_message in
  let world_after :=
    Agent.world_after pypi_lookup localeCompare research_body ZodError_message in
  let fresh_ids :=
    Agent.fresh_ids pypi_lookup localeCompare research_body ZodError_message in
  (forall w evs1 reportId g1 evs2 g2 r1 r2,
      fresh_ids w (evs1 ++ Poll reportId g1 :: evs2) = true ->
      fst (step (world_after w evs1) (Poll reportId g1)) = Some r1 ->
      response_status r1 = Some "completed" \/ response_status r1 = Some "failed" ->
      fst (step (world_after w (evs1 ++ Poll reportId g1 :: evs2)) (Poll reportId g2))
        = Some r2 ->
      response_status r2 <> Some "processing")
  /\ (forall w reportId now faults j rest e evs,
        take_job reportId (launched w) = Some (j, rest) ->
        is_launched reportId rest = false ->
        escapes faults = Some e ->
        is_nullish e = false ->
        put_error_rejects faults = None ->
        truthy (message_of e) = true ->
        fresh_ids (snd (step w (Background reportId now faults))) evs = true ->
        fst (step (world_after (snd (step w (Background reportId now faults))) evs)
                  (Poll reportId None))
        = Some (Failed reportId "failed" (message_of e) now)).
Proof.
  cbv zeta. split.
  - apply polls_never_revert.
  - apply failed_job_stays_failed.
Qed.




Lemma job_status_witness :
  match fst (Agent.step registry codeUnitCompare quiet_research terse_zod
               (Agent.world_after registry codeUnitCompare quiet_research terse_zod initial
                  ([ Submit numpy_body "job-1" "t0" None;
                     Background "job-1" "t1" no_faults ]
                   ++ Poll "job-1" None :: [ Submit numpy_body "job-2" "t2" None ]))
               (Poll "job-1" None)) with
  | Some r2 => response_status r2 <> Some "processing"
  | None => True
  end
  /\ fst (Agent.step registry codeUnitCompare quiet_research terse_zod
            (Agent.world_after registry codeUnitCompare quiet_research terse_zod
               (snd (Agent.step registry codeUnitCompare quiet_research terse_zod
                       (Agent.world_after registry codeUnitCompare quiet_research terse_zod initial
                          [ Submit numpy_body "job-1" "t0" None ])
                       (Background "job-1" "t1" report_write_rejected)))
               [ Poll "job-1" None; Submit numpy_body "job-2" "t2" None ])
            (Poll "job-1" None))
     = Some (Failed "job-1" "failed" "bucket unavailable" "t1").
Proof.
  split.
  - destruct (fst (Agent.step _ _ _ _ _ (Poll "job-1" None))) as [r2 | ] eqn:Hr2;
      [ | exact I ].
    eapply (proj1 (job_status_never_reverts registry codeUnitCompare quiet_research terse_zod)
              initial
              [ Submit numpy_body "job-1" "t0" None; Background "job-1" "t1" no_faults ]
              "job-1" None [ Submit numpy_body "job-2" "t2" None ] None).
    + vm_compute. reflexivity.
    + vm_compute. reflexivity.
    + left. reflexivity.
    + exact Hr2.
  - apply (proj2 (job_status_never_reverts registry codeUnitCompare quiet_research terse_zod)
             (Agent.world_after registry codeUnitCompare quiet_research terse_zod initial
                [ Submit numpy_body "job-1" "t0" None ])
             "job-1" "t1" report_write_rejected
             (mkJob "job-1" numpy_request) [] (JsError "bucket unavailable")
             [ Poll "job-1" None; Submit numpy_body "job-2" "t2" None ]);
      vm_compute; reflexivity.
Defined.

(** C7 fails as stated: when the bucket rejects both the report and the
    error record, the job whose pipeline threw keeps answering
    processing; an exception with an empty message is answered as
    completed; and when the pipeline rejects with [null], the [catch]
    throws before the error record is written and the job keeps
    answering processing. *)
Lemma job_status_counterexample :
  escapes bucket_down = Some (JsError "bucket unavailable")
  /\ fst (Agent.run registry codeUnitCompare quiet_research terse_zod initial
            [ Submit numpy_body "job-1" "t0" None;
              Background "job-1" "t1" bucket_down;
              Poll "job-1" None ])
     = [ Some (Started "job-1" "processing"
                 "Dependency resolution started. Use the /status endpoint to check progress.");
         None;
         Some (StillProcessing "job-1" "processing" "t0" (Some numpy_request)
                 "Dependency resolution is still in progress. Please check again in a few seconds.") ]
  /\ escapes compile_throws_blank = Some (JsError "")
  /\ fst (Agent.run registry codeUnitCompare quiet_research terse_zod initial
            [ Submit numpy_body "job-1" "t0" None;
              Background "job-1" "t1" compile_throws_blank;
              Poll "job-1" None ])
     = [ Some (Started "job-1" "processing"
                 "Dependency resolution started. Use the /status endpoint to check progress.");
         None;
         Some (Completed (ErrorReport "job-1" "failed" "" "t1") "completed") ]
  /\ escapes compile_throws_null = Some (ThrownNullish true)
  /\ fst (Agent.processResolution registry codeUnitCompare quiet_research
            compile_throws_null "job-1" "t1" numpy_request
            (Agent.world_after registry codeUnitCompare quiet_research terse_zod initial
               [ Submit numpy_body "job-1" "t0" None ]))
     = inl (JsError "Cannot read properties of null (reading 'message')")
  /\ fst (Agent.run registry codeUnitCompare quiet_research terse_zod initial
            [ Submit numpy_body "job-1" "t0" None;
              Background "job-1" "t1" compile_throws_null;
              Poll "job-1" None ])
     = [ Some (Started "job-1" "processing"
                 "Dependency resolution started. Use the /status endpoint to check progress.");
         None;
         Some (StillProcessing "job-1" "processing" "t0" (Some numpy_request)
                 "Dependency resolution is still in progress. Please check again in a few seconds.") ].
Proof. repeat split; by vm_compute. Qed.

(** Every line generated for a package that came from the registry
    pins the version. *)
Lemma package_line_pinned (pkg : SourcedPackage) :
  sp_source pkg = "pypi" ->
  package_line true true pkg = (sp_name pkg +:+ "==" +:+ interp (sp_version pkg)) +:+ nl.
Proof. intros Hs. unfold package_line. by rewrite Hs. Qed.

(** C10: the manifest the pipeline puts in a report is the header, then
    one line [name==version] per resolved package in sorted order, then
    the footer; it is empty when the result has no resolved packages.
    Report generation returns that report whenever it does not throw, and
    the text does not depend on the request (so on no requirement's
    operator). *)
Theorem pipeline_manifest_pins_versions
    (localeCompare : string -> string -> Z) (reportId now : string)
    (request : ResolutionRequest) (resolutionResult : ResolutionResult) (w : World) :
  let report := Agent.compiledReport localeCompare reportId now request resolutionResult in
  fst (generateReport localeCompare None reportId now request resolutionResult w)
    = inr report
  /\ requirements_txt report
     = match resolved_packages resolutionResult with
       | Some pkgs =>
           (header now (length pkgs)
            +:+ String.concat ""
                  (map (fun pkg =>
                          (sp_name pkg +:+ "==" +:+ interp (sp_version pkg)) +:+ nl)
                       (sort_by_name localeCompare
                          (map (fun pkg =>
                                  mkSourced (pkg_name pkg) (pkg_version pkg) "pypi")
                               pkgs))))
           +:+ (if (0 <? length pkgs)%nat then footer else "")
       | None => ""
       end
  /\ (forall request2,
        requirements_txt
          (Agent.compiledReport localeCompare reportId now request2 resolutionResult)
        = requirements_txt report).
Proof.
  cbv zeta. split; [ reflexivity | ]. split; [ | reflexivity ].
  unfold Agent.compiledReport. cbn [requirements_txt].
  destruct (resolved_packages resolutionResult) as [pkgs | ]; [ | reflexivity ].
  rewrite requirementsGenerator_text, length_map. cbn [andb]. do 3 f_equal.
  apply map_ext_in. intros pkg Hin. apply package_line_pinned.
  apply (Permutation_in _ (sort_permutation localeCompare _)) in Hin.
  apply in_map_iff in Hin as (p & <- & _). reflexivity.
Qed.

End AgentClaims.

(** * Facts about the string primitives *)

Module JsFacts.
Import Js StringFacts.

Lemma rev_append_app (s acc : string) : rev_append s acc = reverse s +:+ acc.
Proof.
  unfold reverse. revert acc. induction s as [ | a s IH ]; intros acc; [ done | ].
  simpl. rewrite IH, (IH (String a "")). by rewrite app_assoc_string.
Qed.

Lemma reverse_cons (a : ascii) (s : string) :
  reverse (String a s) = reverse s +:+ String a "".
Proof. unfold reverse at 1. simpl. apply rev_append_app. Qed.

Lemma reverse_snoc (s : string) (a : ascii) :
  reverse (s +:+ String a "") = String a (reverse s).
Proof.
  induction s as [ | b s IH ]; [ done | ].
  change (String b s +:+ String a "") with (String b (s +:+ String a "")).
  rewrite !reverse_cons, IH. done.
Qed.

Lemma reverse_involutive (s : string) : reverse (reverse s) = s.
Proof.
  induction s as [ | a s IH ]; [ done | ].
  by rewrite reverse_cons, reverse_snoc, IH.
Qed.

Lemma reverse_empty (s : string) : reverse s = "" -> s = "".
Proof. intros H. by rewrite <- (reverse_involutive s), H. Qed.

(** A string with no leading white space is left alone. *)
Lemma trimStart_fixed (a : ascii) (s : string) :
  is_ws a = false -> trimStart (String a s) = String a s.
Proof. intros H. simpl. by rewrite H. Qed.

Lemma trimStart_idempotent (s : string) : trimStart (trimStart s) = trimStart s.
Proof.
  induction s as [ | a s IH ]; [ done | ].
  simpl. destruct (is_ws a) eqn:Ha; [ done | ]. simpl. by rewrite Ha.
Qed.

Lemma trimStart_snoc (x : string) (a : ascii) :
  trimStart (x +:+ String a "")
  = match trimStart x with
    | EmptyString => if is_ws a then "" else String a ""
    | t => t +:+ String a ""
    end.
Proof.
  induction x as [ | b x IH ]; [ simpl; by destruct (is_ws a) | ].
  change (String b x +:+ String a "") with (String b (x +:+ String a "")).
  simpl. by destruct (is_ws b).
Qed.

(** Trimming the end, one character at a time. *)
Lemma trimEnd_cons (a : ascii) (s : string) :
  trimEnd (String a s)
  = match trimEnd s with
    | EmptyString => if is_ws a then "" else String a ""
    | t => String a t
    end.
Proof.
  unfold trimEnd. rewrite reverse_cons, trimStart_snoc.
  destruct (trimStart (reverse s)) as [ | b t ] eqn:Ht.
  - by destruct (is_ws a).
  - rewrite reverse_snoc. destruct (reverse (String b t)) eqn:Hr; [ | done ].
    by apply reverse_empty in Hr.
Qed.

Lemma trimEnd_idempotent (s : string) : trimEnd (trimEnd s) = trimEnd s.
Proof. unfold trimEnd. by rewrite reverse_involutive, trimStart_idempotent. Qed.

(** Trimming the end introduces no leading white space. *)
Lemma trimStart_trimEnd (s : string) :
  trimStart s = s -> trimStart (trimEnd s) = trimEnd s.
Proof.
  destruct s as [ | a s ]; [ done | ]. intros Hs.
  assert (is_ws a = false) as Ha.
  { destruct (is_ws a) eqn:Ha; [ | done ]. simpl in Hs. rewrite Ha in Hs.
    exfalso. assert (String.length (trimStart s) <= String.length s) as Hlen.
    { clear. induction s as [ | b s IH ]; simpl; [ lia | ].
      destruct (is_ws b); simpl; lia. }
    rewrite Hs in Hlen. simpl in Hlen. lia. }
  rewrite trimEnd_cons. destruct (trimEnd s); rewrite ?Ha; simpl; by rewrite Ha.
Qed.

Lemma trim_idempotent (s : string) : trim (trim s) = trim s.
Proof.
  unfold trim. rewrite (trimStart_trimEnd (trimStart s)) by apply trimStart_idempotent.
  apply trimEnd_idempotent.
Qed.

Lemma lower_ascii_idempotent (a : ascii) : lower_ascii (lower_ascii a) = lower_ascii a.
Proof. destruct a as [[] [] [] [] [] [] [] []]; reflexivity. Qed.

Lemma toLowerCase_idempotent (s : string) : toLowerCase (toLowerCase s) = toLowerCase s.
Proof.
  induction s as [ | a s IH ]; [ done | ]. simpl. by rewrite lower_ascii_idempotent, IH.
Qed.

End JsFacts.

(** * Further properties of the resolution tool *)

Module ResolutionExtras.
Import Js Tools Scenarios StringFacts ResolutionFacts.

(** Every entry of the built-in table carries the version "built-in" and
    is marked deprecated. *)
Lemma builtin_entry key info :
  member builtInDeprecated key = Own info ->
  builtin_version info = "built-in" /\ builtin_deprecated info = true.
Proof.
  unfold member, builtInDeprecated. cbn [own_entry].
  repeat (destruct (String.eqb _ key); [ by intros [= <-] | ]).
  by destruct (bool_decide _).
Qed.

Section WithRegistry.

Variable pypi_lookup : string -> LookupResult.

Lemma contribution_one req :
  length (acc_resolved (contribution pypi_lookup req))
  + length (acc_warnings (contribution pypi_lookup req)) = 1.
Proof.
  unfold contribution, processRequirement.
  destruct (negb (truthy _)); [ done | ].
  destruct (member builtInDeprecated _) as [info | | ].
  - by destruct (builtin_deprecated info).
  - done.
  - destruct (negb (lookup_success _)); [ done | ].
    by destruct (check_success _ && check_is_deprecated _).
Qed.

Lemma contribution_deprecated_resolved req d :
  In d (acc_deprecated (contribution pypi_lookup req)) ->
  In (mkResolved (dep_name d) (dep_version d)) (acc_resolved (contribution pypi_lookup req)).
Proof.
  unfold contribution, processRequirement.
  destruct (negb (truthy _)); [ done | ].
  destruct (member builtInDeprecated _) as [info | | ].
  - destruct (builtin_deprecated info); simpl; [ | done ]. intros [<- | []]. by left.
  - done.
  - destruct (negb (lookup_success _)); [ done | ].
    destruct (check_success _ && check_is_deprecated _); simpl; [ | done ].
    intros [<- | []]. by left.
Qed.

End WithRegistry.

(** X1: every requirement of a call ends up as exactly one resolved
    package or exactly one warning. *)
Theorem every_requirement_resolved_or_warned
    (pypi_lookup : string -> LookupResult) (reqs : list Requirement) :
  let r := dependencyResolution pypi_lookup reqs in
  length (field_list (resolved_packages r)) + length (field_list (warnings r))
  = length reqs.
Proof.
  cbv zeta. rewrite result_resolved, result_warnings.
  induction reqs as [ | req reqs IH ]; [ done | ].
  rewrite processAll_cons. simpl. rewrite !length_app.
  pose proof (contribution_one pypi_lookup req). lia.
Qed.

(** X2: every deprecated entry of a result stands for a resolved package
    of the same result, with the same name and version. *)
Theorem deprecated_entries_are_resolved
    (pypi_lookup : string -> LookupResult) (reqs : list Requirement)
    (d : DeprecatedPackage) :
  let r := dependencyResolution pypi_lookup reqs in
  In d (field_list (deprecated_packages r)) ->
  In (mkResolved (dep_name d) (dep_version d)) (field_list (resolved_packages r)).
Proof.
  cbv zeta. rewrite result_resolved, result_deprecated.
  induction reqs as [ | req reqs IH ]; [ done | ].
  rewrite processAll_cons. simpl. rewrite !in_app_iff.
  intros [Hd | Hd]; [ left; by apply contribution_deprecated_resolved | right; by apply IH ].
Qed.

Lemma deprecated_entries_witness :
  In (mkResolved "imp" (Some "built-in"))
     (field_list (resolved_packages (dependencyResolution registry [numpy_any; imp_exact]))).
Proof.
  apply (deprecated_entries_are_resolved registry [numpy_any; imp_exact]
           (mkDeprecated "imp" (Some "built-in")
              "The imp module is deprecated since Python 3.4 and removed in Python 3.12"
              (Some "importlib"))).
  vm_compute. by left.
Defined.

(** X3: a requirement naming a built-in deprecated module (whatever its
    case, operator, version or [fixed] flag) is resolved to the version
    "built-in" and flagged deprecated with the table's reason and first
    alternative; the registry is not consulted. *)
Theorem builtin_module_bypasses_registry
    (pypi_lookup : string -> LookupResult) (req : Requirement) (info : BuiltInInfo) :
  truthy (trim (req_name req)) = true ->
  member builtInDeprecated (toLowerCase (trim (req_name req))) = Own info ->
  contribution pypi_lookup req
  = mkAcc [ mkResolved (trim (req_name req)) (Some "built-in") ]
          [ mkDeprecated (trim (req_name req)) (Some "built-in")
              (builtin_reason info) (head (builtin_alternatives info)) ]
          [].
Proof.
  intros Hname Hown. destruct (builtin_entry _ _ Hown) as [Hv Hd].
  unfold contribution, processRequirement. rewrite Hname, Hown. simpl.
  by rewrite Hd, Hv.
Qed.

Lemma builtin_module_witness :
  contribution empty_registry (mkReq " Distutils " ">=" (Some "3.0") false "Distutils>=3.0")
  = mkAcc [ mkResolved "Distutils" (Some "built-in") ]
          [ mkDeprecated "Distutils" (Some "built-in")
              "distutils is deprecated since Python 3.10 and removed in Python 3.12"
              (Some "setuptools") ]
          [].
Proof.
  apply (builtin_module_bypasses_registry empty_registry
           (mkReq " Distutils " ">=" (Some "3.0") false "Distutils>=3.0")
           (mkBuiltIn true
              "distutils is deprecated since Python 3.10 and removed in Python 3.12"
              ["setuptools"; "build"; "hatchling"] "built-in"));
    reflexivity.
Defined.

(** X4: a requirement with operator [>=] or [>] that is not [fixed] is
    resolved to the registry's latest version, and to the requested
    version only when the registry reports no latest version. *)
Theorem minimum_requirement_uses_latest
    (pypi_lookup : string -> LookupResult)
    (before : list Requirement) (req : Requirement) (after : list Requirement)
    (v : string) :
  truthy (trim (req_name req)) = true ->
  member builtInDeprecated (toLowerCase (trim (req_name req))) = Missing ->
  lookup_success (pypi_lookup (trim (req_name req))) = true ->
  req_operator req = ">=" \/ req_operator req = ">" ->
  req_fixed req = false ->
  req_version req = Some v ->
  truthy v = true ->
  field_list (resolved_packages (dependencyResolution pypi_lookup (before ++ req :: after)))
  = field_list (resolved_packages (dependencyResolution pypi_lookup before))
    ++ mkResolved (trim (req_name req))
         (Some (or_else (latest_of (pypi_lookup (trim (req_name req)))) v))
    :: field_list (resolved_packages (dependencyResolution pypi_lookup after)).
Proof.
  intros Hname Hmiss Hok Hop Hfixed Hv Htv.
  rewrite ResolutionClaims.resolved_around, ResolutionClaims.contribution_found by done.
  do 4 f_equal. unfold resolveVersion. rewrite Hv, Hfixed. simpl. rewrite Htv.
  by destruct Hop as [-> | ->].
Qed.

Lemma minimum_requirement_witness :
  field_list (resolved_packages (dependencyResolution registry [numpy_any; pandas_min]))
  = [ mkResolved "numpy" (Some "1.24.3"); mkResolved "pandas" (Some "2.0.1") ].
Proof.
  apply (minimum_requirement_uses_latest registry [numpy_any] pandas_min [] "1.3.0");
    solve [ reflexivity | left; reflexivity ].
Defined.

(** X5: a requirement whose name is empty or white space only adds the
    warning "Empty package name provided: '<name>'" and nothing else; the
    registry is not consulted and the rest of the result is that of the
    call without it. *)
Theorem blank_name_is_skipped
    (pypi_lookup : string -> LookupResult)
    (before : list Requirement) (blank : Requirement) (after : list Requirement) :
  truthy (trim (req_name blank)) = false ->
  let r := dependencyResolution pypi_lookup (before ++ blank :: after) in
  let others := dependencyResolution pypi_lookup (before ++ after) in
  field_list (warnings r)
    = field_list (warnings (dependencyResolution pypi_lookup before))
      ++ ("Empty package name provided: '" +:+ req_name blank +:+ "'")
      :: field_list (warnings (dependencyResolution pypi_lookup after))
  /\ field_list (resolved_packages r) = field_list (resolved_packages others)
  /\ deprecated_packages r = deprecated_packages others
  /\ conflicts r = conflicts others
  /\ success r = success others.
Proof.
  intros Hblank. cbv zeta.
  assert (contribution pypi_lookup blank
          = mkAcc [] [] [ "Empty package name provided: '" +:+ req_name blank +:+ "'" ])
    as Hc.
  { unfold contribution, processRequirement. by rewrite Hblank. }
  assert (acc_resolved (processAll pypi_lookup (before ++ blank :: after))
          = acc_resolved (processAll pypi_lookup (before ++ after))) as Hres.
  { rewrite !processAll_app, processAll_cons, Hc. reflexivity. }
  assert (acc_deprecated (processAll pypi_lookup (before ++ blank :: after))
          = acc_deprecated (processAll pypi_lookup (before ++ after))) as Hdep.
  { rewrite !processAll_app, processAll_cons, Hc. reflexivity. }
  split; [ | split; [ | split; [ | split ] ] ].
  - rewrite !result_warnings, processAll_app, processAll_cons, Hc. reflexivity.
  - by rewrite !result_resolved.
  - rewrite !result_deprecated_eq. by rewrite Hdep.
  - rewrite !result_conflicts_eq. by rewrite Hres.
  - rewrite !result_success. by rewrite Hres, Hdep.
Qed.

Lemma blank_name_witness :
  let r := dependencyResolution registry
             [numpy_any; mkReq "   " "" None false "   "; pandas_min] in
  let others := dependencyResolution registry [numpy_any; pandas_min] in
  field_list (warnings r) = [ "Empty package name provided: '   '" ]
  /\ field_list (resolved_packages r) = field_list (resolved_packages others)
  /\ deprecated_packages r = deprecated_packages others
  /\ conflicts r = conflicts others
  /\ success r = success others.
Proof.
  apply (blank_name_is_skipped registry [numpy_any]
           (mkReq "   " "" None false "   ") [pandas_min]).
  reflexivity.
Defined.

End ResolutionExtras.

(** * Properties of the deprecation table *)

Module DeprecationExtras.
Import Js Tools Scenarios JsFacts ResolutionFacts.

(** X6: the deprecation check flags exactly the names nose, nose2, imp,
    distutils, optparse, pkg_resources and 2to3, compared after trimming
    and lower-casing; it always reports success. *)
Theorem deprecation_check_flags_listed_names (package_name : string) (check_detailed : bool) :
  let check := packageDeprecationAnalysis package_name check_detailed in
  check_success check = true
  /\ (check_is_deprecated check = true <->
      In (toLowerCase (trim package_name))
         [ "nose"; "nose2"; "imp"; "distutils"; "optparse"; "pkg_resources"; "2to3" ]).
Proof.
  cbv zeta. unfold packageDeprecationAnalysis, member, deprecatedPackages.
  generalize (toLowerCase (trim package_name)). intros k. cbn [own_entry].
  repeat match goal with
         | |- context [ String.eqb ?key k ] =>
             destruct (String.eqb_spec key k) as [<- | ?];
             [ split; [ reflexivity | ]; simpl; split; intros; try discriminate; tauto | ]
         end.
  destruct (bool_decide _); [ | destruct check_detailed ];
    (split; [ reflexivity | ]); simpl; split; intros H; try discriminate; intuition congruence.
Qed.

(** X7: a package found in the registry is flagged deprecated by the
    resolution tool exactly when its trimmed, lower-cased name is nose,
    nose2, pkg_resources or 2to3. *)
Theorem registry_package_flagged_iff_listed
    (pypi_lookup : string -> LookupResult) (req : Requirement) :
  truthy (trim (req_name req)) = true ->
  member builtInDeprecated (toLowerCase (trim (req_name req))) = Missing ->
  lookup_success (pypi_lookup (trim (req_name req))) = true ->
  acc_deprecated (contribution pypi_lookup req) <> []
  <-> In (toLowerCase (trim (req_name req))) [ "nose"; "nose2"; "pkg_resources"; "2to3" ].
Proof.
  intros Hname Hmiss Hok. unfold contribution, processRequirement.
  rewrite Hname, Hmiss, Hok. cbn [negb].
  destruct (deprecation_check_flags_listed_names (trim (req_name req)) false) as [Hs Hd].
  cbv zeta in Hs, Hd. rewrite Hs. cbn [andb]. rewrite trim_idempotent in Hd.
  revert Hmiss Hd. generalize (toLowerCase (trim (req_name req))). intros k Hmiss Hd.
  destruct (check_is_deprecated _).
  - split; [ intros _ | by intros _ ].
    destruct Hd as [Hd _]. specialize (Hd eq_refl). simpl in Hd |- *.
    destruct Hd as [<- | [<- | [<- | [<- | [<- | [<- | [<- | []]]]]]]];
      try tauto; by vm_compute in Hmiss.
  - split; [ by intros H | ]. intros Hin. exfalso.
    destruct Hd as [_ Hd]. simpl in Hin, Hd. assert (false = true); [ | done ].
    apply Hd. tauto.
Qed.

Lemma registry_package_flagged_witness :
  acc_deprecated (contribution registry (mkReq "Nose" "" None false "Nose")) <> []
  <-> In "nose" [ "nose"; "nose2"; "pkg_resources"; "2to3" ].
Proof.
  apply (registry_package_flagged_iff_listed registry (mkReq "Nose" "" None false "Nose"));
    reflexivity.
Defined.

End DeprecationExtras.

(** * Further properties of the resolver agent *)

Module AgentExtras.
Import Js Tools Shared Agent Scenarios StringFacts AgentFacts.

(** [z.array] parses item by item, keeping positions. *)
Lemma z_array_Forall2 {A} (item : Json -> Parsed A) (items : list Json) (l : list A) :
  z_array item items = inr l <-> Forall2 (fun j a => item j = inr a) items l.
Proof.
  revert l. induction items as [ | j items IH ]; intros l; simpl.
  - split; [ intros [= <-]; constructor | by inversion 1 ].
  - unfold parse_bind. destruct (item j) as [e | a] eqn:Hj.
    + split; [ done | ]. inversion 1; congruence.
    + destruct (z_array item items) as [e | tl] eqn:Htl.
      * split; [ done | ]. inversion 1 as [ | ? ? ? tl' Hj' Htl' ]; subst.
        apply IH in Htl'. congruence.
      * split.
        -- intros [= <-]. constructor; [ done | by apply IH ].
        -- inversion 1 as [ | ? a' ? tl' Hj' Htl' ]; subst.
           apply IH in Htl'. congruence.
Qed.

(** X8: a body accepted by [ResolutionRequestSchema] is an object whose
    [requirements] member is an array, and the accepted requirements are
    the parses of its items, one for one and in order: no item is
    dropped, and one failing item rejects the whole body. *)
Theorem schema_keeps_every_requirement (body : Json) (request : ResolutionRequest) :
  ResolutionRequestSchema_parse body = inr request ->
  exists fields items,
    body = JObject fields
    /\ get_field fields "requirements" = Some (JArray items)
    /\ Forall2 (fun j r => DependencyConstraintSchema_parse j = inr r)
         items (requirements request)
    /\ length (requirements request) = length items.
Proof.
  destruct body as [ | | | | | fields ]; try done. unfold ResolutionRequestSchema_parse.
  destruct (get_field fields "requirements") as [[ | | | | items | ] | ] eqn:Hreq;
    cbn [parse_bind]; try done.
  destruct (z_array DependencyConstraintSchema_parse items) as [e | reqs] eqn:Hitems;
    cbn [parse_bind]; [ done | ].
  intros Hrest. exists fields, items.
  assert (requirements request = reqs) as ->.
  { repeat match type of Hrest with
           | parse_bind ?p _ = _ => destruct p; cbn [parse_bind] in Hrest; [ done | ]
           end.
    by injection Hrest as <-. }
  apply z_array_Forall2 in Hitems.
  split; [ reflexivity | ]. split; [ exact Hreq | ]. split; [ exact Hitems | ].
  symmetry. by eapply Forall2_length.
Qed.

Lemma schema_keeps_witness :
  exists fields items,
    numpy_body = JObject fields
    /\ get_field fields "requirements" = Some (JArray items)
    /\ Forall2 (fun j r => DependencyConstraintSchema_parse j = inr r)
         items (requirements numpy_request)
    /\ length (requirements numpy_request) = length items.
Proof.
  apply (schema_keeps_every_requirement numpy_body numpy_request). reflexivity.
Defined.

Section WithEnvironment.

Variable pypi_lookup : string -> LookupResult.
Variable localeCompare : string -> string -> Z.
Variable research_body : string -> string + Research.
Variable ZodError_message : Json -> string.

Abbreviation step := (Agent.step pypi_lookup localeCompare research_body ZodError_message).
Abbreviation world_after :=
  (Agent.world_after pypi_lookup localeCompare research_body ZodError_message).
Abbreviation fresh_ids :=
  (Agent.fresh_ids pypi_lookup localeCompare research_body ZodError_message).
Abbreviation processResolution :=
  (Agent.processResolution pypi_lookup localeCompare research_body).
Abbreviation resolutionOutcome :=
  (Agent.resolutionOutcome pypi_lookup research_body).
Abbreviation compiledReport := (Agent.compiledReport localeCompare).

(** X9: a submission whose body fails the schema is answered with
    status 500 and the text "Error: <message>", the message being that
    of the [ZodError] the schema throws on this body; no record is
    written and no pipeline is launched. *)
Theorem rejected_submission_leaves_no_trace
    (w : World) (body : Json) (reportId now : string) (put_rejects : option Exn)
    (zodError : Invalid) :
  ResolutionRequestSchema_parse body = inl zodError ->
  let outcome := step w (Submit body reportId now put_rejects) in
  fst outcome = Some (ErrorText 500 ("Error: " +:+ ZodError_message body))
  /\ REPORTS_STORAGE (snd outcome) = REPORTS_STORAGE w
  /\ launched (snd outcome) = launched w.
Proof.
  intros Hparse. cbv zeta.
  rewrite step_submit_response, step_submit_bucket, step_submit_launched.
  by rewrite Hparse.
Qed.

(** X10: when the store rejects the initial processing record, the
    submission is still answered as started and its pipeline is still
    launched; until the pipeline writes, a poll for that id answers 404
    not found rather than processing. *)
Theorem submission_survives_rejected_record
    (w : World) (body : Json) (request : ResolutionRequest) (reportId now : string)
    (e : Exn) :
  ResolutionRequestSchema_parse body = inr request ->
  unused w reportId = true ->
  let outcome := step w (Submit body reportId now (Some e)) in
  fst outcome
    = Some (Started reportId "processing"
              "Dependency resolution started. Use the /status endpoint to check progress.")
  /\ launched (snd outcome) = launched w ++ [ mkJob reportId request ]
  /\ fst (step (snd outcome) (Poll reportId None)) = Some (NotFound 404).
Proof.
  intros Hparse Hunused. cbv zeta.
  rewrite step_submit_response, step_submit_launched, step_poll_response,
    step_submit_bucket, Hparse.
  by rewrite (unused_not_stored _ _ Hunused).
Qed.

(** A record is left alone by every event other than the pipeline of
    its own id. *)
Lemma step_keeps_other_record w ev reportId data :
  admissible w ev = true ->
  (forall now faults, ev <> Background reportId now faults) ->
  REPORTS_STORAGE w !! generateReportKey reportId = Some data ->
  REPORTS_STORAGE (snd (step w ev)) !! generateReportKey reportId = Some data.
Proof.
  destruct ev as [body id' now pr | id' now faults | id' g]; intros Hadm Hev Hrec;
    simpl in Hadm.
  - rewrite step_submit_bucket.
    destruct (ResolutionRequestSchema_parse body) as [e | request]; [ done | ].
    destruct pr; [ done | ].
    rewrite lookup_insert_ne; [ done | ]. apply generateReportKey_ne.
    intros ->. apply unused_not_stored in Hadm. congruence.
  - rewrite step_background_bucket.
    destruct (take_job id' (launched w)) as [[j rest] | ] eqn:Htake; [ | done ].
    rewrite bucket_after_pipeline_other; [ done | ].
    apply generateReportKey_ne. rewrite (take_job_id _ _ _ _ Htake).
    intros ->. by eapply Hev.
  - by rewrite step_poll_bucket.
Qed.

Lemma run_keeps_other_record evs :
  forall w reportId data,
    fresh_ids w evs = true ->
    Forall (fun ev => forall now faults, ev <> Background reportId now faults) evs ->
    REPORTS_STORAGE w !! generateReportKey reportId = Some data ->
    REPORTS_STORAGE (world_after w evs) !! generateReportKey reportId = Some data.
Proof.
  induction evs as [ | ev evs IH ]; intros w reportId data Hfresh Hall Hrec; [ done | ].
  rewrite world_after_cons. simpl in Hfresh. apply andb_true_iff in Hfresh as [H1 H2].
  apply Forall_cons in Hall as [Hev Hall].
  apply IH; [ done | done | ]. by apply step_keeps_other_record.
Qed.

(** X11: after an accepted submission whose processing record was
    written, every poll for its id answers processing for as long as its
    pipeline has not run, whatever else happens to other jobs. *)
Theorem poll_in_flight_answers_processing
    (w : World) (body : Json) (request : ResolutionRequest) (reportId now : string)
    (evs : list Event) :
  ResolutionRequestSchema_parse body = inr request ->
  fresh_ids w (Submit body reportId now None :: evs) = true ->
  Forall (fun ev => forall now' faults, ev <> Background reportId now' faults) evs ->
  fst (step (world_after w (Submit body reportId now None :: evs)) (Poll reportId None))
  = Some (StillProcessing reportId "processing" now (Some request)
            "Dependency resolution is still in progress. Please check again in a few seconds.").
Proof.
  intros Hparse Hfresh Hall. rewrite world_after_cons, step_poll_response.
  simpl in Hfresh. apply andb_true_iff in Hfresh as [_ Hfresh].
  rewrite (run_keeps_other_record evs _ reportId
             (ProcessingStatus reportId "processing" now request)); [ done | done | done | ].
  rewrite step_submit_bucket, Hparse. by rewrite lookup_insert_eq.
Qed.

(** X12: once the pipeline of the only job launched under an id has
    stored its report, every later poll for that id answers completed
    with that same report. *)
Theorem completed_report_is_stable
    (w : World) (reportId now : string) (faults : Faults) (j : Job) (rest : list Job)
    (evs : list Event) :
  take_job reportId (launched w) = Some (j, rest) ->
  is_launched reportId rest = false ->
  escapes faults = None ->
  fresh_ids (snd (step w (Background reportId now faults))) evs = true ->
  fst (step (world_after (snd (step w (Background reportId now faults))) evs)
            (Poll reportId None))
  = Some (Completed
            (StoredReport
               (compiledReport reportId now (job_request j)
                  (resolutionOutcome (resolve_throws faults) (job_request j))))
            "completed").
Proof.
  intros Htake Hrest Hesc Hfresh. rewrite step_poll_response.
  rewrite (run_keeps_record pypi_lookup localeCompare research_body ZodError_message evs _ reportId
             (StoredReport
                (compiledReport reportId now (job_request j)
                   (resolutionOutcome (resolve_throws faults) (job_request j))))).
  - done.
  - done.
  - rewrite step_background_bucket, Htake. rewrite (take_job_id _ _ _ _ Htake).
    unfold Agent.bucket_after_pipeline. by rewrite Hesc, lookup_insert_eq.
  - by rewrite step_background_launched, Htake.
Qed.

(** X13: the pipeline of one job never changes what is stored under
    another id, so it never changes what a poll for another id answers. *)
Theorem pipelines_are_isolated
    (w : World) (reportId other now : string) (faults : Faults) (g : option Exn) :
  other <> reportId ->
  let w' := snd (step w (Background reportId now faults)) in
  REPORTS_STORAGE w' !! generateReportKey other
    = REPORTS_STORAGE w !! generateReportKey other
  /\ fst (step w' (Poll other g)) = fst (step w (Poll other g)).
Proof.
  intros Hne. cbv zeta.
  assert (REPORTS_STORAGE (snd (step w (Background reportId now faults)))
            !! generateReportKey other
          = REPORTS_STORAGE w !! generateReportKey other) as Hsame.
  { rewrite step_background_bucket.
    destruct (take_job reportId (launched w)) as [[j rest] | ] eqn:Htake; [ | done ].
    apply bucket_after_pipeline_other, generateReportKey_ne.
    by rewrite (take_job_id _ _ _ _ Htake). }
  split; [ done | ]. by rewrite !step_poll_response, Hsame.
Qed.

(** A run of the pipeline throws only out of its own [catch]: whatever
    is raised in a phase or by the store is caught, and the run returns
    unless what was caught is [null] or [undefined], whose [message]
    cannot be read; the list of launched jobs is left as it was. *)
Theorem pipeline_throws_only_on_nullish
    (faults : Faults) (reportId now : string) (request : ResolutionRequest) (w : World) :
  (fst (processResolution faults reportId now request w) = inr tt
   <-> forall e, escapes faults = Some e -> is_nullish e = false)
  /\ launched (snd (processResolution faults reportId now request w)) = launched w.
Proof.
  split; [ | apply processResolution_launched ].
  rewrite processResolution_returns.
  destruct (escapes faults) as [[m | m | b] | ]; simpl; split; try done.
  - by intros _ e [= <-].
  - by intros _ e [= <-].
  - intros H. by specialize (H _ eq_refl).
Qed.

(** A poll only reads: it changes neither the store nor the
    launched jobs; it answers 404 for an id with no record and 500 when
    the store cannot be read. *)
Theorem poll_only_reads (w : World) (reportId : string) (get_rejects : option Exn) :
  let outcome := step w (Poll reportId get_rejects) in
  REPORTS_STORAGE (snd outcome) = REPORTS_STORAGE w
  /\ launched (snd outcome) = launched w
  /\ (get_rejects = None ->
      REPORTS_STORAGE w !! generateReportKey reportId = None ->
      fst outcome = Some (NotFound 404))
  /\ (is_Some get_rejects -> fst outcome = Some (RetrieveFailed 500)).
Proof.
  cbv zeta. rewrite step_poll_bucket, step_poll_launched, step_poll_response.
  repeat split.
  - by intros -> ->.
  - by intros [e ->].
Qed.

End WithEnvironment.

Lemma rejected_submission_witness :
  let outcome :=
    Agent.step registry codeUnitCompare quiet_research terse_zod initial
      (Submit (JObject []) "job-1" "t0" None) in
  fst outcome = Some (ErrorText 500 ("Error: " +:+ terse_zod (JObject [])))
  /\ REPORTS_STORAGE (snd outcome) = REPORTS_STORAGE initial
  /\ launched (snd outcome) = launched initial.
Proof.
  apply (rejected_submission_leaves_no_trace registry codeUnitCompare quiet_research terse_zod
           initial (JObject []) "job-1" "t0" None invalid).
  reflexivity.
Defined.

Lemma rejected_record_witness :
  let outcome :=
    Agent.step registry codeUnitCompare quiet_research terse_zod initial
      (Submit numpy_body "job-1" "t0" (Some (JsError "bucket unavailable"))) in
  fst outcome
    = Some (Started "job-1" "processing"
              "Dependency resolution started. Use the /status endpoint to check progress.")
  /\ launched (snd outcome) = launched initial ++ [ mkJob "job-1" numpy_request ]
  /\ fst (Agent.step registry codeUnitCompare quiet_research terse_zod (snd outcome)
            (Poll "job-1" None))
     = Some (NotFound 404).
Proof.
  apply (submission_survives_rejected_record registry codeUnitCompare quiet_research terse_zod
           initial numpy_body numpy_request "job-1" "t0" (JsError "bucket unavailable"));
    reflexivity.
Defined.

Lemma poll_in_flight_witness :
  fst (Agent.step registry codeUnitCompare quiet_research terse_zod
         (Agent.world_after registry codeUnitCompare quiet_research terse_zod initial
            (Submit numpy_body "job-1" "t0" None
             :: [ Submit empty_body "job-2" "t1" None;
                  Background "job-2" "t2" no_faults;
                  Poll "job-2" None ]))
         (Poll "job-1" None))
  = Some (StillProcessing "job-1" "processing" "t0" (Some numpy_request)
            "Dependency resolution is still in progress. Please check again in a few seconds.").
Proof.
  apply (poll_in_flight_answers_processing registry codeUnitCompare quiet_research terse_zod
           initial numpy_body numpy_request "job-1" "t0"
           [ Submit empty_body "job-2" "t1" None;
             Background "job-2" "t2" no_faults;
             Poll "job-2" None ]).
  - reflexivity.
  - vm_compute. reflexivity.
  - repeat constructor; discriminate.
Defined.

Lemma completed_report_witness :
  let w :=
    Agent.world_after registry codeUnitCompare quiet_research terse_zod initial
      [ Submit numpy_body "job-1" "t0" None ] in
  fst (Agent.step registry codeUnitCompare quiet_research terse_zod
         (Agent.world_after registry codeUnitCompare quiet_research terse_zod
            (snd (Agent.step registry codeUnitCompare quiet_research terse_zod w
                    (Background "job-1" "t1" no_faults)))
            [ Poll "job-1" None; Submit numpy_body "job-2" "t2" None;
              Background "job-2" "t3" resolver_crashes ])
         (Poll "job-1" None))
  = Some (Completed
            (StoredReport
               (Agent.compiledReport codeUnitCompare "job-1" "t1"
                  (job_request (mkJob "job-1" numpy_request))
                  (Agent.resolutionOutcome registry quiet_research
                     (resolve_throws no_faults)
                     (job_request (mkJob "job-1" numpy_request)))))
            "completed").
Proof.
  apply (completed_report_is_stable registry codeUnitCompare quiet_research terse_zod
           (Agent.world_after registry codeUnitCompare quiet_research terse_zod initial
              [ Submit numpy_body "job-1" "t0" None ])
           "job-1" "t1" no_faults (mkJob "job-1" numpy_request) []
           [ Poll "job-1" None; Submit numpy_body "job-2" "t2" None;
             Background "job-2" "t3" resolver_crashes ]);
    vm_compute; reflexivity.
Defined.

Lemma pipelines_isolated_witness :
  let w :=
    Agent.world_after registry codeUnitCompare quiet_research terse_zod initial
      [ Submit numpy_body "job-1" "t0" None; Submit empty_body "job-2" "t1" None ] in
  let w' :=
    snd (Agent.step registry codeUnitCompare quiet_research terse_zod w
           (Background "job-1" "t2" no_faults)) in
  REPORTS_STORAGE w' !! generateReportKey "job-2"
    = REPORTS_STORAGE w !! generateReportKey "job-2"
  /\ fst (Agent.step registry codeUnitCompare quiet_research terse_zod w' (Poll "job-2" None))
     = fst (Agent.step registry codeUnitCompare quiet_research terse_zod w (Poll "job-2" None)).
Proof.
  apply (pipelines_are_isolated registry codeUnitCompare quiet_research terse_zod
           (Agent.world_after registry codeUnitCompare quiet_research terse_zod initial
              [ Submit numpy_body "job-1" "t0" None; Submit empty_body "job-2" "t1" None ])
           "job-1" "job-2" "t2" no_faults None).
  discriminate.
Defined.

End AgentExtras.

(** * Properties of requirement strings *)

Module RequirementFacts.
Import Js Tools Shared Requirements StringFacts JsFacts.

(** *** Character classes *)

Lemma space_not_name (a : ascii) : is_ws a && name_char a = false.
Proof. destruct a as [[] [] [] [] [] [] [] []]; reflexivity. Qed.

Lemma operator_start_not_name (a : ascii) : operator_start a && name_char a = false.
Proof. destruct a as [[] [] [] [] [] [] [] []]; reflexivity. Qed.

Lemma operator_start_not_space (a : ascii) : operator_start a && is_ws a = false.
Proof. destruct a as [[] [] [] [] [] [] [] []]; reflexivity. Qed.

Lemma name_char_lower (a : ascii) : name_char a = true -> name_char (lower_ascii a) = true.
Proof. destruct a as [[] [] [] [] [] [] [] []]; intros H; try reflexivity; discriminate H. Qed.

Lemma version_char_not_space (a : ascii) : version_char a = true -> is_ws a = false.
Proof.
  unfold version_char. intros H%negb_true_iff. by apply orb_false_iff in H as [_ H].
Qed.

Lemma all_chars_lower (s : string) :
  all_chars name_char s = true -> all_chars name_char (toLowerCase s) = true.
Proof.
  induction s as [ | a s IH ]; [ done | ]. simpl.
  intros [Ha Hs]%andb_true_iff. by rewrite name_char_lower, IH.
Qed.

Lemma all_chars_app (c : ascii -> bool) (s t : string) :
  all_chars c (s +:+ t) = all_chars c s && all_chars c t.
Proof.
  induction s as [ | a s IH ]; [ done | ].
  change (String a s +:+ t) with (String a (s +:+ t)). simpl.
  by rewrite IH, andb_assoc.
Qed.

(** *** Quantifiers *)

(** Every way to match splits the text, and the matched part is in the
    class. *)
Lemma star_sound (c : ascii -> bool) (s m r : string) :
  In (m, r) (star c s) -> s = m +:+ r /\ all_chars c m = true.
Proof.
  revert m r. induction s as [ | a s IH ]; intros m r; simpl.
  - intros [[= <- <-] | []]. done.
  - destruct (c a) eqn:Ha.
    + rewrite in_app_iff, in_map_iff.
      intros [([m' r'] & [= <- <-] & Hin) | [[= <- <-] | []]]; [ | done ].
      destruct (IH _ _ Hin) as [-> Hm]. split; [ done | ]. simpl. by rewrite Ha.
    + intros [[= <- <-] | []]. done.
Qed.

Lemma plus_sound (c : ascii -> bool) (s m r : string) :
  In (m, r) (plus c s) -> s = m +:+ r /\ all_chars c m = true /\ m <> "".
Proof.
  destruct s as [ | a s ]; simpl; [ done | ].
  destruct (c a) eqn:Ha; [ | done ]. rewrite in_map_iff.
  intros ([m' r'] & [= <- <-] & Hin). destruct (star_sound _ _ _ _ Hin) as [-> Hm].
  split; [ done | ]. split; [ | done ]. simpl. by rewrite Ha.
Qed.

(** The first way a greedy quantifier tries is the longest one. *)
Lemma star_first (c : ascii -> bool) (m r : string) :
  all_chars c m = true -> stops c r = true ->
  exists tl, star c (m +:+ r) = (m, r) :: tl.
Proof.
  intros Hm Hr. induction m as [ | a m IH ].
  - destruct r as [ | b r ]; simpl; [ by eexists | ].
    simpl in Hr. apply negb_true_iff in Hr. rewrite Hr. by eexists.
  - simpl in Hm. apply andb_true_iff in Hm as [Ha Hm].
    destruct (IH Hm) as [tl Htl].
    change (String a m +:+ r) with (String a (m +:+ r)). simpl.
    rewrite Ha, Htl. simpl. by eexists.
Qed.

Lemma plus_first (c : ascii -> bool) (m r : string) :
  m <> "" -> all_chars c m = true -> stops c r = true ->
  exists tl, plus c (m +:+ r) = (m, r) :: tl.
Proof.
  destruct m as [ | a m ]; [ done | ]. intros _ Hm Hr.
  simpl in Hm. apply andb_true_iff in Hm as [Ha Hm].
  destruct (star_first c m r Hm Hr) as [tl Htl].
  change (String a m +:+ r) with (String a (m +:+ r)). simpl.
  rewrite Ha, Htl. simpl. by eexists.
Qed.

(** Every way a quantifier matches a text made of a part in the class
    and a part that stops it leaves that second part whole. *)
Lemma star_rests (c : ascii -> bool) (pre rest : string) :
  all_chars c pre = true -> stops c rest = true ->
  forall m r, In (m, r) (star c (pre +:+ rest)) ->
              exists pre2, r = pre2 +:+ rest /\ all_chars c pre2 = true.
Proof.
  intros Hpre Hrest. induction pre as [ | a pre IH ]; intros m r.
  - destruct (star_first c "" rest eq_refl Hrest) as [tl Htl].
    destruct rest as [ | b rest ]; simpl.
    + intros [[= <- <-] | []]. by exists "".
    + simpl in Hrest. apply negb_true_iff in Hrest. rewrite Hrest.
      intros [[= <- <-] | []]. by exists "".
  - simpl in Hpre. apply andb_true_iff in Hpre as [Ha Hpre].
    change (String a pre +:+ rest) with (String a (pre +:+ rest)). simpl. rewrite Ha.
    rewrite in_app_iff, in_map_iff.
    intros [([m' r'] & [= <- <-] & Hin) | [[= <- <-] | []]].
    + by eapply IH.
    + exists (String a pre). split; [ done | ]. simpl. by rewrite Ha.
Qed.

Lemma plus_rests (c : ascii -> bool) (pre rest : string) :
  all_chars c pre = true -> stops c rest = true ->
  forall m r, In (m, r) (plus c (pre +:+ rest)) ->
              exists pre2, r = pre2 +:+ rest /\ all_chars c pre2 = true.
Proof.
  intros Hpre Hrest m r. destruct pre as [ | a pre ].
  - destruct rest as [ | b rest ]; simpl; [ done | ].
    simpl in Hrest. apply negb_true_iff in Hrest. by rewrite Hrest.
  - simpl in Hpre. apply andb_true_iff in Hpre as [Ha Hpre].
    change (String a pre +:+ rest) with (String a (pre +:+ rest)). simpl. rewrite Ha.
    rewrite in_map_iff. intros ([m' r'] & [= <- <-] & Hin).
    by eapply star_rests.
Qed.

Lemma flat_map_first {A B} (f : A -> list B) (x : A) (l : list A) (y : B) (ys : list B) :
  f x = y :: ys -> exists tl, flat_map f (x :: l) = y :: tl.
Proof. intros Hx. simpl. rewrite Hx. by eexists. Qed.

Lemma flat_map_nil {A B} (f : A -> list B) (l : list A) :
  (forall x, In x l -> f x = []) -> flat_map f l = [].
Proof.
  induction l as [ | x l IH ]; [ done | ]. intros H. simpl.
  rewrite (H x) by by left. apply IH. intros y Hy. apply H. by right.
Qed.

(** *** Operators *)

(** A text that does not start with an operator character matches no
    operator. *)
Lemma alternatives_none (s : string) :
  stops operator_start s = true -> alternatives pattern_operators s = [].
Proof.
  destruct s as [ | a s ]; [ done | ].
  destruct a as [[] [] [] [] [] [] [] []]; intros H; try discriminate H; reflexivity.
Qed.

(** An operator other than [===] is the first one the alternation
    finds, provided [>] and [<] are not followed by [=]. *)
Lemma alternatives_first (operator r : string) :
  In operator [ "=="; ">="; ">"; "<="; "<"; "!="; "~=" ] ->
  (operator = ">" \/ operator = "<" -> stops (Ascii.eqb "=") r = true) ->
  exists tl, alternatives pattern_operators (operator +:+ r) = (operator, r) :: tl.
Proof.
  intros Hop Hnext. simpl in Hop.
  destruct Hop as [<- | [<- | [<- | [<- | [<- | [<- | [<- | []]]]]]]];
    try (by eexists).
  - specialize (Hnext (or_introl eq_refl)). destruct r as [ | b r ]; [ by eexists | ].
    revert Hnext. destruct b as [[] [] [] [] [] [] [] []]; intros H;
      try discriminate H; by eexists.
  - specialize (Hnext (or_intror eq_refl)). destruct r as [ | b r ]; [ by eexists | ].
    revert Hnext. destruct b as [[] [] [] [] [] [] [] []]; intros H;
      try discriminate H; by eexists.
Qed.

Lemma stops_app (c : ascii -> bool) (m r : string) :
  stops c (m +:+ r) = match m with EmptyString => stops c r | String a _ => negb (c a) end.
Proof. by destruct m. Qed.

Lemma space_not_equals (a : ascii) : is_ws a = true -> Ascii.eqb "=" a = false.
Proof. destruct a as [[] [] [] [] [] [] [] []]; intros H; try reflexivity; discriminate H. Qed.

Lemma head_In {A} (l : list A) (x : A) : head l = Some x -> In x l.
Proof. destruct l; [ done | ]. intros [= <-]. by left. Qed.

(** *** The two patterns *)

(** Name, blanks, operator, blanks, version and a rest that the version
    cannot run into: the first pattern finds exactly these groups
    first. *)
Lemma versioned_first (name sp1 operator sp2 ver tail : string) :
  name <> "" -> all_chars name_char name = true ->
  all_chars space_char sp1 = true ->
  In operator [ "=="; ">="; ">"; "<="; "<"; "!="; "~=" ] ->
  all_chars space_char sp2 = true ->
  ver <> "" -> all_chars version_char ver = true ->
  (operator = ">" \/ operator = "<" -> sp2 = "" -> stops (Ascii.eqb "=") ver = true) ->
  stops version_char tail = true -> all_chars any_char tail = true ->
  exists tl,
    versioned_pattern (name +:+ sp1 +:+ operator +:+ sp2 +:+ ver +:+ tail)
    = (name, operator, ver, tail) :: tl.
Proof.
  intros Hname Hn Hsp1 Hop Hsp2 Hver Hv Hnext Htail Hany.
  destruct ver as [ | v0 ver ]; [ done | ].
  pose proof Hv as Hv0. simpl in Hv0. apply andb_true_iff in Hv0 as [Hv0 _].
  assert (exists o0 orest, operator = String o0 orest
                           /\ name_char o0 = false /\ is_ws o0 = false)
    as (o0 & orest & Hoeq & Hon & Hos).
  { simpl in Hop.
    destruct Hop as [<- | [<- | [<- | [<- | [<- | [<- | [<- | []]]]]]]];
      by do 2 eexists. }
  destruct (plus_first name_char name
              (sp1 +:+ operator +:+ sp2 +:+ String v0 ver +:+ tail)) as [tl1 H1];
    [ done | done | | ].
  { rewrite stops_app. destruct sp1 as [ | b sp1 ].
    - rewrite Hoeq. simpl. by rewrite Hon.
    - simpl in Hsp1. apply andb_true_iff in Hsp1 as [Hb _].
      pose proof (space_not_name b) as Hbn. unfold space_char in Hb.
      rewrite Hb in Hbn. simpl in Hbn. by rewrite Hbn. }
  destruct (star_first space_char sp1
              (operator +:+ sp2 +:+ String v0 ver +:+ tail)) as [tl2 H2]; [ done | | ].
  { rewrite Hoeq. simpl. unfold space_char. by rewrite Hos. }
  destruct (alternatives_first operator (sp2 +:+ String v0 ver +:+ tail))
    as [tl3 H3]; [ done | | ].
  { intros Hgl. rewrite stops_app. destruct sp2 as [ | b sp2 ].
    - by apply Hnext.
    - simpl in Hsp2. apply andb_true_iff in Hsp2 as [Hb _].
      by rewrite (space_not_equals b Hb). }
  destruct (star_first space_char sp2 (String v0 ver +:+ tail)) as [tl4 H4]; [ done | | ].
  { simpl. unfold space_char. by rewrite (version_char_not_space v0 Hv0). }
  destruct (plus_first version_char (String v0 ver) tail) as [tl5 H5]; [ done .. | ].
  destruct (star_first any_char tail "") as [tl6 H6]; [ done | done | ].
  rewrite app_empty_r in H6.
  unfold versioned_pattern. rewrite H1. cbn [flat_map]. rewrite H2. cbn [flat_map].
  rewrite H3. cbn [flat_map]. rewrite H4. cbn [flat_map]. rewrite H5. cbn [flat_map].
  rewrite H6. cbn [flat_map at_end truthy negb app]. by eexists.
Qed.

(** A name followed by something that starts neither a name, nor
    blanks, nor an operator: the first pattern does not match, the second
    one takes the rest as its second group. *)
Lemma bare_only (name rest : string) :
  name <> "" -> all_chars name_char name = true ->
  stops name_char rest = true -> stops space_char rest = true ->
  stops operator_start rest = true -> all_chars any_char rest = true ->
  versioned_pattern (name +:+ rest) = []
  /\ exists tl, bare_pattern (name +:+ rest) = (name, rest) :: tl.
Proof.
  intros Hname Hn Hrn Hrs Hro Hany. split.
  - unfold versioned_pattern. apply flat_map_nil. intros [m r1] Hin.
    destruct (plus_rests name_char name rest Hn Hrn m r1 Hin) as (pre2 & -> & Hpre2).
    assert (stops space_char (pre2 +:+ rest) = true
            /\ stops operator_start (pre2 +:+ rest) = true) as [Hs Ho].
    { rewrite !stops_app. destruct pre2 as [ | b pre2 ]; [ done | ].
      simpl in Hpre2. apply andb_true_iff in Hpre2 as [Hb _].
      pose proof (space_not_name b) as H1. pose proof (operator_start_not_name b) as H2.
      rewrite Hb, andb_true_r in H1, H2. unfold space_char. by rewrite H1, H2. }
    destruct (star_first space_char "" (pre2 +:+ rest) eq_refl Hs) as [tl Htl].
    assert (tl = []) as ->.
    { destruct (pre2 +:+ rest) as [ | b x ]; simpl in Htl |- *; [ congruence | ].
      simpl in Hs. apply negb_true_iff in Hs. rewrite Hs in Htl. congruence. }
    change ("" +:+ (pre2 +:+ rest)) with (pre2 +:+ rest) in Htl. rewrite Htl.
    cbn [flat_map]. rewrite (alternatives_none _ Ho). reflexivity.
  - destruct (plus_first name_char name rest Hname Hn Hrn) as [tl1 H1].
    destruct (star_first any_char rest "" Hany eq_refl) as [tl2 H2].
    rewrite app_empty_r in H2.
    unfold bare_pattern. rewrite H1. cbn [flat_map]. rewrite H2.
    cbn [flat_map at_end truthy negb app]. by eexists.
Qed.

(** Whatever the first pattern matches has a non-empty name made of
    name characters, and a non-empty version. *)
Lemma versioned_groups (input name operator version rest : string) :
  In (name, operator, version, rest) (versioned_pattern input) ->
  name <> "" /\ all_chars name_char name = true /\ version <> "".
Proof.
  unfold versioned_pattern. intros H.
  apply in_flat_map in H as ([n r1] & Hn & H).
  apply in_flat_map in H as ([? r2] & _ & H).
  apply in_flat_map in H as ([o r3] & _ & H).
  apply in_flat_map in H as ([? r4] & _ & H).
  apply in_flat_map in H as ([v r5] & Hv & H).
  apply in_flat_map in H as ([t r6] & _ & H).
  destruct (at_end r6); [ | done ]. destruct H as [[= <- <- <- <-] | []].
  apply plus_sound in Hn as (_ & Hn & Hne). apply plus_sound in Hv as (_ & _ & Hve).
  done.
Qed.

Lemma bare_groups (input name rest : string) :
  In (name, rest) (bare_pattern input) ->
  name <> "" /\ all_chars name_char name = true.
Proof.
  unfold bare_pattern. intros H.
  apply in_flat_map in H as ([n r1] & Hn & H).
  apply in_flat_map in H as ([t r2] & _ & H).
  destruct (at_end r2); [ | done ]. destruct H as [[= <- <-] | []].
  by apply plus_sound in Hn as (_ & Hn & Hne).
Qed.

End RequirementFacts.

(** * Properties of [parseRequirementString] *)

Module RequirementExtras.
Import Js Tools Shared Requirements StringFacts JsFacts RequirementFacts.

(** X16: a requirement written as name, operator and version (with
    optional blanks around the operator, the operator being any of [==],
    [>=], [>], [<=], [<], [!=], [~=]) is parsed into exactly these
    parts, with the name lower-cased and [fixed] set for [==] only.
    Whatever follows the version from the first comma or blank on, such
    as a second constraint, is dropped. *)
Theorem well_formed_requirement_parses
    (requirement name sp1 operator sp2 ver tail : string) :
  trim requirement = name +:+ sp1 +:+ operator +:+ sp2 +:+ ver +:+ tail ->
  name <> "" -> all_chars name_char name = true ->
  all_chars space_char sp1 = true ->
  In operator [ "=="; ">="; ">"; "<="; "<"; "!="; "~=" ] ->
  all_chars space_char sp2 = true ->
  ver <> "" -> all_chars version_char ver = true ->
  (operator = ">" \/ operator = "<" -> sp2 = "" -> stops (Ascii.eqb "=") ver = true) ->
  stops version_char tail = true -> all_chars any_char tail = true ->
  parseRequirementString requirement
  = inr (mkReq (toLowerCase name) operator (Some ver) (String.eqb operator "==")
           (trim requirement)).
Proof.
  intros Hin Hname Hn Hsp1 Hop Hsp2 Hver Hv Hnext Htail Hany.
  destruct (versioned_first name sp1 operator sp2 ver tail) as [tl Htl]; try done.
  unfold parseRequirementString. rewrite Hin, Htl. cbn [head].
  unfold constraint_of. cbn [default]. by destruct ver.
Qed.

Lemma well_formed_requirement_witness :
  parseRequirementString "  NumPy >= 1.19.0,<2.0.0 "
  = inr (mkReq "numpy" ">=" (Some "1.19.0") false "NumPy >= 1.19.0,<2.0.0").
Proof.
  apply (well_formed_requirement_parses "  NumPy >= 1.19.0,<2.0.0 "
           "NumPy" " " ">=" " " "1.19.0" ",<2.0.0");
    solve [ reflexivity | discriminate | simpl; tauto | intros [H | H]; discriminate H ].
Defined.

(** X17: a requirement written with [===] directly followed by its
    version is not parsed with the operator [===]: the operator is [==],
    the version starts with the third [=], and [fixed] is set. *)
Theorem triple_equals_parses_as_double
    (requirement name ver tail : string) :
  trim requirement = name +:+ "===" +:+ ver +:+ tail ->
  name <> "" -> all_chars name_char name = true ->
  all_chars version_char ver = true ->
  stops version_char tail = true -> all_chars any_char tail = true ->
  parseRequirementString requirement
  = inr (mkReq (toLowerCase name) "==" (Some ("=" +:+ ver)) true (trim requirement)).
Proof.
  intros Hin Hname Hn Hv Htail Hany.
  destruct (versioned_first name "" "==" "" (String "=" ver) tail) as [tl Htl];
    try done; [ simpl; tauto | by intros [H | H] | ].
  unfold parseRequirementString. rewrite Hin.
  change (name +:+ "===" +:+ ver +:+ tail)
    with (name +:+ "" +:+ "==" +:+ "" +:+ String "=" ver +:+ tail).
  by rewrite Htl.
Qed.

Lemma triple_equals_witness :
  parseRequirementString "pkg===1.0"
  = inr (mkReq "pkg" "==" (Some "=1.0") true "pkg===1.0").
Proof.
  apply (triple_equals_parses_as_double "pkg===1.0" "pkg" "1.0" "");
    solve [ reflexivity | discriminate ].
Defined.

(** X18: when the name is followed by text that starts neither with a
    blank nor with an operator character (extras in brackets, a marker,
    a comment), the parse succeeds through the second pattern: that text
    becomes the [operator] of the result, with no version and [fixed]
    unset. Unless the text is empty, [ResolutionRequestSchema] rejects
    such an operator. *)
Theorem unparsed_rest_becomes_operator (requirement name rest : string) :
  trim requirement = name +:+ rest ->
  name <> "" -> all_chars name_char name = true ->
  stops name_char rest = true -> stops space_char rest = true ->
  stops operator_start rest = true -> all_chars any_char rest = true ->
  parseRequirementString requirement
    = inr (mkReq (toLowerCase name) rest None false (trim requirement))
  /\ (rest <> "" ->
      z_operator (Some (JString rest))
      = inl invalid).
Proof.
  intros Hin Hname Hn Hrn Hrs Hro Hany.
  destruct (bare_only name rest) as [Hnone [tl Htl]]; try done.
  split.
  - unfold parseRequirementString. rewrite Hin, Hnone, Htl. cbn [head].
    unfold constraint_of. cbn [default truthy]. f_equal. f_equal.
    destruct rest as [ | c rest ]; [ done | ].
    simpl in Hro. revert Hro.
    destruct c as [[] [] [] [] [] [] [] []]; intros H; try discriminate H; reflexivity.
  - intros Hne. unfold z_operator. rewrite bool_decide_eq_false_2; [ done | ].
    destruct rest as [ | c rest ]; [ done | ]. simpl in Hro.
    unfold operators. rewrite !elem_of_cons, elem_of_nil.
    intros [H | [H | [H | [H | [H | [H | [H | [H | [H | []]]]]]]]]];
      try discriminate H; injection H as -> _; discriminate Hro.
Qed.

Lemma unparsed_rest_witness :
  parseRequirementString "Flask[async]>=2.0"
    = inr (mkReq "flask" "[async]>=2.0" None false "Flask[async]>=2.0")
  /\ ("[async]>=2.0" <> "" ->
      z_operator (Some (JString "[async]>=2.0"))
      = inl invalid).
Proof.
  apply (unparsed_rest_becomes_operator "Flask[async]>=2.0" "Flask" "[async]>=2.0");
    solve [ reflexivity | discriminate ].
Defined.

(** X19: a requirement that, once trimmed, is empty or starts with a
    character that cannot be in a name (a comment sign, a bracket, an
    operator) is rejected with "Invalid requirement format: <text>"; one
    that starts with a name character and holds no line terminator is
    always accepted. *)
Theorem requirement_accepted_by_first_character (requirement : string) :
  (stops name_char (trim requirement) = true ->
   parseRequirementString requirement
   = inl (JsError ("Invalid requirement format: " +:+ requirement)))
  /\ (stops name_char (trim requirement) = false ->
      all_chars any_char (trim requirement) = true ->
      exists c, parseRequirementString requirement = inr c).
Proof.
  unfold parseRequirementString. split.
  - intros Hstop.
    assert (plus name_char (trim requirement) = []) as Hplus.
    { destruct (trim requirement) as [ | a s ]; [ done | ].
      simpl in Hstop |- *. apply negb_true_iff in Hstop. by rewrite Hstop. }
    unfold versioned_pattern, bare_pattern. by rewrite Hplus.
  - intros Hstart Hany.
    destruct (head (versioned_pattern (trim requirement))) as [[[[n o] v] r] | ];
      [ by eexists | ].
    destruct (trim requirement) as [ | a s ]; [ done | ].
    simpl in Hstart. apply negb_false_iff in Hstart.
    simpl in Hany. apply andb_true_iff in Hany as [_ Hany].
    assert (exists m r tl, star name_char s = (m, r) :: tl) as (m & r & tl & Hstar).
    { destruct s as [ | b s ]; simpl; [ by do 3 eexists | ].
      destruct (name_char b); [ | by do 3 eexists ].
      destruct (star name_char s) as [ | [m r] tl ]; simpl; by do 3 eexists. }
    assert (all_chars any_char r = true) as Hr.
    { destruct (star_sound name_char s m r) as [Hs _]; [ rewrite Hstar; by left | ].
      rewrite Hs, all_chars_app in Hany. by apply andb_true_iff in Hany as [_ ?]. }
    destruct (star_first any_char r "" Hr eq_refl) as [tl2 H2]. rewrite app_empty_r in H2.
    unfold bare_pattern, plus. rewrite Hstart, Hstar. cbn [map flat_map]. rewrite H2.
    cbn [flat_map at_end truthy negb app head]. by eexists.
Qed.

(** X20: every accepted requirement has a non-empty, lower-case name
    made of name characters, carries the trimmed text as its
    [original_spec] (never empty), has [fixed] set exactly when its
    operator is [==], and never has an empty version. *)
Theorem parsed_requirement_invariants (requirement : string) (c : Requirement) :
  parseRequirementString requirement = inr c ->
  req_name c <> ""
  /\ all_chars name_char (req_name c) = true
  /\ toLowerCase (req_name c) = req_name c
  /\ req_original_spec c = trim requirement
  /\ req_original_spec c <> ""
  /\ (req_fixed c = true <-> req_operator c = "==")
  /\ req_version c <> Some "".
Proof.
  unfold parseRequirementString.
  assert (forall name operator version,
            name <> "" -> all_chars name_char name = true ->
            stops name_char (trim requirement) = false ->
            constraint_of name operator version (trim requirement) = c ->
            req_name c <> ""
            /\ all_chars name_char (req_name c) = true
            /\ toLowerCase (req_name c) = req_name c
            /\ req_original_spec c = trim requirement
            /\ req_original_spec c <> ""
            /\ (req_fixed c = true <-> req_operator c = "==")
            /\ req_version c <> Some "") as Hbuild.
  { intros name operator version Hne Hn Hstart <-. unfold constraint_of. simpl.
    split; [ by destruct name | ].
    split; [ by apply all_chars_lower | ].
    split; [ apply toLowerCase_idempotent | ].
    split; [ done | ].
    split; [ by destruct (trim requirement) | ].
    split; [ apply String.eqb_eq | ].
    by destruct (default "" version). }
  assert (forall name r1, In (name, r1) (plus name_char (trim requirement)) ->
                          stops name_char (trim requirement) = false) as Hstart.
  { intros name r1. destruct (trim requirement) as [ | a s ]; simpl; [ done | ].
    by destruct (name_char a). }
  destruct (head (versioned_pattern (trim requirement))) as [[[[n o] v] r] | ] eqn:Hv.
  - intros [= Hc]. apply head_In in Hv.
    destruct (versioned_groups _ _ _ _ _ Hv) as (Hne & Hn & _).
    eapply Hbuild; [ done | done | | exact Hc ].
    unfold versioned_pattern in Hv. apply in_flat_map in Hv as ([n' r1] & Hin & _).
    by eapply Hstart.
  - destruct (head (bare_pattern (trim requirement))) as [[n r] | ] eqn:Hb; [ | done ].
    intros [= Hc]. apply head_In in Hb.
    destruct (bare_groups _ _ _ Hb) as (Hne & Hn).
    eapply Hbuild; [ done | done | | exact Hc ].
    unfold bare_pattern in Hb. apply in_flat_map in Hb as ([n' r1] & Hin & _).
    by eapply Hstart.
Qed.

Lemma parsed_requirement_witness :
  req_name (mkReq "django" "==" (Some "3.2.5") true "Django==3.2.5") <> ""
  /\ all_chars name_char "django" = true
  /\ toLowerCase "django" = "django"
  /\ "Django==3.2.5" = trim " Django==3.2.5"
  /\ "Django==3.2.5" <> ""
  /\ (true = true <-> "==" = "==")
  /\ Some "3.2.5" <> Some "".
Proof.
  apply (parsed_requirement_invariants " Django==3.2.5"
           (mkReq "django" "==" (Some "3.2.5") true "Django==3.2.5")).
  reflexivity.
Defined.

End RequirementExtras.

(** * Properties of the registry lookup *)

Module RegistryFacts.
Import Js Tools Shared Requirements Registry StringFacts JsFacts.

Lemma or_else_truthy (a : option string) (b : string) :
  truthy b = true -> truthy (or_else a b) = true.
Proof. intros Hb. destruct a as [[ | c s] | ]; simpl; done. Qed.

(** The test on the name, in one piece. *)
Lemma name_required_test (package_name : string) :
  negb (truthy package_name) || (String.length (trim package_name) =? 0)%nat
  = negb (truthy (trim package_name)).
Proof.
  destruct package_name as [ | a s ]; [ reflexivity | ].
  by destruct (trim (String a s)).
Qed.

Lemma valid_entry_parts (cachedData : Json) :
  cache_entry_valid cachedData = true ->
  truthy_field (prop cachedData "success") = true
  /\ exists package latest_version,
       prop cachedData "package" = Some package
       /\ js_truthy package = true
       /\ prop package "latest_version" = Some latest_version
       /\ js_truthy latest_version = true.
Proof.
  unfold cache_entry_valid. intros H. apply andb_true_iff in H as [Hs H].
  split; [ done | ].
  destruct (prop cachedData "package") as [package | ]; [ | done ].
  apply andb_true_iff in H as [Hp H].
  destruct (prop package "latest_version") as [v | ] eqn:Hv; [ | done ].
  by exists package, v.
Qed.

(** An entry written with a time to live is read back until that time
    has passed. *)
Lemma kv_get_put clock written expirationTtl key text kv :
  (clock < written + expirationTtl)%Z ->
  kv_get clock (kv_put written expirationTtl key text kv) key = Some text.
Proof.
  intros Hlive. unfold kv_get, kv_put, live. rewrite lookup_insert_eq. cbn.
  by rewrite (proj2 (Z.ltb_lt _ _) Hlive).
Qed.

(** What the cache part returns at once is a valid entry read under
    the key, and the cache is left as it was. *)
Lemma consult_hit faults clock cacheKey kv cachedData kv' :
  consult faults clock cacheKey kv = (Some cachedData, kv') ->
  kv' = kv /\ kv_get clock kv cacheKey = Some (JsonText cachedData)
  /\ cache_entry_valid cachedData = true.
Proof.
  unfold consult. destruct (kv_get_rejects faults); [ done | ].
  destruct (kv_get clock kv cacheKey) as [[ | | d ] | ]; try done.
  destruct (cache_entry_valid d) eqn:Hvalid.
  - destruct d; try done; by intros [= <- <-].
  - destruct d; try done; by destruct (kv_delete_rejects faults).
Qed.

(** A valid entry that can be read is returned. *)
Lemma consult_valid faults clock cacheKey kv cachedData :
  kv_get_rejects faults = None ->
  kv_get clock kv cacheKey = Some (JsonText cachedData) ->
  cache_entry_valid cachedData = true ->
  consult faults clock cacheKey kv = (Some cachedData, kv).
Proof.
  intros Hget Hentry Hvalid. unfold consult. rewrite Hget, Hentry, Hvalid.
  by destruct cachedData.
Qed.

(** Otherwise the cache is left as it was or loses the entry under the
    key. *)
Lemma consult_miss faults clock cacheKey kv kv' :
  consult faults clock cacheKey kv = (None, kv') ->
  kv' = kv \/ kv' = delete cacheKey kv.
Proof.
  unfold consult. destruct (kv_get_rejects faults); [ by intros [= <-]; left | ].
  destruct (kv_get clock kv cacheKey) as [[ | | d ] | ]; try (by intros [= <-]; left).
  destruct d; try (by intros [= <-]; left);
    (destruct (cache_entry_valid _); [ done | ]);
    destruct (kv_delete_rejects faults); intros [= <-]; by auto.
Qed.

(** The cache part touches no other key and never adds an entry. *)
Lemma consult_frame faults clock cacheKey kv :
  (forall k, k <> cacheKey -> snd (consult faults clock cacheKey kv) !! k = kv !! k)
  /\ (snd (consult faults clock cacheKey kv) !! cacheKey = kv !! cacheKey
      \/ snd (consult faults clock cacheKey kv) !! cacheKey = None).
Proof.
  destruct (consult faults clock cacheKey kv) as [[d | ] kv'] eqn:Hc; cbn [snd].
  - apply consult_hit in Hc as (-> & _). by auto.
  - apply consult_miss in Hc as [-> | ->]; [ by auto | ].
    split; [ intros k Hk; by rewrite lookup_delete_ne | right; by rewrite lookup_delete_eq ].
Qed.

(** What the [catch] of the lookup gives for a caught value: a failure
    object, or the [TypeError] of reading the message of [null] or
    [undefined]. *)
Lemma lookup_caught_cases (e : Exn) :
  (is_nullish e = false /\ exists error, lookup_caught e = inr (failure error))
  \/ (is_nullish e = true /\ exists typeError,
        read_message e = inl typeError /\ lookup_caught e = inl typeError).
Proof.
  destruct e as [m | m | b]; [ left | left | right ]; (split; [ done | ]); by eexists.
Qed.

(** What is thrown by reading a message is an [Error]. *)
Lemma read_message_throws_error (e typeError : Exn) :
  read_message e = inl typeError -> exists message, typeError = JsError message.
Proof. destruct e as [m | m | b]; try done. intros [= <-]. by eexists. Qed.

Section Lookup.

Variable encodeURIComponent : string -> option string.
Variable getTime : string -> option Z.
Variable array_sort :
  (VersionEntry -> VersionEntry -> Z) -> list VersionEntry -> list VersionEntry.

Abbreviation packageInfo_of := (Registry.packageInfo_of getTime array_sort).
Abbreviation fresh_result := (Registry.fresh_result getTime array_sort).
Abbreviation pypiLookup := (Registry.pypiLookup encodeURIComponent getTime array_sort).

Lemma packageInfo_latest_version package_name include_versions pypiData :
  prop (packageInfo_of package_name include_versions pypiData) "latest_version"
  = Some (JString (or_else (document_info pypiData ≫= info_version) "Unknown")).
Proof.
  unfold Registry.packageInfo_of.
  destruct include_versions; [ destruct (document_releases pypiData) | ]; reflexivity.
Qed.

Lemma fresh_result_valid now package_name include_versions pypiData :
  cache_entry_valid (fresh_result now package_name include_versions pypiData) = true.
Proof.
  unfold cache_entry_valid.
  change (prop (fresh_result now package_name include_versions pypiData) "package")
    with (Some (packageInfo_of package_name include_versions pypiData)).
  cbv beta iota. rewrite packageInfo_latest_version. simpl. by apply or_else_truthy.
Qed.

Lemma fresh_result_view now package_name include_versions pypiData :
  as_lookup (fresh_result now package_name include_versions pypiData)
  = lookup_found (or_else (document_info pypiData ≫= info_version) "Unknown").
Proof.
  unfold as_lookup.
  change (prop (fresh_result now package_name include_versions pypiData) "package")
    with (Some (packageInfo_of package_name include_versions pypiData)).
  cbv beta iota. by rewrite packageInfo_latest_version.
Qed.

End Lookup.

(** Splits a call of [pypiLookup] into the paths of [execute]: a blank
    name, a cache hit, a rejected fetch, a rejected body, a document, a
    404, another status, and a name that cannot be encoded. *)
Ltac lookup_paths encode fetch kv :=
  unfold Registry.pypiLookup; rewrite name_required_test;
  match goal with
  | |- context [negb (truthy (trim ?n))] => destruct (negb (truthy (trim n))) eqn:Hblank
  end;
  [ | lazymatch goal with
      | |- context [consult ?f ?c ?key kv] =>
          destruct (consult f c key kv) as [[cachedData | ] kv1] eqn:Hconsult
      | _ => idtac
      end;
      [ .. | lazymatch goal with
             | |- context [encode ?n] =>
                 destruct (encode n) as [encoded | ] eqn:Hencode;
                 [ destruct (fetch ("https://pypi.org/pypi/" +:+ encoded +:+ "/json"))
                     as [thrown | response] eqn:Hfetch;
                   [ | destruct (http_ok response) eqn:Hok;
                       [ destruct (http_json response) as [thrown | pypiData] eqn:Hjson
                       | destruct (http_status response =? 404)%Z eqn:Hstatus ] ]
                 | ]
             end ] ];
  cbn [fst snd negb].

End RegistryFacts.

Module RegistryExtras.
Import Js Tools Shared Requirements Registry StringFacts JsFacts RegistryFacts.

Section Lookup.

Variable encodeURIComponent : string -> option string.
Variable getTime : string -> option Z.
Variable array_sort :
  (VersionEntry -> VersionEntry -> Z) -> list VersionEntry -> list VersionEntry.

Abbreviation fresh_result := (Registry.fresh_result getTime array_sort).
Abbreviation pypiLookup := (Registry.pypiLookup encodeURIComponent getTime array_sort).

(** X21: whatever the cache holds and whatever the network does, a
    lookup that returns gives either a failure object (success false,
    with an error text) or an object whose [success] is truthy and whose
    [package] has a truthy [latest_version]. A lookup throws only out of
    its [catch], the [TypeError] of reading the message of a caught
    [null] or [undefined]; when neither the fetch nor the reading of the
    body rejects with [null] or [undefined], the lookup returns. *)
Theorem lookup_fails_or_carries_latest_version
    (fetch : string -> Exn + HttpResponse) (faults : KvFaults) (clock : KvClock)
    (now package_name : string) (include_versions : bool) (cache : option Kv) :
  let outcome :=
    fst (pypiLookup fetch faults clock now package_name include_versions cache) in
  (forall result, outcome = inr result ->
     (exists error, result = failure error)
     \/ (truthy_field (prop result "success") = true
         /\ exists package latest_version,
              prop result "package" = Some package
              /\ js_truthy package = true
              /\ prop package "latest_version" = Some latest_version
              /\ js_truthy latest_version = true))
  /\ (forall typeError, outcome = inl typeError ->
        exists caught, is_nullish caught = true /\ read_message caught = inl typeError)
  /\ ((forall url e, fetch url = inl e -> is_nullish e = false) ->
      (forall url response e,
         fetch url = inr response -> http_json response = inl e -> is_nullish e = false) ->
      exists result, outcome = inr result).
Proof.
  cbv zeta.
  assert (forall (e : Exn) (kv' : option Kv),
            (forall result, lookup_caught e = inr result ->
               (exists error, result = failure error)
               \/ (truthy_field (prop result "success") = true
                   /\ exists package latest_version,
                        prop result "package" = Some package
                        /\ js_truthy package = true
                        /\ prop package "latest_version" = Some latest_version
                        /\ js_truthy latest_version = true))
            /\ (forall typeError, lookup_caught e = inl typeError ->
                  exists caught,
                    is_nullish caught = true /\ read_message caught = inl typeError)
            /\ (is_nullish e = false -> exists result, lookup_caught e = inr result))
    as Hcaught.
  { intros e _. destruct (lookup_caught_cases e) as [(Hn & error & ->) | (Hn & t & Hr & ->)].
    - split; [ intros result [= <-]; left; by eexists | ].
      split; [ done | intros _; by eexists ].
    - split; [ done | ]. split; [ intros ? [= <-]; by exists e | by rewrite Hn ]. }
  assert (forall result : Json,
            ((exists error, result = failure error)
             \/ (truthy_field (prop result "success") = true
                 /\ exists package latest_version,
                      prop result "package" = Some package
                      /\ js_truthy package = true
                      /\ prop package "latest_version" = Some latest_version
                      /\ js_truthy latest_version = true)) ->
            (forall result', @inr Exn Json result = inr result' ->
               (exists error, result' = failure error)
               \/ (truthy_field (prop result' "success") = true
                   /\ exists package latest_version,
                        prop result' "package" = Some package
                        /\ js_truthy package = true
                        /\ prop package "latest_version" = Some latest_version
                        /\ js_truthy latest_version = true))
            /\ (forall typeError, @inr Exn Json result = inl typeError ->
                  exists caught,
                    is_nullish caught = true /\ read_message caught = inl typeError)
            /\ ((forall url e, fetch url = inl e -> is_nullish e = false) ->
                (forall url response e,
                   fetch url = inr response -> http_json response = inl e ->
                   is_nullish e = false) ->
                exists result', @inr Exn Json result = inr result')) as Hreturned.
  { intros result Hshape. split; [ by intros ? [= <-] | ].
    split; [ done | intros _ _; by eexists ]. }
  destruct cache as [kv | ];
    lookup_paths encodeURIComponent fetch kv;
    try (apply Hreturned; left; by eexists);
    try (apply Hreturned; right; apply valid_entry_parts, fresh_result_valid).
  all: try (apply Hreturned; right; apply valid_entry_parts;
            by apply consult_hit in Hconsult as (_ & _ & ?)).
  all: destruct (Hcaught thrown None) as (H1 & H2 & H3) || destruct (Hcaught URIError None) as (H1 & H2 & H3).
  all: (split; [ exact H1 | ]; split; [ exact H2 | ]; intros Hf Hj; apply H3).
  all: try reflexivity.
  all: try (by eapply Hf).
  all: by eapply Hj.
Qed.

(** X22: once a lookup that was not served from the cache has
    succeeded on a cache that accepts the write, a lookup of the same
    name in any spelling (case, blanks around it), served less than 3600
    seconds after that write on the cache as the first lookup left it,
    returns the very same object and leaves the cache as it is, whatever
    the network answers then and whether or not versions are asked
    for. *)
Theorem cached_result_is_served_again
    (fetch1 fetch2 : string -> Exn + HttpResponse) (faults1 faults2 : KvFaults)
    (clock1 clock2 : KvClock)
    (now1 now2 name1 name2 : string) (include_versions1 include_versions2 : bool)
    (kv : Kv) (result : Json) :
  let first := pypiLookup fetch1 faults1 clock1 now1 name1 include_versions1 (Some kv) in
  fst first = inr result ->
  truthy_field (prop result "success") = true ->
  fst (consult faults1 (read_time clock1)
         (generatePackageKey (toLowerCase (trim name1))) kv) = None ->
  kv_put_rejects faults1 = None ->
  kv_get_rejects faults2 = None ->
  toLowerCase (trim name2) = toLowerCase (trim name1) ->
  (read_time clock2 < write_time clock1 + 3600)%Z ->
  pypiLookup fetch2 faults2 clock2 now2 name2 include_versions2 (snd first) = first.
Proof.
  cbv zeta. intros Hresult Hsuccess Hmiss Hput Hget Hname Hlive.
  assert (truthy (trim name1) = true -> truthy (trim name2) = true) as Hblank2.
  { destruct (trim name2); [ | done ]. by destruct (trim name1). }
  revert Hresult.
  lookup_paths encodeURIComponent fetch1 kv;
    try (intros [= <-]; done);
    try (unfold lookup_caught; destruct (read_message _); intros [= <-]; done).
  intros [= <-]. rewrite Hput.
  rewrite name_required_test, Hblank2, Hname; [ | by destruct (truthy (trim name1)) ].
  cbn [negb].
  rewrite (consult_valid _ _ _ _ (fresh_result now1 name1 include_versions1 pypiData)
             Hget); [ reflexivity | | apply fresh_result_valid ].
  by apply kv_get_put.
Qed.

(** X23: a lookup touches no cache entry but the one of its own cleaned
    name, and what it leaves there is what was there, nothing, or the
    successful result it returns, due to expire 3600 seconds after the
    write: a failure is never stored. A context without cache stays
    without. *)
Theorem lookup_stores_only_its_success
    (fetch : string -> Exn + HttpResponse) (faults : KvFaults) (clock : KvClock)
    (now package_name : string) (include_versions : bool) (kv : Kv) :
  let outcome := pypiLookup fetch faults clock now package_name include_versions (Some kv) in
  let cacheKey := generatePackageKey (toLowerCase (trim package_name)) in
  snd (pypiLookup fetch faults clock now package_name include_versions None) = None
  /\ exists kv',
       snd outcome = Some kv'
       /\ (forall k, k <> cacheKey -> kv' !! k = kv !! k)
       /\ (kv' !! cacheKey = kv !! cacheKey
           \/ kv' !! cacheKey = None
           \/ exists result,
                fst outcome = inr result
                /\ kv' !! cacheKey
                   = Some (mkEntry (JsonText result) (Some (write_time clock + 3600)%Z))
                /\ truthy_field (prop result "success") = true).
Proof.
  cbv zeta. split.
  { lookup_paths encodeURIComponent fetch kv; reflexivity. }
  pose proof (consult_frame faults (read_time clock)
                (generatePackageKey (toLowerCase (trim package_name))) kv)
    as [Hother Hkey].
  lookup_paths encodeURIComponent fetch kv; try (exists kv; by auto);
    rewrite ?Hconsult in Hother, Hkey; cbn [snd] in Hother, Hkey;
    try (exists kv1; split; [ reflexivity | ]; split; [ exact Hother | ];
         destruct Hkey; by auto).
  destruct (kv_put_rejects faults).
  - exists kv1. split; [ reflexivity | ]. split; [ exact Hother | ].
    destruct Hkey; by auto.
  - eexists. split; [ reflexivity | ]. unfold kv_put. split.
    + intros k Hk. rewrite lookup_insert_ne; [ by apply Hother | done ].
    + right; right. eexists. split; [ reflexivity | ].
      rewrite lookup_insert_eq. split; [ done | ].
      by apply valid_entry_parts, fresh_result_valid.
Qed.

(** X24: in a context without cache, the lookup made for a requirement
    whose document is fetched returns, and a resolution that sees this
    result gives the requirement the version [resolveVersion] chooses
    for the document's [info.version], or for "Unknown" when the
    document has none; without a requested version that is this very
    text, so the resolution tool's own fallback "unknown" is never
    used. *)
Theorem fetched_version_reaches_resolution
    (fetch : string -> Exn + HttpResponse) (faults : KvFaults) (clock : KvClock)
    (now : string) (req : Requirement) (encoded : string) (response : HttpResponse)
    (pypiData : PypiData) :
  let cleanName := trim (req_name req) in
  let latest := or_else (document_info pypiData ≫= info_version) "Unknown" in
  truthy cleanName = true ->
  member builtInDeprecated (toLowerCase cleanName) = Missing ->
  encodeURIComponent (toLowerCase cleanName) = Some encoded ->
  fetch ("https://pypi.org/pypi/" +:+ encoded +:+ "/json") = inr response ->
  http_ok response = true ->
  http_json response = inr pypiData ->
  exists result,
    fst (pypiLookup fetch faults clock now cleanName false None) = inr result
    /\ (forall pypi_lookup : string -> LookupResult,
          pypi_lookup cleanName = as_lookup result ->
          acc_resolved (contribution pypi_lookup req)
          = [ mkResolved cleanName (Some (resolveVersion req (lookup_found latest))) ])
    /\ (truthy_opt (req_version req) && truthy (req_operator req) = false ->
        resolveVersion req (lookup_found latest) = latest).
Proof.
  cbv zeta. intros Hname Hmiss Hencode Hfetch Hok Hjson.
  exists (fresh_result now (trim (req_name req)) false pypiData).
  split; [ | split ].
  - unfold Registry.pypiLookup.
    by rewrite name_required_test, !trim_idempotent, Hname, Hencode, Hfetch, Hok, Hjson.
  - intros pypi_lookup Hview. rewrite fresh_result_view in Hview.
    rewrite ResolutionClaims.contribution_found; [ by rewrite Hview | done | done | ].
    by rewrite Hview.
  - intros Hnone. unfold resolveVersion. rewrite Hnone.
    unfold latest_of, lookup_found. cbn [lookup_package latest_version or_else].
    by rewrite or_else_truthy.
Qed.

(** X25: in a context without cache, when the lookup made for a
    requirement returns a result whose [success] is not truthy, that
    result is a failure object, and in a resolution that sees it the
    requirement's only trace is the warning "Could not find package
    '<name>': <error>" with that object's error text; for a 404 answer
    the text is the not-found message with the trimmed name. *)
Theorem failed_lookup_text_reaches_warning
    (fetch : string -> Exn + HttpResponse) (faults : KvFaults) (clock : KvClock)
    (now : string) (req : Requirement) (result : Json) :
  let cleanName := trim (req_name req) in
  truthy cleanName = true ->
  member builtInDeprecated (toLowerCase cleanName) = Missing ->
  fst (pypiLookup fetch faults clock now cleanName false None) = inr result ->
  lookup_success (as_lookup result) = false ->
  exists error,
    result = failure error
    /\ (forall pypi_lookup : string -> LookupResult,
          pypi_lookup cleanName = as_lookup result ->
          contribution pypi_lookup req
          = mkAcc [] [] [ "Could not find package '" +:+ cleanName +:+ "': " +:+ error ])
    /\ (forall encoded response,
          encodeURIComponent (toLowerCase cleanName) = Some encoded ->
          fetch ("https://pypi.org/pypi/" +:+ encoded +:+ "/json") = inr response ->
          http_ok response = false -> http_status response = 404%Z ->
          error = "Package '" +:+ cleanName +:+
                  "' not found on PyPI. Check the spelling or try a different package name.").
Proof.
  cbv zeta. intros Hname Hmiss Hresult Hfail.
  assert (forall error, result = failure error ->
          forall pypi_lookup : string -> LookupResult,
            pypi_lookup (trim (req_name req)) = as_lookup result ->
            contribution pypi_lookup req
            = mkAcc [] []
                [ "Could not find package '" +:+ trim (req_name req) +:+ "': " +:+ error ])
    as Hwarn.
  { intros error -> pypi_lookup Hview.
    rewrite (ResolutionClaims.contribution_not_found _ req Hname Hmiss);
      by rewrite Hview. }
  revert Hresult. unfold Registry.pypiLookup.
  rewrite name_required_test, !trim_idempotent, Hname. cbn [negb].
  destruct (encodeURIComponent _) as [encoded | ] eqn:Hencode.
  - destruct (fetch _) as [thrown | response] eqn:Hfetch; cbn [fst].
    + destruct (lookup_caught_cases thrown) as [(_ & error & ->) | (_ & t & _ & ->)];
        [ | done ].
      intros [= <-]. exists error. split; [ done | ]. split; [ by apply Hwarn | ].
      intros encoded' response [= <-]. by rewrite Hfetch.
    + destruct (http_ok response) eqn:Hok; cbn [negb].
      * destruct (http_json response) as [thrown | pypiData]; cbn [fst].
        -- destruct (lookup_caught_cases thrown) as [(_ & error & ->) | (_ & t & _ & ->)];
             [ | done ].
           intros [= <-]. exists error. split; [ done | ]. split; [ by apply Hwarn | ].
           intros encoded' response' [= <-]. rewrite Hfetch. intros [= <-]. congruence.
        -- intros [= <-]. by rewrite fresh_result_view in Hfail.
      * destruct (http_status response =? 404)%Z eqn:Hstatus; cbn [fst]; intros [= <-];
          (eexists; split; [ reflexivity | ]; split; [ by apply Hwarn | ]);
          intros encoded' response' [= <-]; rewrite Hfetch; intros [= <-] _ H404;
          [ done | ].
        rewrite H404 in Hstatus. done.
  - cbn [fst]. intros [= <-]. eexists. split; [ reflexivity | ].
    split; [ by apply Hwarn | ]. by intros encoded response.
Qed.

End Lookup.

Lemma cached_result_witness :
  Registry.pypiLookup unreserved no_dates (@insertion_sort VersionEntry) offline kv_works
    within_the_hour "t1" "numpy" true
    (snd (Registry.pypiLookup unreserved no_dates (@insertion_sort VersionEntry) pypi_server
            kv_works first_call "t0" " NumPy " false (Some ∅)))
  = Registry.pypiLookup unreserved no_dates (@insertion_sort VersionEntry) pypi_server
      kv_works first_call "t0" " NumPy " false (Some ∅).
Proof.
  apply (cached_result_is_served_again unreserved no_dates (@insertion_sort VersionEntry)
           pypi_server offline kv_works kv_works first_call within_the_hour
           "t0" "t1" " NumPy " "numpy" false true ∅
           (Registry.fresh_result no_dates (@insertion_sort VersionEntry) "t0" " NumPy "
              false numpy_document));
    reflexivity.
Defined.

Lemma fetched_version_witness :
  exists result,
    fst (Registry.pypiLookup unreserved no_dates (@insertion_sort VersionEntry) pypi_server
           kv_works first_call "t0" (trim " Bare ") false None) = inr result
    /\ (forall pypi_lookup : string -> LookupResult,
          pypi_lookup (trim " Bare ") = as_lookup result ->
          acc_resolved (contribution pypi_lookup (mkReq " Bare " "" None false "bare"))
          = [ mkResolved (trim " Bare ")
                (Some (resolveVersion (mkReq " Bare " "" None false "bare")
                         (lookup_found "Unknown"))) ])
    /\ (truthy_opt None && truthy "" = false ->
        resolveVersion (mkReq " Bare " "" None false "bare") (lookup_found "Unknown")
        = "Unknown").
Proof.
  apply (fetched_version_reaches_resolution unreserved no_dates
           (@insertion_sort VersionEntry) pypi_server kv_works first_call "t0"
           (mkReq " Bare " "" None false "bare") "bare"
           (mkResponse true 200 "OK" (inr bare_document)) bare_document);
    reflexivity.
Defined.

Lemma failed_lookup_text_witness :
  exists error,
    failure ("Package '" +:+ "Nope" +:+
             "' not found on PyPI. Check the spelling or try a different package name.")
    = failure error
    /\ (forall pypi_lookup : string -> LookupResult,
          pypi_lookup (trim " Nope") = as_lookup
            (failure ("Package '" +:+ "Nope" +:+
                      "' not found on PyPI. Check the spelling or try a different package name.")) ->
          contribution pypi_lookup (mkReq " Nope" "" None false "Nope")
          = mkAcc [] [] [ "Could not find package '" +:+ trim " Nope" +:+ "': " +:+ error ])
    /\ (forall encoded response,
          unreserved (toLowerCase (trim " Nope")) = Some encoded ->
          pypi_server ("https://pypi.org/pypi/" +:+ encoded +:+ "/json") = inr response ->
          http_ok response = false -> http_status response = 404%Z ->
          error = "Package '" +:+ trim " Nope" +:+
                  "' not found on PyPI. Check the spelling or try a different package name.").
Proof.
  apply (failed_lookup_text_reaches_warning unreserved no_dates
           (@insertion_sort VersionEntry) pypi_server kv_works first_call "t0"
           (mkReq " Nope" "" None false "Nope")
           (failure ("Package '" +:+ "Nope" +:+
                     "' not found on PyPI. Check the spelling or try a different package name.")));
    reflexivity.
Defined.

End RegistryExtras.

(** * Properties of the research and deprecation pass of the agent *)

Module PipelineExtras.
Import Js Tools Shared Agent Scenarios ResearchScenarios StringFacts ResolutionFacts
  ResolutionExtras AgentFacts.

Section WithEnvironment.

Variable pypi_lookup : string -> LookupResult.
Variable localeCompare : string -> string -> Z.
Variable research_body : string -> string + Research.
Variable ZodError_message : Json -> string.

Abbreviation researchPackage := (Agent.researchPackage research_body).
Abbreviation researchMultiplePackages := (Agent.researchMultiplePackages research_body).
Abbreviation resolutionOutcome := (Agent.resolutionOutcome pypi_lookup research_body).
Abbreviation compiledReport := (Agent.compiledReport localeCompare).

Lemma research_fold (packageNames : list string) :
  forall (results : gmap string Research) (n : string),
    fold_left (fun results packageName =>
                 <[ packageName := researchPackage packageName ]> results)
              packageNames results !! n
    = if bool_decide (n ∈ packageNames) then Some (researchPackage n) else results !! n.
Proof.
  induction packageNames as [ | p rest IH ]; intros results n; [ done | ].
  cbn [fold_left]. rewrite IH.
  destruct (bool_decide (n ∈ rest)) eqn:Hrest.
  - apply bool_decide_eq_true in Hrest.
    rewrite bool_decide_eq_true_2; [ done | by right ].
  - apply bool_decide_eq_false in Hrest.
    destruct (decide (n = p)) as [-> | Hne].
    + rewrite bool_decide_eq_true_2; [ | by left ]. by rewrite lookup_insert_eq.
    + rewrite bool_decide_eq_false_2; [ by rewrite lookup_insert_ne | ].
      by intros [ | ]%elem_of_cons.
Qed.

(** What the deprecation pass appends. *)
Lemma researchDeprecated_fold (researchResults : gmap string Research)
    (pkgs : list ResolvedPackage) :
  forall (acc : list DeprecatedPackage) (d : DeprecatedPackage),
    In d (fold_left
            (fun deprecatedPackages pkg =>
               match researchResults !! pkg_name pkg with
               | Some (Researched (Some analysis)) =>
                   if is_deprecated analysis then
                     deprecatedPackages ++
                       [ mkDeprecated (pkg_name pkg) (pkg_version pkg)
                           (String.concat "; " (evidence analysis))
                           (head (alternatives analysis)) ]
                   else deprecatedPackages
               | _ => deprecatedPackages
               end)
            pkgs acc) ->
    In d acc
    \/ exists pkg analysis,
         In pkg pkgs
         /\ researchResults !! pkg_name pkg = Some (Researched (Some analysis))
         /\ is_deprecated analysis = true
         /\ d = mkDeprecated (pkg_name pkg) (pkg_version pkg)
                  (String.concat "; " (evidence analysis)) (head (alternatives analysis)).
Proof.
  induction pkgs as [ | pkg rest IH ]; intros acc d; [ by left | ].
  cbn [fold_left]. intros Hd. apply IH in Hd as [Hd | (p & a & Hp & Hr & Ha & ->)].
  - destruct (researchResults !! pkg_name pkg) as [[ | [analysis | ]] | ] eqn:Hr;
      try (by left).
    destruct (is_deprecated analysis) eqn:Ha; [ | by left ].
    apply in_app_iff in Hd as [Hd | [<- | []]]; [ by left | ].
    right. exists pkg, analysis. by repeat split; try left.
  - right. exists p, a. by repeat split; try right.
Qed.

Lemma processAll_deprecated_resolved (reqs : list Requirement) (d : DeprecatedPackage) :
  In d (acc_deprecated (processAll pypi_lookup reqs)) ->
  In (mkResolved (dep_name d) (dep_version d)) (acc_resolved (processAll pypi_lookup reqs)).
Proof.
  induction reqs as [ | req reqs IH ]; [ done | ].
  rewrite processAll_cons. simpl. rewrite !in_app_iff.
  intros [Hd | Hd]; [ left; by apply contribution_deprecated_resolved | right; by apply IH ].
Qed.

(** The deprecation pass changes no member of the result but
    [deprecated_packages]. *)
Lemma enhance_keeps researchResults resolutionResult :
  success (enhance researchResults resolutionResult) = success resolutionResult
  /\ resolved_packages (enhance researchResults resolutionResult)
     = resolved_packages resolutionResult
  /\ conflicts (enhance researchResults resolutionResult) = conflicts resolutionResult
  /\ error (enhance researchResults resolutionResult) = error resolutionResult
  /\ warnings (enhance researchResults resolutionResult) = warnings resolutionResult.
Proof.
  unfold enhance. destruct (resolved_packages resolutionResult) eqn:Hr; [ | done ].
  by destruct (0 <? length _)%nat.
Qed.

Lemma enhance_deprecated researchResults resolutionResult d :
  In d (field_list (deprecated_packages (enhance researchResults resolutionResult))) ->
  In d (field_list (deprecated_packages resolutionResult))
  \/ In d (researchDeprecated researchResults
             (field_list (resolved_packages resolutionResult))).
Proof.
  unfold enhance. destruct (resolved_packages resolutionResult) as [pkgs | ]; [ | by left ].
  destruct (0 <? length _)%nat; [ by right | by left ].
Qed.

Lemma researchDeprecated_length (researchResults : gmap string Research)
    (pkgs : list ResolvedPackage) :
  length (researchDeprecated researchResults pkgs) <= length pkgs.
Proof.
  unfold researchDeprecated.
  enough (forall acc,
            length (fold_left
                      (fun deprecatedPackages pkg =>
                         match researchResults !! pkg_name pkg with
                         | Some (Researched (Some analysis)) =>
                             if is_deprecated analysis then
                               deprecatedPackages ++
                                 [ mkDeprecated (pkg_name pkg) (pkg_version pkg)
                                     (String.concat "; " (evidence analysis))
                                     (head (alternatives analysis)) ]
                             else deprecatedPackages
                         | _ => deprecatedPackages
                         end)
                      pkgs acc)
            <= length acc + length pkgs) as H by apply (H []).
  induction pkgs as [ | pkg rest IH ]; intros acc; cbn [fold_left length]; [ lia | ].
  etransitivity; [ apply IH | ].
  destruct (researchResults !! pkg_name pkg) as [[ | [analysis | ]] | ]; try lia.
  destruct (is_deprecated analysis); [ rewrite length_app; simpl | ]; lia.
Qed.

Lemma enhance_deprecated_le researchResults resolutionResult :
  length (field_list (deprecated_packages resolutionResult))
    <= length (field_list (resolved_packages resolutionResult)) ->
  length (field_list (deprecated_packages (enhance researchResults resolutionResult)))
    <= length (field_list (resolved_packages resolutionResult)).
Proof.
  unfold enhance. destruct (resolved_packages resolutionResult) as [pkgs | ]; [ | done ].
  destruct (0 <? length _)%nat; [ | done ].
  intros _. apply researchDeprecated_length.
Qed.

(** Research results are kept under the requirement names exactly
    as submitted: a name has an entry exactly when it is one of them, and
    the entry is what researching that name gives. *)
Theorem research_is_keyed_by_submitted_names (packageNames : list string) (n : string) :
  researchMultiplePackages packageNames !! n
  = if bool_decide (n ∈ packageNames) then Some (researchPackage n) else None.
Proof.
  unfold Agent.researchMultiplePackages. rewrite research_fold.
  destruct (bool_decide (n ∈ packageNames)); [ done | apply lookup_empty ].
Qed.

(** X27: every entry the agent's deprecation pass produces stands for a
    resolved package whose name is, character for character, one of the
    submitted requirement names, and whose research returned a
    deprecation analysis flagged deprecated; the entry's reason is the
    analysis's evidence joined by "; " and its alternative the first
    one listed. A package resolved under a trimmed name that differs
    from every submitted name is therefore never flagged by this
    pass. *)
Theorem agent_flags_stem_from_research
    (packageNames : list string) (pkgs : list ResolvedPackage) (d : DeprecatedPackage) :
  In d (researchDeprecated (researchMultiplePackages packageNames) pkgs) ->
  dep_name d ∈ packageNames
  /\ In (mkResolved (dep_name d) (dep_version d)) pkgs
  /\ exists analysis,
       research_body (dep_name d) = inr (Researched (Some analysis))
       /\ is_deprecated analysis = true
       /\ dep_reason d = String.concat "; " (evidence analysis)
       /\ dep_suggested_alternative d = head (alternatives analysis).
Proof.
  intros Hd. apply researchDeprecated_fold in Hd as [[] | (pkg & a & Hp & Hr & Ha & ->)].
  unfold Agent.researchMultiplePackages in Hr. rewrite research_fold in Hr.
  cbn [dep_name dep_version dep_reason dep_suggested_alternative].
  destruct (bool_decide (pkg_name pkg ∈ packageNames)) eqn:Hin;
    [ | by rewrite lookup_empty in Hr ].
  apply bool_decide_eq_true in Hin. split; [ done | ].
  split; [ by destruct pkg | ].
  exists a. unfold Agent.researchPackage in Hr.
  destruct (research_body (pkg_name pkg)) as [e | r]; [ done | ].
  injection Hr as ->. done.
Qed.

(** X28: in what [resolveDependencies] returns, every deprecated entry
    stands for a resolved package of the same result with the same name
    and version, whether the entry comes from the resolution tool or
    from the agent's own pass. *)
Theorem pipeline_deprecated_entries_are_resolved
    (throws : option Exn) (request : ResolutionRequest) (d : DeprecatedPackage) :
  let r := resolutionOutcome throws request in
  In d (field_list (deprecated_packages r)) ->
  In (mkResolved (dep_name d) (dep_version d)) (field_list (resolved_packages r)).
Proof.
  cbv zeta. unfold Agent.resolutionOutcome. destruct throws as [e | ]; [ done | ].
  destruct (enhance_keeps
              (researchMultiplePackages (map req_name (requirements request)))
              (dependencyResolution pypi_lookup (requirements request)))
    as (_ & -> & _).
  intros [Hd | Hd]%enhance_deprecated.
  - revert Hd. rewrite result_resolved, result_deprecated.
    apply processAll_deprecated_resolved.
  - apply researchDeprecated_fold in Hd as [[] | (pkg & a & Hp & _ & _ & ->)]. by destruct pkg.
Qed.

(** X29: in every compiled report, [total_packages] is the number of
    submitted requirements, [conflict_count] is at most 1, and
    [deprecated_count] is at most the number of resolved packages; when
    resolution did not throw, the resolved packages and the warnings
    together number [total_packages]. *)
Theorem report_metadata_is_bounded
    (reportId now : string) (throws : option Exn) (request : ResolutionRequest) :
  let r := resolutionOutcome throws request in
  let m := metadata (compiledReport reportId now request r) in
  total_packages m = length (requirements request)
  /\ conflict_count m <= 1
  /\ deprecated_count m <= length (field_list (resolved_packages r))
  /\ (throws = None ->
      length (field_list (resolved_packages r)) + length (field_list (warnings r))
      = total_packages m).
Proof.
  cbv zeta. unfold Agent.compiledReport, Agent.resolutionOutcome.
  cbn [metadata total_packages conflict_count deprecated_count].
  split; [ reflexivity | ]. destruct throws as [e | ].
  { unfold field_list. simpl. split; [ lia | ]. split; [ lia | done ]. }
  pose proof (enhance_keeps
                (researchMultiplePackages (map req_name (requirements request)))
                (dependencyResolution pypi_lookup (requirements request)))
    as (_ & Hres & Hconf & _ & Hwarn).
  rewrite Hres, Hconf, Hwarn, result_conflicts. split; [ apply detectConflicts_length | ].
  split.
  - apply enhance_deprecated_le. rewrite result_resolved, result_deprecated.
    apply processAll_deprecated_le.
  - intros _. rewrite result_resolved, result_warnings. clear Hres Hconf Hwarn.
    induction (requirements request) as [ | req reqs IH ]; [ done | ].
    rewrite processAll_cons. simpl. rewrite !length_app.
    pose proof (contribution_one pypi_lookup req). lia.
Qed.

End WithEnvironment.

Lemma agent_flags_witness :
  "nose" ∈ [ "numpy"; "nose" ]
  /\ In (mkResolved "nose" (Some "1.3.7")) [ mkResolved "nose" (Some "1.3.7") ]
  /\ exists analysis,
       nose_research "nose" = inr (Researched (Some analysis))
       /\ is_deprecated analysis = true
       /\ "Known deprecated package in database" = String.concat "; " (evidence analysis)
       /\ Some "pytest" = head (alternatives analysis).
Proof.
  apply (agent_flags_stem_from_research nose_research [ "numpy"; "nose" ]
           [ mkResolved "nose" (Some "1.3.7") ]
           (mkDeprecated "nose" (Some "1.3.7") "Known deprecated package in database"
              (Some "pytest"))).
  vm_compute. by left.
Defined.

Lemma pipeline_deprecated_witness :
  In (mkResolved "nose" (Some "1.3.7"))
     (field_list
        (resolved_packages
           (Agent.resolutionOutcome registry nose_research None
              (mkRequest [ numpy_any; nose_any ] "3.9" false true true true)))).
Proof.
  apply (pipeline_deprecated_entries_are_resolved registry nose_research None
           (mkRequest [ numpy_any; nose_any ] "3.9" false true true true)
           (mkDeprecated "nose" (Some "1.3.7") "Known deprecated package in database"
              (Some "pytest"))).
  vm_compute. by left.
Defined.

(** The agent's pass replaces what the resolution tool flagged: for
    [nose] submitted as such the stored reason is the research
    evidence; submitted with blanks around it, research is kept under
    the padded name, the pass finds nothing, and the tool's reason
    stays. *)
Example padded_name_escapes_the_agent_pass :
  deprecated_packages
    (Agent.resolutionOutcome registry nose_research None
       (mkRequest [ nose_any ] "3.9" false true true true))
  = Some [ mkDeprecated "nose" (Some "1.3.7") "Known deprecated package in database"
             (Some "pytest") ]
  /\ deprecated_packages
       (Agent.resolutionOutcome registry nose_research None
          (mkRequest [ nose_padded ] "3.9" false true true true))
     = Some [ mkDeprecated "nose" (Some "1.3.7")
                "Nose has been in maintenance mode for several years and is not compatible with Python 3.10+"
                (Some "pytest") ].
Proof. split; by vm_compute. Qed.

End PipelineExtras.

(** * From the form to the agent *)

Module FormExtras.
Import Js Tools Shared Requirements Form StringFacts JsFacts.

(** The schema reads a serialized constraint back as it was, unless its
    operator is none of the schema's. *)
Lemma constraint_round_trip (c : Requirement) :
  DependencyConstraintSchema_parse (constraint_json c)
  = if bool_decide (req_operator c ∈ operators) then inr c
    else inl invalid.
Proof.
  destruct c as [name operator [version | ] fixed original_spec];
    unfold DependencyConstraintSchema_parse, constraint_json;
    cbn [req_name req_operator req_version req_fixed req_original_spec app];
    unfold get_field; cbn [rev app own_entry String.eqb Ascii.eqb Bool.eqb];
    cbn [z_string parse_bind z_operator];
    by destruct (bool_decide (operator ∈ operators)).
Qed.

Lemma constraints_round_trip (constraints : list Requirement) :
  z_array DependencyConstraintSchema_parse (map constraint_json constraints)
  = if forallb (fun c => bool_decide (req_operator c ∈ operators)) constraints
    then inr constraints
    else inl invalid.
Proof.
  induction constraints as [ | c rest IH ]; [ done | ].
  cbn [map z_array forallb]. rewrite constraint_round_trip, IH.
  destruct (bool_decide (req_operator c ∈ operators)); [ | done ].
  by destruct (forallb _ rest).
Qed.

Lemma parse_each_Forall2 (lines : list string) :
  forall constraints,
    parse_each lines = inr constraints ->
    Forall2 (fun line c => parseRequirementString line = inr c) lines constraints.
Proof.
  induction lines as [ | line rest IH ]; intros constraints; simpl.
  - intros [= <-]. constructor.
  - destruct (parseRequirementString line) as [e | c] eqn:Hline; [ done | ].
    destruct (parse_each rest) as [e | cs]; [ done | ].
    intros [= <-]. constructor; [ done | by apply IH ].
Qed.

Lemma parsed_original_spec (requirement : string) (c : Requirement) :
  parseRequirementString requirement = inr c -> req_original_spec c = trim requirement.
Proof.
  unfold parseRequirementString.
  destruct (head (versioned_pattern _)) as [[[[n o] v] r] | ]; [ by intros [= <-] | ].
  destruct (head (bare_pattern _)) as [[n r] | ]; [ by intros [= <-] | done ].
Qed.

(** X30: the request the form builds holds one constraint for each line
    that is neither blank nor a comment, parsed from the trimmed line
    and carrying it as [original_spec], with [prefer_stable] and
    [suggest_alternatives] set; serialized and parsed by the agent's
    schema it comes back unchanged when every operator is one of the
    schema's, and is rejected for its operator otherwise. *)
Theorem form_request_reaches_agent
    (text pythonVersion : string) (allowPrereleases excludeDeprecated : bool)
    (request : ResolutionRequest) :
  handleSubmit text pythonVersion allowPrereleases excludeDeprecated = inr request ->
  Forall2 (fun line c => parseRequirementString line = inr c /\ req_original_spec c = line)
    (List.filter kept (map trim (split_lines text))) (requirements request)
  /\ prefer_stable request = true
  /\ suggest_alternatives request = true
  /\ ResolutionRequestSchema_parse (request_json request)
     = if forallb (fun c => bool_decide (req_operator c ∈ operators)) (requirements request)
       then inr request
       else inl invalid.
Proof.
  unfold handleSubmit, parsedRequirements.
  destruct (parse_each _) as [e | parsed] eqn:Hparsed; [ done | ]. intros [= <-].
  cbn [requirements prefer_stable suggest_alternatives]. split; [ | split; [ done | split; [ done | ] ] ].
  - apply parse_each_Forall2 in Hparsed.
    assert (Forall (fun line => trim line = line)
              (List.filter kept (map trim (split_lines text)))) as Htrimmed.
    { apply List.Forall_forall. intros line [Hin _]%filter_In.
      apply in_map_iff in Hin as (raw & <- & _). apply trim_idempotent. }
    revert Htrimmed. induction Hparsed as [ | line c lines cs Hline _ IH ];
      intros Htrimmed; [ constructor | ].
    apply Forall_cons in Htrimmed as [Hl Hrest].
    constructor; [ | by apply IH ].
    split; [ done | ]. by rewrite (parsed_original_spec _ _ Hline).
  - unfold ResolutionRequestSchema_parse, request_json.
    cbn [requirements python_version allow_prereleases prefer_stable exclude_deprecated
         suggest_alternatives].
    unfold get_field; cbn [rev app own_entry String.eqb Ascii.eqb Bool.eqb].
    rewrite constraints_round_trip.
    by destruct (forallb _ parsed).
Qed.

Lemma form_request_witness :
  Forall2 (fun line c => parseRequirementString line = inr c /\ req_original_spec c = line)
    (List.filter kept (map trim (split_lines initial_text))) (requirements initial_request)
  /\ prefer_stable initial_request = true
  /\ suggest_alternatives initial_request = true
  /\ ResolutionRequestSchema_parse (request_json initial_request)
     = if forallb (fun c => bool_decide (req_operator c ∈ operators))
            (requirements initial_request)
       then inr initial_request
       else inl invalid.
Proof.
  apply (form_request_reaches_agent initial_text "3.9" false true initial_request).
  reflexivity.
Defined.

End FormExtras.

(** * Properties of package research *)

Module ResearchExtras.
Import Js Tools Shared Requirements Registry Agent Scenarios ResearchScenarios
  PackageResearch StringFacts JsFacts
  ResolutionFacts RegistryFacts PipelineExtras.

Section Service.

Variable encodeURIComponent : string -> option string.
Variable getTime : string -> option Z.
Variable array_sort :
  (VersionEntry -> VersionEntry -> Z) -> list VersionEntry -> list VersionEntry.
Variable fetch : string -> Exn + HttpResponse.
Variable search_url : string -> string -> string -> string -> string.
Variable fetch_search : string -> Exn + SearchResponse.

Abbreviation pypiLookup := (Registry.pypiLookup encodeURIComponent getTime array_sort fetch).
Abbreviation search_caught := (PackageResearch.search_caught encodeURIComponent).
Abbreviation webSearch := (PackageResearch.webSearch encodeURIComponent search_url fetch_search).
Abbreviation research_after_lookup :=
  (PackageResearch.research_after_lookup encodeURIComponent search_url fetch_search).
Abbreviation researchPackage_try :=
  (PackageResearch.researchPackage_try encodeURIComponent getTime array_sort fetch
     search_url fetch_search).
Abbreviation research_body_of :=
  (PackageResearch.research_body_of encodeURIComponent getTime array_sort fetch
     search_url fetch_search).

(** Every result of the lookup is an object. *)
Lemma lookup_returns_object faults clock now package_name include_versions cache result :
  fst (pypiLookup faults clock now package_name include_versions cache) = inr result ->
  exists fields, result = JObject fields.
Proof.
  destruct cache as [kv | ]; lookup_paths encodeURIComponent fetch kv;
    try (intros [= <-]; by eexists);
    try (unfold lookup_caught; destruct (read_message _); intros [= <-]; by eexists).
  apply consult_hit in Hconsult as (_ & _ & Hvalid). intros [= <-].
  apply valid_entry_parts in Hvalid as [Hsuccess _].
  destruct cachedData; try done. by eexists.
Qed.

(** What the lookup throws is an [Error]. *)
Lemma lookup_throws_error faults clock now package_name include_versions cache e :
  fst (pypiLookup faults clock now package_name include_versions cache) = inl e ->
  exists message, e = JsError message.
Proof.
  destruct cache as [kv | ]; lookup_paths encodeURIComponent fetch kv; try done;
    unfold lookup_caught; (destruct (read_message _) as [t | m] eqn:Hr; [ | done ]);
    intros [= <-]; by eapply read_message_throws_error.
Qed.

(** When nothing it awaits rejects with [null] or [undefined] and the
    name can be encoded, the lookup returns. *)
Lemma lookup_returns faults clock now package_name include_versions cache :
  (forall text, is_Some (encodeURIComponent text)) ->
  (forall url e, fetch url = inl e -> is_nullish e = false) ->
  (forall url response e,
     fetch url = inr response -> http_json response = inl e -> is_nullish e = false) ->
  exists result,
    fst (pypiLookup faults clock now package_name include_versions cache) = inr result.
Proof.
  intros Hencoded Hf Hj.
  destruct cache as [kv | ]; lookup_paths encodeURIComponent fetch kv; try (by eexists).
  all: try (destruct (Hencoded (toLowerCase (trim package_name))) as [? He]; congruence).
  all: destruct (lookup_caught_cases thrown) as [(_ & error & ->) | (Hn & _)];
    [ by eexists | ].
  all: try (by rewrite (Hf _ _ Hfetch) in Hn).
  all: by rewrite (Hj _ _ _ Hfetch Hjson) in Hn.
Qed.

Lemma search_caught_throws_error query e typeError :
  search_caught query e = inl typeError -> exists message, typeError = JsError message.
Proof.
  unfold PackageResearch.search_caught.
  destruct (read_message e) as [t | m] eqn:Hr.
  - intros [= <-]. by eapply read_message_throws_error.
  - destruct (encodeURIComponent query); [ done | ]. intros [= <-]. by eexists.
Qed.

Lemma search_caught_returns_failure query e result :
  search_caught query e = inr result ->
  exists fields,
    result = JObject fields
    /\ bool_decide (is_Some (get_field fields "error"))
       = negb (truthy_field (get_field fields "success")).
Proof.
  unfold PackageResearch.search_caught.
  destruct (read_message e) as [t | m]; [ done | ].
  destruct (encodeURIComponent query); [ | done ]. intros [= <-]. by eexists.
Qed.

(** What the search throws is an [Error]. *)
Lemma search_throws_error env query package_name max_results e :
  webSearch env query package_name max_results = inl e -> exists message, e = JsError message.
Proof.
  unfold PackageResearch.webSearch.
  destruct (negb (truthy_opt (env ≫= GOOGLE_SEARCH_API_KEY)) || _).
  - destruct (encodeURIComponent query); [ | intros [= <-]; by eexists ].
    destruct (truthy_opt package_name); [ | done ].
    destruct (encodeURIComponent _); [ done | intros [= <-]; by eexists ].
  - destruct (fetch_search _) as [thrown | response];
      [ apply search_caught_throws_error | ].
    destruct (negb (search_ok response)); [ apply search_caught_throws_error | ].
    destruct (search_json response) as [thrown | searchData];
      [ apply search_caught_throws_error | done ].
Qed.

(** A search result is an object that has an [error] member exactly
    when its [success] is false. *)
Lemma search_error_iff_failed env query package_name max_results result :
  webSearch env query package_name max_results = inr result ->
  exists fields,
    result = JObject fields
    /\ bool_decide (is_Some (get_field fields "error"))
       = negb (truthy_field (get_field fields "success")).
Proof.
  unfold PackageResearch.webSearch.
  destruct (negb (truthy_opt (env ≫= GOOGLE_SEARCH_API_KEY)) || _).
  - destruct (encodeURIComponent query); [ | done ].
    destruct (truthy_opt package_name); [ | intros [= <-]; by eexists ].
    destruct (encodeURIComponent _); [ intros [= <-]; by eexists | done ].
  - destruct (fetch_search _) as [thrown | response];
      [ apply search_caught_returns_failure | ].
    destruct (negb (search_ok response)); [ apply search_caught_returns_failure | ].
    destruct (search_json response) as [thrown | searchData];
      [ apply search_caught_returns_failure | ].
    intros [= <-]. by eexists.
Qed.

(** Without both search settings the search makes no request: it
    throws or fails. *)
Lemma search_unconfigured_fails env query package_name max_results result :
  negb (truthy_opt (env ≫= GOOGLE_SEARCH_API_KEY))
  || negb (truthy_opt (env ≫= GOOGLE_SEARCH_ENGINE_ID)) = true ->
  webSearch env query package_name max_results = inr result ->
  exists fields,
    result = JObject fields
    /\ bool_decide (is_Some (get_field fields "error")) = true.
Proof.
  intros Hno. unfold PackageResearch.webSearch. rewrite Hno.
  destruct (encodeURIComponent query); [ | done ].
  destruct (truthy_opt package_name); [ | intros [= <-]; by eexists ].
  destruct (encodeURIComponent _); [ intros [= <-]; by eexists | done ].
Qed.

(** When nothing it awaits rejects with [null] or [undefined] and the
    texts can be encoded, the search returns. *)
Lemma search_returns env query package_name max_results :
  (forall text, is_Some (encodeURIComponent text)) ->
  (forall url e, fetch_search url = inl e -> is_nullish e = false) ->
  (forall url response e,
     fetch_search url = inr response -> search_json response = inl e ->
     is_nullish e = false) ->
  exists result, webSearch env query package_name max_results = inr result.
Proof.
  intros Hencoded Hf Hj.
  assert (forall e, is_nullish e = false -> exists result, search_caught query e = inr result)
    as Hcaught.
  { intros e He. unfold PackageResearch.search_caught.
    destruct e as [m | m | b]; [ | | done ]; cbn [read_message];
      destruct (Hencoded query) as [q ->]; by eexists. }
  unfold PackageResearch.webSearch.
  destruct (negb (truthy_opt (env ≫= GOOGLE_SEARCH_API_KEY)) || _).
  - destruct (Hencoded query) as [q ->].
    destruct (truthy_opt package_name); [ | by eexists ].
    destruct (Hencoded (default "" package_name)) as [n ->]. by eexists.
  - destruct (fetch_search _) as [thrown | response] eqn:Hfetch;
      [ by eapply Hcaught, Hf | ].
    destruct (negb (search_ok response)); [ by apply Hcaught | ].
    destruct (search_json response) as [thrown | searchData] eqn:Hjson;
      [ by eapply Hcaught, Hj | by eexists ].
Qed.

(** Whether the analysis is asked for, on two objects. *)
Lemma both_without_error_objects (info search : list (string * Json)) :
  both_without_error (JObject info) (JObject search)
  = inr (match get_field info "error", get_field search "error" with
         | None, None => true
         | _, _ => false
         end).
Proof.
  unfold both_without_error. cbn [has_member].
  destruct (get_field info "error") as [e | ].
  - by rewrite bool_decide_eq_true_2; [ | by eexists ].
  - rewrite bool_decide_eq_false_2; [ | by intros [? ?] ].
    destruct (get_field search "error") as [e | ].
    + by rewrite bool_decide_eq_true_2; [ | by eexists ].
    + by rewrite bool_decide_eq_false_2; [ | by intros [? ?] ].
Qed.

(** What the [try] block throws is an [Error]. *)
Lemma research_throws_error env faults clock now packageName cache e :
  fst (researchPackage_try env faults clock now packageName cache) = inl e ->
  exists message, e = JsError message.
Proof.
  unfold PackageResearch.researchPackage_try.
  destruct (pypiLookup faults clock now packageName true cache) as [[thrown | pypiInfo] cache']
    eqn:Hlookup; cbn [fst].
  - intros [= <-].
    apply (lookup_throws_error faults clock now packageName true cache). by rewrite Hlookup.
  - destruct (lookup_returns_object faults clock now packageName true cache pypiInfo)
      as [info ->]; [ by rewrite Hlookup | ].
    unfold PackageResearch.research_after_lookup.
    destruct (webSearch env (packageName +:+ " python package deprecated unmaintained")
                (Some packageName) None) as [thrown | deprecationSearch] eqn:Hsearch;
      [ intros [= <-]; by eapply search_throws_error | ].
    destruct (webSearch env (packageName +:+ " python package alternatives replacement")
                (Some packageName) None) as [thrown | alternativesSearch] eqn:Halt;
      [ intros [= <-]; by eapply search_throws_error | ].
    destruct (search_error_iff_failed _ _ _ _ _ Hsearch) as (search & -> & _).
    by rewrite both_without_error_objects.
Qed.

(** X14: research of a package always returns. What the [try] block
    of [researchPackage] throws is an [Error], so the [catch] reads its
    message without throwing and research gives an error object with
    that message. What the block returns holds the lookup result and
    the deprecation search result, and carries a deprecation analysis,
    the one of the deprecation check for that name, exactly when
    neither of them has an [error] member. Either way the cache is left
    as the lookup left it. When every text can be encoded and nothing
    the tools await rejects with [null] or [undefined], the block
    returns. *)
Theorem research_always_returns
    (env : option SearchEnv) (faults : KvFaults) (clock : KvClock)
    (now packageName : string) (cache : option Kv) :
  let lookup := pypiLookup faults clock now packageName true cache in
  let outcome := researchPackage_try env faults clock now packageName cache in
  snd outcome = snd lookup
  /\ (forall e, fst outcome = inl e ->
        exists message,
          read_message e = inr (Some message)
          /\ research_body_of env faults clock now packageName cache = inl message)
  /\ (forall result, fst outcome = inr result ->
        fst lookup = inr (pypi_info result)
        /\ webSearch env (packageName +:+ " python package deprecated unmaintained")
             (Some packageName) None = inr (deprecation_search result)
        /\ deprecation_analysis result
           = match prop (pypi_info result) "error",
                   prop (deprecation_search result) "error" with
             | None, None => Some (packageDeprecationReport packageName)
             | _, _ => None
             end
        /\ research_body_of env faults clock now packageName cache
           = inr (Researched (deprecation_analysis result)))
  /\ ((forall text, is_Some (encodeURIComponent text)) ->
      (forall url e, fetch url = inl e -> is_nullish e = false) ->
      (forall url response e,
         fetch url = inr response -> http_json response = inl e -> is_nullish e = false) ->
      (forall url e, fetch_search url = inl e -> is_nullish e = false) ->
      (forall url response e,
         fetch_search url = inr response -> search_json response = inl e ->
         is_nullish e = false) ->
      exists result, fst outcome = inr result).
Proof.
  cbv zeta. split; [ | split; [ | split ] ].
  - unfold PackageResearch.researchPackage_try.
    by destruct (pypiLookup faults clock now packageName true cache).
  - intros e He.
    destruct (research_throws_error _ _ _ _ _ _ _ He) as [message ->].
    exists message. split; [ done | ].
    unfold PackageResearch.research_body_of. by rewrite He.
  - intros result Hresult.
    unfold PackageResearch.research_body_of. rewrite Hresult.
    revert Hresult. unfold PackageResearch.researchPackage_try.
    destruct (pypiLookup faults clock now packageName true cache)
      as [[thrown | pypiInfo] cache'] eqn:Hlookup; cbn [fst]; [ done | ].
    destruct (lookup_returns_object faults clock now packageName true cache pypiInfo)
      as [info ->]; [ by rewrite Hlookup | ].
    unfold PackageResearch.research_after_lookup.
    destruct (webSearch env (packageName +:+ " python package deprecated unmaintained")
                (Some packageName) None) as [thrown | deprecationSearch] eqn:Hsearch;
      [ done | ].
    destruct (webSearch env (packageName +:+ " python package alternatives replacement")
                (Some packageName) None) as [thrown | alternativesSearch]; [ done | ].
    destruct (search_error_iff_failed _ _ _ _ _ Hsearch) as (search & -> & _).
    rewrite both_without_error_objects. intros [= <-].
    cbn [pypi_info deprecation_search deprecation_analysis prop].
    repeat split.
    by destruct (get_field info "error"), (get_field search "error").
  - intros Hencoded Hf Hj Hsf Hsj.
    unfold PackageResearch.researchPackage_try.
    destruct (lookup_returns faults clock now packageName true cache Hencoded Hf Hj)
      as [pypiInfo Hlookup].
    destruct (lookup_returns_object faults clock now packageName true cache pypiInfo
                Hlookup) as [info ->].
    destruct (pypiLookup faults clock now packageName true cache) as [looked_up cache'].
    cbn [fst] in Hlookup |- *. subst looked_up.
    unfold PackageResearch.research_after_lookup.
    destruct (search_returns env (packageName +:+ " python package deprecated unmaintained")
                (Some packageName) None Hencoded Hsf Hsj) as [deprecationSearch Hsearch].
    destruct (search_returns env (packageName +:+ " python package alternatives replacement")
                (Some packageName) None Hencoded Hsf Hsj) as [alternativesSearch Halt].
    rewrite Hsearch, Halt.
    destruct (search_error_iff_failed _ _ _ _ _ Hsearch) as (search & -> & _).
    rewrite both_without_error_objects. by eexists.
Qed.

(** What the agent reads of a research: an error, no analysis, or the
    analysis of the deprecation check for that name. *)
Lemma research_body_cases env faults clock now packageName cache :
  (exists message, research_body_of env faults clock now packageName cache = inl message)
  \/ research_body_of env faults clock now packageName cache = inr (Researched None)
  \/ research_body_of env faults clock now packageName cache
     = inr (Researched (Some (packageDeprecationReport packageName))).
Proof.
  unfold PackageResearch.research_body_of, PackageResearch.researchPackage_try.
  destruct (pypiLookup faults clock now packageName true cache)
    as [[thrown | pypiInfo] cache'] eqn:Hlookup; cbn [fst]; [ left; by eexists | ].
  destruct (lookup_returns_object faults clock now packageName true cache pypiInfo)
    as [info ->]; [ by rewrite Hlookup | ].
  unfold PackageResearch.research_after_lookup.
  destruct (webSearch env (packageName +:+ " python package deprecated unmaintained")
              (Some packageName) None) as [thrown | deprecationSearch] eqn:Hsearch;
    [ left; by eexists | ].
  destruct (webSearch env (packageName +:+ " python package alternatives replacement")
              (Some packageName) None) as [thrown | alternativesSearch];
    [ left; by eexists | ].
  destruct (search_error_iff_failed _ _ _ _ _ Hsearch) as (search & -> & _).
  rewrite both_without_error_objects.
  destruct (get_field info "error"), (get_field search "error"); by auto.
Qed.

Lemma research_body_unconfigured env faults clock now packageName cache :
  negb (truthy_opt (env ≫= GOOGLE_SEARCH_API_KEY))
  || negb (truthy_opt (env ≫= GOOGLE_SEARCH_ENGINE_ID)) = true ->
  (exists message, research_body_of env faults clock now packageName cache = inl message)
  \/ research_body_of env faults clock now packageName cache = inr (Researched None).
Proof.
  intros Hno.
  unfold PackageResearch.research_body_of, PackageResearch.researchPackage_try.
  destruct (pypiLookup faults clock now packageName true cache)
    as [[thrown | pypiInfo] cache'] eqn:Hlookup; cbn [fst]; [ left; by eexists | ].
  destruct (lookup_returns_object faults clock now packageName true cache pypiInfo)
    as [info ->]; [ by rewrite Hlookup | ].
  unfold PackageResearch.research_after_lookup.
  destruct (webSearch env (packageName +:+ " python package deprecated unmaintained")
              (Some packageName) None) as [thrown | deprecationSearch] eqn:Hsearch;
    [ left; by eexists | ].
  destruct (webSearch env (packageName +:+ " python package alternatives replacement")
              (Some packageName) None) as [thrown | alternativesSearch];
    [ left; by eexists | ].
  destruct (search_unconfigured_fails _ _ _ _ _ Hno Hsearch) as (search & -> & Herror).
  rewrite both_without_error_objects. right.
  apply bool_decide_eq_true_1 in Herror as [e ->].
  by destruct (get_field info "error").
Qed.

(** The deprecation check flags a name only with the one evidence
    text. *)
Lemma report_flagged packageName :
  is_deprecated (packageDeprecationReport packageName) = true ->
  evidence (packageDeprecationReport packageName)
    = [ "Known deprecated package in database" ]
  /\ exists knownInfo,
       member deprecatedPackages (toLowerCase (trim packageName)) = Own knownInfo
       /\ known_deprecated knownInfo = true
       /\ alternatives (packageDeprecationReport packageName) = known_alternatives knownInfo.
Proof.
  unfold packageDeprecationReport.
  destruct (member deprecatedPackages _) as [knownInfo | | ]; try done.
  cbn [is_deprecated evidence alternatives]. intros Hflag. rewrite Hflag.
  split; [ done | ]. by exists knownInfo.
Qed.

(** X26: when the search settings are missing, research yields no
    deprecation analysis for any package, and what [resolveDependencies]
    returns is the resolution tool's result as it is: the agent's pass
    flags nothing, whatever the cache and the registry hold. *)
Theorem unconfigured_search_silences_agent
    (pypi_lookup : string -> LookupResult) (research_body : string -> string + Research)
    (env : option SearchEnv) (request : ResolutionRequest) :
  negb (truthy_opt (env ≫= GOOGLE_SEARCH_API_KEY))
  || negb (truthy_opt (env ≫= GOOGLE_SEARCH_ENGINE_ID)) = true ->
  (forall packageName, exists faults clock now cache,
      research_body packageName
      = research_body_of env faults clock now packageName cache) ->
  Agent.resolutionOutcome pypi_lookup research_body None request
  = dependencyResolution pypi_lookup (requirements request).
Proof.
  intros Hno Hbody. unfold Agent.resolutionOutcome, enhance.
  destruct (resolved_packages _) as [pkgs | ]; [ | done ].
  destruct (researchDeprecated _ pkgs) as [ | d ds ] eqn:Hpass; [ done | ].
  assert (In d (d :: ds)) as Hd by (by left). rewrite <- Hpass in Hd.
  apply researchDeprecated_fold in Hd as [[] | (pkg & a & _ & Hr & _)].
  unfold Agent.researchMultiplePackages in Hr. rewrite research_fold in Hr.
  destruct (bool_decide _); [ | by rewrite lookup_empty in Hr ].
  unfold Agent.researchPackage in Hr.
  destruct (Hbody (pkg_name pkg)) as (faults & clock & now & cache & Heq).
  rewrite Heq in Hr.
  destruct (research_body_unconfigured _ faults clock now (pkg_name pkg) cache Hno)
    as [[message Hc] | Hc]; by rewrite Hc in Hr.
Qed.

(** X15: when every research is the outcome of [researchPackage], each
    entry the agent's pass produces has the reason "Known deprecated
    package in database", whatever reason the resolution tool gave, and
    a name that, trimmed and lower-cased, is an entry of the deprecation
    table marked deprecated, whose first alternative it suggests. *)
Theorem agent_flags_carry_database_evidence
    (research_body : string -> string + Research) (env : option SearchEnv)
    (packageNames : list string) (pkgs : list ResolvedPackage) (d : DeprecatedPackage) :
  (forall packageName, exists faults clock now cache,
      research_body packageName
      = research_body_of env faults clock now packageName cache) ->
  In d (researchDeprecated (Agent.researchMultiplePackages research_body packageNames) pkgs) ->
  dep_reason d = "Known deprecated package in database"
  /\ exists knownInfo,
       member deprecatedPackages (toLowerCase (trim (dep_name d))) = Own knownInfo
       /\ known_deprecated knownInfo = true
       /\ dep_suggested_alternative d = head (known_alternatives knownInfo).
Proof.
  intros Hbody Hd.
  apply researchDeprecated_fold in Hd as [[] | (pkg & a & _ & Hr & Ha & ->)].
  cbn [dep_name dep_reason dep_suggested_alternative].
  unfold Agent.researchMultiplePackages in Hr. rewrite research_fold in Hr.
  destruct (bool_decide _); [ | by rewrite lookup_empty in Hr ].
  unfold Agent.researchPackage in Hr.
  destruct (Hbody (pkg_name pkg)) as (faults & clock & now & cache & Heq).
  rewrite Heq in Hr.
  destruct (research_body_cases env faults clock now (pkg_name pkg) cache)
    as [[message Hc] | [Hc | Hc]];
    rewrite Hc in Hr; [ done | done | ].
  injection Hr as <-. apply report_flagged in Ha as (-> & knownInfo & Hown & Hdep & ->).
  split; [ done | ]. by exists knownInfo.
Qed.

End Service.

Lemma unconfigured_search_witness :
  Agent.resolutionOutcome registry
    (fun packageName =>
       PackageResearch.research_body_of unreserved no_dates (@insertion_sort VersionEntry)
         pypi_server plain_url search_server search_unconfigured kv_works first_call "t0"
         packageName None)
    None (mkRequest [ nose_any ] "3.9" false true true true)
  = dependencyResolution registry
      (requirements (mkRequest [ nose_any ] "3.9" false true true true)).
Proof.
  apply (unconfigured_search_silences_agent unreserved no_dates
           (@insertion_sort VersionEntry) pypi_server plain_url search_server registry
           (fun packageName =>
              PackageResearch.research_body_of unreserved no_dates
                (@insertion_sort VersionEntry) pypi_server plain_url search_server
                search_unconfigured kv_works first_call "t0" packageName None)
           search_unconfigured (mkRequest [ nose_any ] "3.9" false true true true)).
  - reflexivity.
  - intros packageName. exists kv_works, first_call, "t0", None. reflexivity.
Defined.

Lemma agent_flags_evidence_witness :
  "Known deprecated package in database" = "Known deprecated package in database"
  /\ exists knownInfo,
       member deprecatedPackages (toLowerCase (trim "nose")) = Own knownInfo
       /\ known_deprecated knownInfo = true
       /\ Some "pytest" = head (known_alternatives knownInfo).
Proof.
  apply (agent_flags_carry_database_evidence unreserved no_dates
           (@insertion_sort VersionEntry) nose_server plain_url search_server
           (fun packageName =>
              PackageResearch.research_body_of unreserved no_dates
                (@insertion_sort VersionEntry) nose_server plain_url search_server
                search_configured kv_works first_call "t0" packageName None)
           search_configured [ "nose" ] [ mkResolved "nose" (Some "1.3.7") ]
           (mkDeprecated "nose" (Some "1.3.7") "Known deprecated package in database"
              (Some "pytest"))).
  - intros packageName. exists kv_works, first_call, "t0", None. reflexivity.
  - vm_compute. by left.
Defined.

End ResearchExtras.
